(** * Push descriptors with update templates: a shallow embedding

    This development embeds the example
    [examples/pushdescriptorswithtemplate/pushdescriptorswithtemplate.cpp]
    and checks the statements of its design document against it.

    - C++ [float] is IEEE-754 binary32, taken from the Standard Library's
      [SpecFloat] (round to nearest even, 24 bits of precision).
    - GLM is an interface ([Glm]); the example only composes its calls.
    - The Vulkan device is an oracle ([Device]) answering each call, and
      the program's observable behaviour is the chronological list of the
      API calls it makes ([calls]). *)

From Stdlib Require Import ZArith List String Bool Lia.
From Stdlib Require Import Floats.SpecFloat.
Import ListNotations.

Local Open Scope Z_scope.

(** ** binary32 arithmetic *)

Module Float32.

Definition float := spec_float.

Definition prec : Z := 24.
Definition emax : Z := 128.

Definition add : float -> float -> float := SFadd prec emax.
Definition sub : float -> float -> float := SFsub prec emax.
Definition mul : float -> float -> float := SFmul prec emax.

(** [x > y] of C++: false as soon as one side is a NaN. *)
Definition gtb (x y : float) : bool := SFltb y x.
Definition ltb (x y : float) : bool := SFltb x y.
Definition leb (x y : float) : bool := SFleb x y.

Definition valid (x : float) : bool := valid_binary prec emax x.

(** The literal [m * 2^e], rounded to binary32. *)
Definition lit (m e : Z) : float := binary_normalize prec emax m e false.

Definition zero : float := S754_zero false.

Definition c0_25 : float := Eval vm_compute in lit 1 (-2).
Definition c0_5 : float := Eval vm_compute in lit 1 (-1).
Definition c1 : float := Eval vm_compute in lit 1 0.
Definition c1_5 : float := Eval vm_compute in lit 3 (-1).
Definition c2 : float := Eval vm_compute in lit 2 0.
Definition c2_5 : float := Eval vm_compute in lit 5 (-1).
Definition c360 : float := Eval vm_compute in lit 360 0.
Definition c_neg2 : float := Eval vm_compute in lit (-2) 0.


(** Zero or a positive finite value. *)
Definition nonneg_finite (x : float) : bool :=
  match x with
  | S754_zero _ => true
  | S754_finite false _ _ => true
  | _ => false
  end.

(** The value of a non-negative binary32 in units of [2^-149], the
    smallest positive binary32: an integer. *)
Definition scaled (x : float) : Z :=
  match x with
  | S754_finite false m e => Zpos m * 2 ^ (e + 149)
  | _ => 0
  end.

(** [V] lies on the same side as [U] of every binary32 value
    [mb * 2^j] (in the same units): no binary32 value lies strictly
    between [U] and [V]. *)
Definition faithful (U V : Z) : Prop :=
  forall mb j, 0 <= j -> 0 <= mb < 2 ^ 24 ->
    (mb * 2 ^ j <= U -> mb * 2 ^ j <= V)
    /\ (U <= mb * 2 ^ j -> V <= mb * 2 ^ j).
End Float32.

Abbreviation float := Float32.float.

(** ** Vulkan data the example handles *)

(** Handles and function pointers are machine words; the null value is 0. *)
Definition Handle := Z.
Definition PFN := Z.
Definition VK_NULL_HANDLE : Z := 0.

Inductive VkResult :=
| VK_SUCCESS
| VK_ERROR (code : Z).

Definition is_success (r : VkResult) : bool :=
  match r with VK_SUCCESS => true | VK_ERROR _ => false end.

Inductive VkDescriptorType :=
| VK_DESCRIPTOR_TYPE_UNIFORM_BUFFER
| VK_DESCRIPTOR_TYPE_COMBINED_IMAGE_SAMPLER.

Inductive VkShaderStageFlagBits :=
| VK_SHADER_STAGE_VERTEX_BIT
| VK_SHADER_STAGE_FRAGMENT_BIT.

Inductive VkPipelineBindPoint :=
| VK_PIPELINE_BIND_POINT_GRAPHICS.

Inductive VkDescriptorUpdateTemplateType :=
| VK_DESCRIPTOR_UPDATE_TEMPLATE_TYPE_DESCRIPTOR_SET
| VK_DESCRIPTOR_UPDATE_TEMPLATE_TYPE_PUSH_DESCRIPTORS_KHR.

Record VkDescriptorBufferInfo := {
  bi_buffer : Handle;
  bi_offset : Z;
  bi_range : Z
}.

Record VkDescriptorImageInfo := {
  ii_sampler : Handle;
  ii_imageView : Handle;
  ii_imageLayout : Z
}.

(** [struct DescriptorData], the blob a template reads. *)
Record DescriptorData := {
  uniform_buffer : VkDescriptorBufferInfo;
  cube_uniform_buffer : VkDescriptorBufferInfo;
  cube_texture : VkDescriptorImageInfo
}.

Record VkDescriptorSetLayoutBinding := {
  lb_binding : Z;
  lb_descriptorType : VkDescriptorType;
  lb_descriptorCount : Z;
  lb_stageFlags : VkShaderStageFlagBits
}.

Record VkDescriptorSetLayoutCreateInfo := {
  dl_pushDescriptor : bool;
  dl_bindingCount : Z;
  dl_pBindings : list VkDescriptorSetLayoutBinding
}.

Record VkDescriptorUpdateTemplateEntry := {
  dstBinding : Z;
  dstArrayElement : Z;
  descriptorCount : Z;
  descriptorType : VkDescriptorType;
  te_offset : Z;
  te_stride : Z
}.

Record VkDescriptorUpdateTemplateCreateInfo := {
  ti_flags : Z;
  ti_descriptorUpdateEntryCount : Z;
  ti_pDescriptorUpdateEntries : list VkDescriptorUpdateTemplateEntry;
  ti_templateType : VkDescriptorUpdateTemplateType;
  ti_descriptorSetLayout : Handle;
  ti_pipelineBindPoint : VkPipelineBindPoint;
  ti_pipelineLayout : Handle;
  ti_set : Z
}.

Record VkPushDescriptorSetWithTemplateInfoKHR := {
  pi_descriptorUpdateTemplate : Handle;
  pi_layout : Handle;
  pi_set : Z;
  pi_pData : DescriptorData
}.

(** ** Object sizes

    [sizeof] follows the C layout rules: each field at the next multiple
    of its alignment, the whole rounded up to the largest alignment.
    The Vulkan headers fix the fields; the platform fixes how a 64-bit
    scalar is aligned. *)

Record CType := { c_size : Z; c_align : Z }.

Definition align_up (off a : Z) : Z := ((off + a - 1) / a) * a.

Fixpoint struct_end (off : Z) (fields : list CType) : Z :=
  match fields with
  | [] => off
  | f :: rest => struct_end (align_up off (c_align f) + c_size f) rest
  end.

Definition struct_align (fields : list CType) : Z :=
  fold_right (fun f a => Z.max (c_align f) a) 1 fields.

Definition c_struct (fields : list CType) : CType :=
  {| c_size := align_up (struct_end 0 fields) (struct_align fields);
     c_align := struct_align fields |}.

Inductive Abi :=
| Align64   (* 64-bit scalars aligned on 8 bytes *)
| Align32.  (* 64-bit scalars aligned on 4 bytes (i386 System V) *)

Definition u64_align (abi : Abi) : Z :=
  match abi with Align64 => 8 | Align32 => 4 end.

Section Sizes.
Variable abi : Abi.

(** Non-dispatchable handles and [VkDeviceSize] are 64-bit; an enum
    is a 32-bit [int]. *)
Definition t_u64 : CType := {| c_size := 8; c_align := u64_align abi |}.
Definition t_enum : CType := {| c_size := 4; c_align := 4 |}.

Definition t_VkDescriptorBufferInfo : CType := c_struct [t_u64; t_u64; t_u64].
Definition t_VkDescriptorImageInfo : CType := c_struct [t_u64; t_u64; t_enum].
Definition t_DescriptorData : CType :=
  c_struct [t_VkDescriptorBufferInfo; t_VkDescriptorBufferInfo; t_VkDescriptorImageInfo].

Definition sizeof_VkDescriptorBufferInfo : Z := c_size t_VkDescriptorBufferInfo.
Definition sizeof_VkDescriptorImageInfo : Z := c_size t_VkDescriptorImageInfo.
Definition sizeof_DescriptorData : Z := c_size t_DescriptorData.

(** What a template reads at an entry's offset. *)
Definition descriptor_size (k : VkDescriptorType) : Z :=
  match k with
  | VK_DESCRIPTOR_TYPE_UNIFORM_BUFFER => sizeof_VkDescriptorBufferInfo
  | VK_DESCRIPTOR_TYPE_COMBINED_IMAGE_SAMPLER => sizeof_VkDescriptorImageInfo
  end.

(** [template_entries] of [prepare]. *)
Definition template_entries : list VkDescriptorUpdateTemplateEntry :=
  [ {| dstBinding := 0; dstArrayElement := 0; descriptorCount := 1;
       descriptorType := VK_DESCRIPTOR_TYPE_UNIFORM_BUFFER;
       te_offset := 0;
       te_stride := sizeof_DescriptorData |};
    {| dstBinding := 1; dstArrayElement := 0; descriptorCount := 1;
       descriptorType := VK_DESCRIPTOR_TYPE_UNIFORM_BUFFER;
       te_offset := sizeof_VkDescriptorBufferInfo;
       te_stride := sizeof_DescriptorData |};
    {| dstBinding := 2; dstArrayElement := 0; descriptorCount := 1;
       descriptorType := VK_DESCRIPTOR_TYPE_COMBINED_IMAGE_SAMPLER;
       te_offset := 2 * sizeof_VkDescriptorBufferInfo;
       te_stride := sizeof_DescriptorData |} ].

(** The TemplateEntry invariant as the design document words it:
    the offset plus the descriptor size of the kind fits the blob, the
    stride is the blob's record size, and the stride is non-zero only
    when [descriptorCount > 1]. *)
Definition TemplateEntry_invariant (e : VkDescriptorUpdateTemplateEntry) : Prop :=
  te_offset e + descriptor_size (descriptorType e) <= sizeof_DescriptorData
  /\ te_stride e = sizeof_DescriptorData
  /\ (te_stride e <> 0 -> descriptorCount e > 1).

(** What the entries of [prepare] satisfy. *)
Definition TemplateEntry_holds (e : VkDescriptorUpdateTemplateEntry) : Prop :=
  0 <= te_offset e
  /\ te_offset e + descriptor_size (descriptorType e) <= sizeof_DescriptorData
  /\ te_stride e = sizeof_DescriptorData
  /\ te_stride e <> 0
  /\ descriptorCount e = 1.
End Sizes.

(** ** GLM *)

Record vec3 := { vx : float; vy : float; vz : float }.

(** [glm::vec3(s)] *)
Definition vec3_splat (s : float) : vec3 := {| vx := s; vy := s; vz := s |}.

(** The GLM calls of the example.  [mat4_1] is [glm::mat4(1.0f)]. *)
Class Glm := {
  mat4 : Type;
  mat4_1 : mat4;
  translate : mat4 -> vec3 -> mat4;
  rotate : mat4 -> float -> vec3 -> mat4;
  scale : mat4 -> vec3 -> mat4;
  radians : float -> float
}.

(** ** The program state *)

(** [vks::Buffer]: its descriptor and what was copied to its mapping. *)
Record Buffer (A : Type) := {
  descriptor : VkDescriptorBufferInfo;
  mapped : option A
}.
Arguments descriptor {A} _.
Arguments mapped {A} _.

(** The calls the program makes, with their arguments.  A call through a
    loaded entry point carries the pointer it goes through. *)
Inductive ApiCall :=
| vkGetDeviceProcAddr (name : string)
| vkGetInstanceProcAddr (name : string)
| vkGetPhysicalDeviceProperties2KHR (pfn : PFN)
| vkCreateDescriptorUpdateTemplateKHR (pfn : PFN)
    (info : VkDescriptorUpdateTemplateCreateInfo)
| vkCreateDescriptorSetLayout (ci : VkDescriptorSetLayoutCreateInfo)
| vkCreatePipelineLayout (setLayouts : list Handle)
| vkCreateGraphicsPipelines (layout : Handle)
| createBuffer (size : Z)
| mapBuffer (buffer : Handle)
| loadFromFile (path : string)
| vkBeginCommandBuffer (cb : Handle)
| vkCmdBeginRenderPass (cb : Handle) (framebuffer : Handle)
| vkCmdBindPipeline (cb : Handle) (pipeline : Handle)
| vkCmdSetViewport (cb : Handle)
| vkCmdSetScissor (cb : Handle)
| bindBuffers (cb : Handle)
| vkCmdPushDescriptorSetWithTemplateKHR (pfn : PFN) (cb : Handle)
    (descriptorUpdateTemplate : Handle) (layout : Handle) (set : Z)
    (pData : DescriptorData)
| vkCmdPushDescriptorSetWithTemplate2KHR (pfn : PFN) (cb : Handle)
    (info : VkPushDescriptorSetWithTemplateInfoKHR)
| modelDraw (cb : Handle)
| drawUI (cb : Handle)
| vkCmdEndRenderPass (cb : Handle)
| vkEndCommandBuffer (cb : Handle)
| prepareFrame
| vkQueueSubmit (cb : Handle)
| submitFrame.

(** The device and the loaders answer each call; an answer may depend on
    the calls made so far. *)
Record Device := {
  dev_GetDeviceProcAddr : string -> PFN;
  dev_GetInstanceProcAddr : string -> PFN;
  dev_maxPushDescriptors : Z;
  dev_CreateDescriptorUpdateTemplate :
    list ApiCall -> VkDescriptorUpdateTemplateCreateInfo -> VkResult * Handle;
  dev_CreateDescriptorSetLayout :
    list ApiCall -> VkDescriptorSetLayoutCreateInfo -> VkResult * Handle;
  dev_CreatePipelineLayout : list ApiCall -> list Handle -> VkResult * Handle;
  dev_CreateGraphicsPipelines : list ApiCall -> Handle -> VkResult * Handle;
  dev_createBuffer : list ApiCall -> Z -> VkResult * VkDescriptorBufferInfo;
  dev_map : list ApiCall -> Handle -> VkResult;
  dev_loadTexture : list ApiCall -> string -> VkDescriptorImageInfo;
  dev_BeginCommandBuffer : list ApiCall -> Handle -> VkResult;
  dev_EndCommandBuffer : list ApiCall -> Handle -> VkResult;
  dev_currentBuffer : list ApiCall -> nat;
  dev_QueueSubmit : list ApiCall -> Handle -> VkResult
}.

Section Program.
Context {G : Glm}.

Record Cube := {
  texture : VkDescriptorImageInfo;
  cube_uniformBuffer : Buffer mat4;
  rotation : vec3;
  modelMat : mat4
}.

Record UniformData := {
  projection : mat4;
  view : mat4
}.

(** The members of [VulkanExample] and of its base class that the
    example reads or writes, the function-local [static bool useNew],
    and the calls made so far. *)
Record VulkanExample := {
  animate : bool;
  pfn_vkCmdPushDescriptorSetKHR : PFN;
  pfn_vkCmdPushDescriptorSetWithTemplateKHR : PFN;
  pfn_vkCmdPushDescriptorSetWithTemplate2KHR : PFN;
  pfn_vkCreateDescriptorUpdateTemplateKHR : PFN;
  maxPushDescriptors : Z;
  cubes : Cube * Cube;
  uniformData : UniformData;
  uniformBuffer : Buffer UniformData;
  pipeline : Handle;
  pipelineLayout : Handle;
  descriptorSetLayout : Handle;
  descriptorTemplate : Handle;
  (* VulkanExampleBase *)
  paused : bool;
  prepared : bool;
  frameTimer : float;
  camera_perspective : mat4;
  camera_view : mat4;
  drawCmdBuffers : list Handle;
  frameBuffers : list Handle;
  (* static *)
  useNew : bool;
  (* trace *)
  calls : list ApiCall
}.

(** *** Assignments to one member *)

Definition set_pfn_vkCmdPushDescriptorSetKHR (v : PFN) (s : VulkanExample) : VulkanExample :=
  {| animate := animate s; pfn_vkCmdPushDescriptorSetKHR := v;
     pfn_vkCmdPushDescriptorSetWithTemplateKHR := pfn_vkCmdPushDescriptorSetWithTemplateKHR s;
     pfn_vkCmdPushDescriptorSetWithTemplate2KHR := pfn_vkCmdPushDescriptorSetWithTemplate2KHR s;
     pfn_vkCreateDescriptorUpdateTemplateKHR := pfn_vkCreateDescriptorUpdateTemplateKHR s;
     maxPushDescriptors := maxPushDescriptors s; cubes := cubes s;
     uniformData := uniformData s; uniformBuffer := uniformBuffer s;
     pipeline := pipeline s; pipelineLayout := pipelineLayout s;
     descriptorSetLayout := descriptorSetLayout s;
     descriptorTemplate := descriptorTemplate s; paused := paused s;
     prepared := prepared s; frameTimer := frameTimer s;
     camera_perspective := camera_perspective s;
     camera_view := camera_view s; drawCmdBuffers := drawCmdBuffers s;
     frameBuffers := frameBuffers s; useNew := useNew s; calls := calls s |}.

Definition set_pfn_vkCmdPushDescriptorSetWithTemplateKHR (v : PFN) (s : VulkanExample) : VulkanExample :=
  {| animate := animate s;
     pfn_vkCmdPushDescriptorSetKHR := pfn_vkCmdPushDescriptorSetKHR s;
     pfn_vkCmdPushDescriptorSetWithTemplateKHR := v;
     pfn_vkCmdPushDescriptorSetWithTemplate2KHR := pfn_vkCmdPushDescriptorSetWithTemplate2KHR s;
     pfn_vkCreateDescriptorUpdateTemplateKHR := pfn_vkCreateDescriptorUpdateTemplateKHR s;
     maxPushDescriptors := maxPushDescriptors s; cubes := cubes s;
     uniformData := uniformData s; uniformBuffer := uniformBuffer s;
     pipeline := pipeline s; pipelineLayout := pipelineLayout s;
     descriptorSetLayout := descriptorSetLayout s;
     descriptorTemplate := descriptorTemplate s; paused := paused s;
     prepared := prepared s; frameTimer := frameTimer s;
     camera_perspective := camera_perspective s;
     camera_view := camera_view s; drawCmdBuffers := drawCmdBuffers s;
     frameBuffers := frameBuffers s; useNew := useNew s; calls := calls s |}.

Definition set_pfn_vkCmdPushDescriptorSetWithTemplate2KHR (v : PFN) (s : VulkanExample) : VulkanExample :=
  {| animate := animate s;
     pfn_vkCmdPushDescriptorSetKHR := pfn_vkCmdPushDescriptorSetKHR s;
     pfn_vkCmdPushDescriptorSetWithTemplateKHR := pfn_vkCmdPushDescriptorSetWithTemplateKHR s;
     pfn_vkCmdPushDescriptorSetWithTemplate2KHR := v;
     pfn_vkCreateDescriptorUpdateTemplateKHR := pfn_vkCreateDescriptorUpdateTemplateKHR s;
     maxPushDescriptors := maxPushDescriptors s; cubes := cubes s;
     uniformData := uniformData s; uniformBuffer := uniformBuffer s;
     pipeline := pipeline s; pipelineLayout := pipelineLayout s;
     descriptorSetLayout := descriptorSetLayout s;
     descriptorTemplate := descriptorTemplate s; paused := paused s;
     prepared := prepared s; frameTimer := frameTimer s;
     camera_perspective := camera_perspective s;
     camera_view := camera_view s; drawCmdBuffers := drawCmdBuffers s;
     frameBuffers := frameBuffers s; useNew := useNew s; calls := calls s |}.

Definition set_pfn_vkCreateDescriptorUpdateTemplateKHR (v : PFN) (s : VulkanExample) : VulkanExample :=
  {| animate := animate s;
     pfn_vkCmdPushDescriptorSetKHR := pfn_vkCmdPushDescriptorSetKHR s;
     pfn_vkCmdPushDescriptorSetWithTemplateKHR := pfn_vkCmdPushDescriptorSetWithTemplateKHR s;
     pfn_vkCmdPushDescriptorSetWithTemplate2KHR := pfn_vkCmdPushDescriptorSetWithTemplate2KHR s;
     pfn_vkCreateDescriptorUpdateTemplateKHR := v;
     maxPushDescriptors := maxPushDescriptors s; cubes := cubes s;
     uniformData := uniformData s; uniformBuffer := uniformBuffer s;
     pipeline := pipeline s; pipelineLayout := pipelineLayout s;
     descriptorSetLayout := descriptorSetLayout s;
     descriptorTemplate := descriptorTemplate s; paused := paused s;
     prepared := prepared s; frameTimer := frameTimer s;
     camera_perspective := camera_perspective s;
     camera_view := camera_view s; drawCmdBuffers := drawCmdBuffers s;
     frameBuffers := frameBuffers s; useNew := useNew s; calls := calls s |}.

Definition set_maxPushDescriptors (v : Z) (s : VulkanExample) : VulkanExample :=
  {| animate := animate s;
     pfn_vkCmdPushDescriptorSetKHR := pfn_vkCmdPushDescriptorSetKHR s;
     pfn_vkCmdPushDescriptorSetWithTemplateKHR := pfn_vkCmdPushDescriptorSetWithTemplateKHR s;
     pfn_vkCmdPushDescriptorSetWithTemplate2KHR := pfn_vkCmdPushDescriptorSetWithTemplate2KHR s;
     pfn_vkCreateDescriptorUpdateTemplateKHR := pfn_vkCreateDescriptorUpdateTemplateKHR s;
     maxPushDescriptors := v; cubes := cubes s;
     uniformData := uniformData s; uniformBuffer := uniformBuffer s;
     pipeline := pipeline s; pipelineLayout := pipelineLayout s;
     descriptorSetLayout := descriptorSetLayout s;
     descriptorTemplate := descriptorTemplate s; paused := paused s;
     prepared := prepared s; frameTimer := frameTimer s;
     camera_perspective := camera_perspective s;
     camera_view := camera_view s; drawCmdBuffers := drawCmdBuffers s;
     frameBuffers := frameBuffers s; useNew := useNew s; calls := calls s |}.

Definition set_cubes (v : Cube * Cube) (s : VulkanExample) : VulkanExample :=
  {| animate := animate s;
     pfn_vkCmdPushDescriptorSetKHR := pfn_vkCmdPushDescriptorSetKHR s;
     pfn_vkCmdPushDescriptorSetWithTemplateKHR := pfn_vkCmdPushDescriptorSetWithTemplateKHR s;
     pfn_vkCmdPushDescriptorSetWithTemplate2KHR := pfn_vkCmdPushDescriptorSetWithTemplate2KHR s;
     pfn_vkCreateDescriptorUpdateTemplateKHR := pfn_vkCreateDescriptorUpdateTemplateKHR s;
     maxPushDescriptors := maxPushDescriptors s; cubes := v;
     uniformData := uniformData s; uniformBuffer := uniformBuffer s;
     pipeline := pipeline s; pipelineLayout := pipelineLayout s;
     descriptorSetLayout := descriptorSetLayout s;
     descriptorTemplate := descriptorTemplate s; paused := paused s;
     prepared := prepared s; frameTimer := frameTimer s;
     camera_perspective := camera_perspective s;
     camera_view := camera_view s; drawCmdBuffers := drawCmdBuffers s;
     frameBuffers := frameBuffers s; useNew := useNew s; calls := calls s |}.

Definition set_uniformData (v : UniformData) (s : VulkanExample) : VulkanExample :=
  {| animate := animate s;
     pfn_vkCmdPushDescriptorSetKHR := pfn_vkCmdPushDescriptorSetKHR s;
     pfn_vkCmdPushDescriptorSetWithTemplateKHR := pfn_vkCmdPushDescriptorSetWithTemplateKHR s;
     pfn_vkCmdPushDescriptorSetWithTemplate2KHR := pfn_vkCmdPushDescriptorSetWithTemplate2KHR s;
     pfn_vkCreateDescriptorUpdateTemplateKHR := pfn_vkCreateDescriptorUpdateTemplateKHR s;
     maxPushDescriptors := maxPushDescriptors s; cubes := cubes s;
     uniformData := v; uniformBuffer := uniformBuffer s;
     pipeline := pipeline s; pipelineLayout := pipelineLayout s;
     descriptorSetLayout := descriptorSetLayout s;
     descriptorTemplate := descriptorTemplate s; paused := paused s;
     prepared := prepared s; frameTimer := frameTimer s;
     camera_perspective := camera_perspective s;
     camera_view := camera_view s; drawCmdBuffers := drawCmdBuffers s;
     frameBuffers := frameBuffers s; useNew := useNew s; calls := calls s |}.

Definition set_uniformBuffer (v : Buffer UniformData) (s : VulkanExample) : VulkanExample :=
  {| animate := animate s;
     pfn_vkCmdPushDescriptorSetKHR := pfn_vkCmdPushDescriptorSetKHR s;
     pfn_vkCmdPushDescriptorSetWithTemplateKHR := pfn_vkCmdPushDescriptorSetWithTemplateKHR s;
     pfn_vkCmdPushDescriptorSetWithTemplate2KHR := pfn_vkCmdPushDescriptorSetWithTemplate2KHR s;
     pfn_vkCreateDescriptorUpdateTemplateKHR := pfn_vkCreateDescriptorUpdateTemplateKHR s;
     maxPushDescriptors := maxPushDescriptors s; cubes := cubes s;
     uniformData := uniformData s; uniformBuffer := v;
     pipeline := pipeline s; pipelineLayout := pipelineLayout s;
     descriptorSetLayout := descriptorSetLayout s;
     descriptorTemplate := descriptorTemplate s; paused := paused s;
     prepared := prepared s; frameTimer := frameTimer s;
     camera_perspective := camera_perspective s;
     camera_view := camera_view s; drawCmdBuffers := drawCmdBuffers s;
     frameBuffers := frameBuffers s; useNew := useNew s; calls := calls s |}.

Definition set_pipeline (v : Handle) (s : VulkanExample) : VulkanExample :=
  {| animate := animate s;
     pfn_vkCmdPushDescriptorSetKHR := pfn_vkCmdPushDescriptorSetKHR s;
     pfn_vkCmdPushDescriptorSetWithTemplateKHR := pfn_vkCmdPushDescriptorSetWithTemplateKHR s;
     pfn_vkCmdPushDescriptorSetWithTemplate2KHR := pfn_vkCmdPushDescriptorSetWithTemplate2KHR s;
     pfn_vkCreateDescriptorUpdateTemplateKHR := pfn_vkCreateDescriptorUpdateTemplateKHR s;
     maxPushDescriptors := maxPushDescriptors s; cubes := cubes s;
     uniformData := uniformData s; uniformBuffer := uniformBuffer s;
     pipeline := v; pipelineLayout := pipelineLayout s;
     descriptorSetLayout := descriptorSetLayout s;
     descriptorTemplate := descriptorTemplate s; paused := paused s;
     prepared := prepared s; frameTimer := frameTimer s;
     camera_perspective := camera_perspective s;
     camera_view := camera_view s; drawCmdBuffers := drawCmdBuffers s;
     frameBuffers := frameBuffers s; useNew := useNew s; calls := calls s |}.

Definition set_pipelineLayout (v : Handle) (s : VulkanExample) : VulkanExample :=
  {| animate := animate s;
     pfn_vkCmdPushDescriptorSetKHR := pfn_vkCmdPushDescriptorSetKHR s;
     pfn_vkCmdPushDescriptorSetWithTemplateKHR := pfn_vkCmdPushDescriptorSetWithTemplateKHR s;
     pfn_vkCmdPushDescriptorSetWithTemplate2KHR := pfn_vkCmdPushDescriptorSetWithTemplate2KHR s;
     pfn_vkCreateDescriptorUpdateTemplateKHR := pfn_vkCreateDescriptorUpdateTemplateKHR s;
     maxPushDescriptors := maxPushDescriptors s; cubes := cubes s;
     uniformData := uniformData s; uniformBuffer := uniformBuffer s;
     pipeline := pipeline s; pipelineLayout := v;
     descriptorSetLayout := descriptorSetLayout s;
     descriptorTemplate := descriptorTemplate s; paused := paused s;
     prepared := prepared s; frameTimer := frameTimer s;
     camera_perspective := camera_perspective s;
     camera_view := camera_view s; drawCmdBuffers := drawCmdBuffers s;
     frameBuffers := frameBuffers s; useNew := useNew s; calls := calls s |}.

Definition set_descriptorSetLayout (v : Handle) (s : VulkanExample) : VulkanExample :=
  {| animate := animate s;
     pfn_vkCmdPushDescriptorSetKHR := pfn_vkCmdPushDescriptorSetKHR s;
     pfn_vkCmdPushDescriptorSetWithTemplateKHR := pfn_vkCmdPushDescriptorSetWithTemplateKHR s;
     pfn_vkCmdPushDescriptorSetWithTemplate2KHR := pfn_vkCmdPushDescriptorSetWithTemplate2KHR s;
     pfn_vkCreateDescriptorUpdateTemplateKHR := pfn_vkCreateDescriptorUpdateTemplateKHR s;
     maxPushDescriptors := maxPushDescriptors s; cubes := cubes s;
     uniformData := uniformData s; uniformBuffer := uniformBuffer s;
     pipeline := pipeline s; pipelineLayout := pipelineLayout s;
     descriptorSetLayout := v; descriptorTemplate := descriptorTemplate s;
     paused := paused s; prepared := prepared s;
     frameTimer := frameTimer s;
     camera_perspective := camera_perspective s;
     camera_view := camera_view s; drawCmdBuffers := drawCmdBuffers s;
     frameBuffers := frameBuffers s; useNew := useNew s; calls := calls s |}.

Definition set_descriptorTemplate (v : Handle) (s : VulkanExample) : VulkanExample :=
  {| animate := animate s;
     pfn_vkCmdPushDescriptorSetKHR := pfn_vkCmdPushDescriptorSetKHR s;
     pfn_vkCmdPushDescriptorSetWithTemplateKHR := pfn_vkCmdPushDescriptorSetWithTemplateKHR s;
     pfn_vkCmdPushDescriptorSetWithTemplate2KHR := pfn_vkCmdPushDescriptorSetWithTemplate2KHR s;
     pfn_vkCreateDescriptorUpdateTemplateKHR := pfn_vkCreateDescriptorUpdateTemplateKHR s;
     maxPushDescriptors := maxPushDescriptors s; cubes := cubes s;
     uniformData := uniformData s; uniformBuffer := uniformBuffer s;
     pipeline := pipeline s; pipelineLayout := pipelineLayout s;
     descriptorSetLayout := descriptorSetLayout s;
     descriptorTemplate := v; paused := paused s; prepared := prepared s;
     frameTimer := frameTimer s;
     camera_perspective := camera_perspective s;
     camera_view := camera_view s; drawCmdBuffers := drawCmdBuffers s;
     frameBuffers := frameBuffers s; useNew := useNew s; calls := calls s |}.

Definition set_prepared (v : bool) (s : VulkanExample) : VulkanExample :=
  {| animate := animate s;
     pfn_vkCmdPushDescriptorSetKHR := pfn_vkCmdPushDescriptorSetKHR s;
     pfn_vkCmdPushDescriptorSetWithTemplateKHR := pfn_vkCmdPushDescriptorSetWithTemplateKHR s;
     pfn_vkCmdPushDescriptorSetWithTemplate2KHR := pfn_vkCmdPushDescriptorSetWithTemplate2KHR s;
     pfn_vkCreateDescriptorUpdateTemplateKHR := pfn_vkCreateDescriptorUpdateTemplateKHR s;
     maxPushDescriptors := maxPushDescriptors s; cubes := cubes s;
     uniformData := uniformData s; uniformBuffer := uniformBuffer s;
     pipeline := pipeline s; pipelineLayout := pipelineLayout s;
     descriptorSetLayout := descriptorSetLayout s;
     descriptorTemplate := descriptorTemplate s; paused := paused s;
     prepared := v; frameTimer := frameTimer s;
     camera_perspective := camera_perspective s;
     camera_view := camera_view s; drawCmdBuffers := drawCmdBuffers s;
     frameBuffers := frameBuffers s; useNew := useNew s; calls := calls s |}.

Definition set_frameTimer (v : float) (s : VulkanExample) : VulkanExample :=
  {| animate := animate s;
     pfn_vkCmdPushDescriptorSetKHR := pfn_vkCmdPushDescriptorSetKHR s;
     pfn_vkCmdPushDescriptorSetWithTemplateKHR := pfn_vkCmdPushDescriptorSetWithTemplateKHR s;
     pfn_vkCmdPushDescriptorSetWithTemplate2KHR := pfn_vkCmdPushDescriptorSetWithTemplate2KHR s;
     pfn_vkCreateDescriptorUpdateTemplateKHR := pfn_vkCreateDescriptorUpdateTemplateKHR s;
     maxPushDescriptors := maxPushDescriptors s; cubes := cubes s;
     uniformData := uniformData s; uniformBuffer := uniformBuffer s;
     pipeline := pipeline s; pipelineLayout := pipelineLayout s;
     descriptorSetLayout := descriptorSetLayout s;
     descriptorTemplate := descriptorTemplate s; paused := paused s;
     prepared := prepared s; frameTimer := v;
     camera_perspective := camera_perspective s;
     camera_view := camera_view s; drawCmdBuffers := drawCmdBuffers s;
     frameBuffers := frameBuffers s; useNew := useNew s; calls := calls s |}.

Definition set_animate (v : bool) (s : VulkanExample) : VulkanExample :=
  {| animate := v;
     pfn_vkCmdPushDescriptorSetKHR := pfn_vkCmdPushDescriptorSetKHR s;
     pfn_vkCmdPushDescriptorSetWithTemplateKHR := pfn_vkCmdPushDescriptorSetWithTemplateKHR s;
     pfn_vkCmdPushDescriptorSetWithTemplate2KHR := pfn_vkCmdPushDescriptorSetWithTemplate2KHR s;
     pfn_vkCreateDescriptorUpdateTemplateKHR := pfn_vkCreateDescriptorUpdateTemplateKHR s;
     maxPushDescriptors := maxPushDescriptors s; cubes := cubes s;
     uniformData := uniformData s; uniformBuffer := uniformBuffer s;
     pipeline := pipeline s; pipelineLayout := pipelineLayout s;
     descriptorSetLayout := descriptorSetLayout s;
     descriptorTemplate := descriptorTemplate s; paused := paused s;
     prepared := prepared s; frameTimer := frameTimer s;
     camera_perspective := camera_perspective s;
     camera_view := camera_view s; drawCmdBuffers := drawCmdBuffers s;
     frameBuffers := frameBuffers s; useNew := useNew s; calls := calls s |}.

Definition set_paused (v : bool) (s : VulkanExample) : VulkanExample :=
  {| animate := animate s;
     pfn_vkCmdPushDescriptorSetKHR := pfn_vkCmdPushDescriptorSetKHR s;
     pfn_vkCmdPushDescriptorSetWithTemplateKHR := pfn_vkCmdPushDescriptorSetWithTemplateKHR s;
     pfn_vkCmdPushDescriptorSetWithTemplate2KHR := pfn_vkCmdPushDescriptorSetWithTemplate2KHR s;
     pfn_vkCreateDescriptorUpdateTemplateKHR := pfn_vkCreateDescriptorUpdateTemplateKHR s;
     maxPushDescriptors := maxPushDescriptors s; cubes := cubes s;
     uniformData := uniformData s; uniformBuffer := uniformBuffer s;
     pipeline := pipeline s; pipelineLayout := pipelineLayout s;
     descriptorSetLayout := descriptorSetLayout s;
     descriptorTemplate := descriptorTemplate s; paused := v;
     prepared := prepared s; frameTimer := frameTimer s;
     camera_perspective := camera_perspective s;
     camera_view := camera_view s; drawCmdBuffers := drawCmdBuffers s;
     frameBuffers := frameBuffers s; useNew := useNew s; calls := calls s |}.

Definition set_useNew (v : bool) (s : VulkanExample) : VulkanExample :=
  {| animate := animate s;
     pfn_vkCmdPushDescriptorSetKHR := pfn_vkCmdPushDescriptorSetKHR s;
     pfn_vkCmdPushDescriptorSetWithTemplateKHR := pfn_vkCmdPushDescriptorSetWithTemplateKHR s;
     pfn_vkCmdPushDescriptorSetWithTemplate2KHR := pfn_vkCmdPushDescriptorSetWithTemplate2KHR s;
     pfn_vkCreateDescriptorUpdateTemplateKHR := pfn_vkCreateDescriptorUpdateTemplateKHR s;
     maxPushDescriptors := maxPushDescriptors s; cubes := cubes s;
     uniformData := uniformData s; uniformBuffer := uniformBuffer s;
     pipeline := pipeline s; pipelineLayout := pipelineLayout s;
     descriptorSetLayout := descriptorSetLayout s;
     descriptorTemplate := descriptorTemplate s; paused := paused s;
     prepared := prepared s; frameTimer := frameTimer s;
     camera_perspective := camera_perspective s;
     camera_view := camera_view s; drawCmdBuffers := drawCmdBuffers s;
     frameBuffers := frameBuffers s; useNew := v; calls := calls s |}.

Definition set_calls (v : list ApiCall) (s : VulkanExample) : VulkanExample :=
  {| animate := animate s;
     pfn_vkCmdPushDescriptorSetKHR := pfn_vkCmdPushDescriptorSetKHR s;
     pfn_vkCmdPushDescriptorSetWithTemplateKHR := pfn_vkCmdPushDescriptorSetWithTemplateKHR s;
     pfn_vkCmdPushDescriptorSetWithTemplate2KHR := pfn_vkCmdPushDescriptorSetWithTemplate2KHR s;
     pfn_vkCreateDescriptorUpdateTemplateKHR := pfn_vkCreateDescriptorUpdateTemplateKHR s;
     maxPushDescriptors := maxPushDescriptors s; cubes := cubes s;
     uniformData := uniformData s; uniformBuffer := uniformBuffer s;
     pipeline := pipeline s; pipelineLayout := pipelineLayout s;
     descriptorSetLayout := descriptorSetLayout s;
     descriptorTemplate := descriptorTemplate s; paused := paused s;
     prepared := prepared s; frameTimer := frameTimer s;
     camera_perspective := camera_perspective s;
     camera_view := camera_view s; drawCmdBuffers := drawCmdBuffers s;
     frameBuffers := frameBuffers s; useNew := useNew s; calls := v |}.

Variable abi : Abi.
Variable dev : Device.

(** *** Control *)

(** A method either returns, or the process ends inside it. *)
Inductive Outcome :=
| Ok (s : VulkanExample)
| ExitFatal (message : string) (exitCode : Z) (s : VulkanExample)
| CheckFailed (res : VkResult) (s : VulkanExample).

Definition Step := VulkanExample -> Outcome.

Definition and_then (f g : Step) : Step :=
  fun s => match f s with Ok s' => g s' | stop => stop end.

Definition ret (f : VulkanExample -> VulkanExample) : Step :=
  fun s => Ok (f s).

Notation "f >> g" := (and_then f g) (at level 61, left associativity).

Fixpoint for_each {A : Type} (l : list A) (body : A -> Step) : Step :=
  match l with
  | [] => Ok
  | a :: rest => and_then (body a) (for_each rest body)
  end.

(** Modelled from the spec: [vks::tools::exitFatal] is not under the
    example's source; a missing capability is fatal, the process
    terminates with a diagnostic. *)
Definition exitFatal (message : string) (exitCode : Z) : Step :=
  ExitFatal message exitCode.

(** Modelled from the spec: the macro [VK_CHECK_RESULT] is not under
    the example's source; a rejected construction is fatal. *)
Definition VK_CHECK_RESULT (res : VkResult) : Step :=
  fun s => if is_success res then Ok s else CheckFailed res s.

Definition call (c : ApiCall) (s : VulkanExample) : VulkanExample :=
  set_calls (calls s ++ [c]) s.

(** A call whose result goes through [VK_CHECK_RESULT]. *)
Definition checked (c : ApiCall) (answer : list ApiCall -> VkResult) : Step :=
  fun s => VK_CHECK_RESULT (answer (calls s)) (call c s).

(** A [vkCreate...] call: the handle is stored on success; on failure
    the member keeps its value.  The result is handed to [k]. *)
Definition create (c : ApiCall) (answer : list ApiCall -> VkResult * Handle)
    (store : Handle -> VulkanExample -> VulkanExample)
    (k : VkResult -> Step) : Step :=
  fun s =>
    let (res, h) := answer (calls s) in
    let s1 := call c s in
    k res (if is_success res then store h s1 else s1).

(** [(void)] of an unchecked result. *)
Definition ignore_result (res : VkResult) : Step := Ok.

(** *** The two cubes *)

Inductive CubeIx := Cube0 | Cube1.

Definition cube (i : CubeIx) (s : VulkanExample) : Cube :=
  match i with Cube0 => fst (cubes s) | Cube1 => snd (cubes s) end.

Definition set_cube (i : CubeIx) (c : Cube) (s : VulkanExample) : VulkanExample :=
  match i with
  | Cube0 => set_cubes (c, snd (cubes s)) s
  | Cube1 => set_cubes (fst (cubes s), c) s
  end.

Definition set_texture (v : VkDescriptorImageInfo) (c : Cube) : Cube :=
  {| texture := v; cube_uniformBuffer := cube_uniformBuffer c;
     rotation := rotation c; modelMat := modelMat c |}.

Definition set_cube_uniformBuffer (v : Buffer mat4) (c : Cube) : Cube :=
  {| texture := texture c; cube_uniformBuffer := v;
     rotation := rotation c; modelMat := modelMat c |}.

Definition set_rotation (v : vec3) (c : Cube) : Cube :=
  {| texture := texture c; cube_uniformBuffer := cube_uniformBuffer c;
     rotation := v; modelMat := modelMat c |}.

Definition set_modelMat (v : mat4) (c : Cube) : Cube :=
  {| texture := texture c; cube_uniformBuffer := cube_uniformBuffer c;
     rotation := rotation c; modelMat := v |}.

Definition set_vx (v : float) (r : vec3) : vec3 :=
  {| vx := v; vy := vy r; vz := vz r |}.

Definition set_vy (v : float) (r : vec3) : vec3 :=
  {| vx := vx r; vy := v; vz := vz r |}.

(** [memcpy(buffer.mapped, &value, sizeof(value))] *)
Definition memcpy {A : Type} (b : Buffer A) (value : A) : Buffer A :=
  {| descriptor := descriptor b; mapped := Some value |}.

(** *** buildCommandBuffers *)

(** The body of the loop over the cubes, up to [useNew = !useNew]. *)
Definition pushDescriptors (cb : Handle) (i : CubeIx) (s : VulkanExample)
  : VulkanExample :=
  let d_data :=
    {| uniform_buffer := descriptor (uniformBuffer s);
       cube_uniform_buffer := descriptor (cube_uniformBuffer (cube i s));
       cube_texture := texture (cube i s) |} in
  let s1 :=
    if useNew s then
      let push_info :=
        {| pi_descriptorUpdateTemplate := descriptorTemplate s;
           pi_layout := pipelineLayout s;
           pi_set := 0;
           pi_pData := d_data |} in
      call (vkCmdPushDescriptorSetWithTemplate2KHR
              (pfn_vkCmdPushDescriptorSetWithTemplate2KHR s) cb push_info) s
    else
      call (vkCmdPushDescriptorSetWithTemplateKHR
              (pfn_vkCmdPushDescriptorSetWithTemplateKHR s) cb
              (descriptorTemplate s) (pipelineLayout s) 0 d_data) s in
  set_useNew (negb (useNew s1)) s1.

Definition recordCube (cb : Handle) (i : CubeIx) : Step :=
  fun s => Ok (call (modelDraw cb) (pushDescriptors cb i s)).

Definition recordCommandBuffer (i : nat) : Step :=
  fun s =>
    let cb := nth i (drawCmdBuffers s) VK_NULL_HANDLE in
    let framebuffer := nth i (frameBuffers s) VK_NULL_HANDLE in
    (checked (vkBeginCommandBuffer cb) (fun h => dev_BeginCommandBuffer dev h cb) >>
     ret (call (vkCmdBeginRenderPass cb framebuffer)) >>
     ret (fun s => call (vkCmdBindPipeline cb (pipeline s)) s) >>
     ret (call (vkCmdSetViewport cb)) >>
     ret (call (vkCmdSetScissor cb)) >>
     ret (call (bindBuffers cb)) >>
     for_each [Cube0; Cube1] (recordCube cb) >>
     ret (call (drawUI cb)) >>
     ret (call (vkCmdEndRenderPass cb)) >>
     checked (vkEndCommandBuffer cb) (fun h => dev_EndCommandBuffer dev h cb)) s.

Definition buildCommandBuffers : Step :=
  fun s => for_each (List.seq 0 (List.length (drawCmdBuffers s))) recordCommandBuffer s.

(** *** loadAssets *)

Definition loadTexture (i : CubeIx) (path : string) : Step :=
  fun s =>
    let d := dev_loadTexture dev (calls s) path in
    let s1 := call (loadFromFile path) s in
    Ok (set_cube i (set_texture d (cube i s1)) s1).

Definition loadAssets : Step :=
  ret (call (loadFromFile "models/cube.gltf")) >>
  loadTexture Cube0 "textures/crate01_color_height_rgba.ktx" >>
  loadTexture Cube1 "textures/crate02_color_height_rgba.ktx".

(** *** setupDescriptorSetLayout *)

Definition descriptorSetLayoutBinding (type : VkDescriptorType)
    (stageFlags : VkShaderStageFlagBits) (binding : Z)
  : VkDescriptorSetLayoutBinding :=
  {| lb_binding := binding; lb_descriptorType := type;
     lb_descriptorCount := 1; lb_stageFlags := stageFlags |}.

Definition setLayoutBindings : list VkDescriptorSetLayoutBinding :=
  [ descriptorSetLayoutBinding VK_DESCRIPTOR_TYPE_UNIFORM_BUFFER
      VK_SHADER_STAGE_VERTEX_BIT 0;
    descriptorSetLayoutBinding VK_DESCRIPTOR_TYPE_UNIFORM_BUFFER
      VK_SHADER_STAGE_VERTEX_BIT 1;
    descriptorSetLayoutBinding VK_DESCRIPTOR_TYPE_COMBINED_IMAGE_SAMPLER
      VK_SHADER_STAGE_FRAGMENT_BIT 2 ].

Definition setupDescriptorSetLayout : Step :=
  let descriptorLayoutCI :=
    {| dl_pushDescriptor := true;
       dl_bindingCount := Z.of_nat (List.length setLayoutBindings);
       dl_pBindings := setLayoutBindings |} in
  create (vkCreateDescriptorSetLayout descriptorLayoutCI)
    (fun h => dev_CreateDescriptorSetLayout dev h descriptorLayoutCI)
    set_descriptorSetLayout VK_CHECK_RESULT.

(** *** preparePipelines *)

Definition preparePipelines : Step :=
  (fun s =>
     create (vkCreatePipelineLayout [descriptorSetLayout s])
       (fun h => dev_CreatePipelineLayout dev h [descriptorSetLayout s])
       set_pipelineLayout VK_CHECK_RESULT s) >>
  ret (call (loadFromFile "pushdescriptors/cube.vert.spv")) >>
  ret (call (loadFromFile "pushdescriptors/cube.frag.spv")) >>
  (fun s =>
     create (vkCreateGraphicsPipelines (pipelineLayout s))
       (fun h => dev_CreateGraphicsPipelines dev h (pipelineLayout s))
       set_pipeline VK_CHECK_RESULT s).

(** *** Uniform buffers *)

Definition updateUniformBuffers (s : VulkanExample) : VulkanExample :=
  let s1 :=
    set_uniformData
      {| projection := camera_perspective s; view := camera_view s |} s in
  set_uniformBuffer (memcpy (uniformBuffer s1) (uniformData s1)) s1.

(** The body of the loop over the cubes in [updateCubeUniformBuffers]. *)
Definition updateCubeMatrix (i : CubeIx) (s : VulkanExample) : VulkanExample :=
  let c := cube i s in
  let c := set_modelMat
    (rotate (modelMat c) (radians (vx (rotation c)))
       {| vx := Float32.c1; vy := Float32.zero; vz := Float32.zero |}) c in
  let c := set_modelMat
    (rotate (modelMat c) (radians (vy (rotation c)))
       {| vx := Float32.zero; vy := Float32.c1; vz := Float32.zero |}) c in
  let c := set_modelMat
    (rotate (modelMat c) (radians (vz (rotation c)))
       {| vx := Float32.zero; vy := Float32.zero; vz := Float32.c1 |}) c in
  let c := set_modelMat (scale (modelMat c) (vec3_splat Float32.c0_25)) c in
  let c := set_cube_uniformBuffer
    (memcpy (cube_uniformBuffer c) (modelMat c)) c in
  set_cube i c s.

(** [r += v * frameTimer; if (r > 360.0f) r -= 360.0f;] *)
Definition advance (v frameTimer r : float) : float :=
  let r1 := Float32.add r (Float32.mul v frameTimer) in
  if Float32.gtb r1 Float32.c360 then Float32.sub r1 Float32.c360 else r1.

(** [updateCubeUniformBuffers], first part: the two translations and
    the loop over the cubes that builds and copies the matrices. *)
Definition matrices_written (s : VulkanExample) : VulkanExample :=
  let s := set_cube Cube0
    (set_modelMat
       (translate mat4_1
          {| vx := Float32.c_neg2; vy := Float32.zero; vz := Float32.zero |})
       (cube Cube0 s)) s in
  let s := set_cube Cube1
    (set_modelMat
       (translate mat4_1
          {| vx := Float32.c1_5; vy := Float32.c0_5; vz := Float32.zero |})
       (cube Cube1 s)) s in
  fold_left (fun s i => updateCubeMatrix i s) [Cube0; Cube1] s.

(** [updateCubeUniformBuffers], second part:
    [if (animate && !paused) { ... }]. *)
Definition rotations_advanced (s : VulkanExample) : VulkanExample :=
  if animate s && negb (paused s) then
    let c0 := cube Cube0 s in
    let s := set_cube Cube0
      (set_rotation
         (set_vx (advance Float32.c2_5 (frameTimer s) (vx (rotation c0)))
            (rotation c0)) c0) s in
    let c1 := cube Cube1 s in
    set_cube Cube1
      (set_rotation
         (set_vy (advance Float32.c2 (frameTimer s) (vy (rotation c1)))
            (rotation c1)) c1) s
  else s.

Definition updateCubeUniformBuffers (s : VulkanExample) : VulkanExample :=
  rotations_advanced (matrices_written s).

Definition sizeof_mat4 : Z := 64.
Definition sizeof_UniformData : Z := 2 * sizeof_mat4.

Definition createCubeBuffer (i : CubeIx) : Step :=
  (fun s =>
     let (res, d) := dev_createBuffer dev (calls s) sizeof_mat4 in
     let s1 := call (createBuffer sizeof_mat4) s in
     let s2 :=
       if is_success res then
         set_cube i (set_cube_uniformBuffer
                       {| descriptor := d; mapped := None |} (cube i s1)) s1
       else s1 in
     VK_CHECK_RESULT res s2) >>
  (fun s =>
     let b := bi_buffer (descriptor (cube_uniformBuffer (cube i s))) in
     checked (mapBuffer b) (fun h => dev_map dev h b) s).

Definition prepareUniformBuffers : Step :=
  (fun s =>
     let (res, d) := dev_createBuffer dev (calls s) sizeof_UniformData in
     let s1 := call (createBuffer sizeof_UniformData) s in
     let s2 :=
       if is_success res then
         set_uniformBuffer {| descriptor := d; mapped := None |} s1
       else s1 in
     VK_CHECK_RESULT res s2) >>
  (fun s =>
     let b := bi_buffer (descriptor (uniformBuffer s)) in
     checked (mapBuffer b) (fun h => dev_map dev h b) s) >>
  for_each [Cube0; Cube1] createCubeBuffer >>
  ret updateUniformBuffers >>
  ret updateCubeUniformBuffers.

(** *** prepare *)

(** [p = vkGetDeviceProcAddr(device, name); if (!p) exitFatal(...)] *)
Definition loadDeviceFunction (name : string)
    (store : PFN -> VulkanExample -> VulkanExample) : Step :=
  fun s =>
    let p := dev_GetDeviceProcAddr dev name in
    let s1 := store p (call (vkGetDeviceProcAddr name) s) in
    if p =? 0 then
      exitFatal ("Could not get a valid function pointer for " ++ name) (-1) s1
    else Ok s1.

(** The lookup of [vkGetPhysicalDeviceProperties2KHR] and the query of
    the push descriptor properties. *)
Definition getPushDescriptorProperties : Step :=
  fun s =>
    let name := "vkGetPhysicalDeviceProperties2KHR"%string in
    let p := dev_GetInstanceProcAddr dev name in
    let s1 := call (vkGetInstanceProcAddr name) s in
    if p =? 0 then
      exitFatal ("Could not get a valid function pointer for " ++ name) (-1) s1
    else
      Ok (set_maxPushDescriptors (dev_maxPushDescriptors dev)
            (call (vkGetPhysicalDeviceProperties2KHR p) s1)).

Definition loadExtensionFunctions : Step :=
  loadDeviceFunction "vkCmdPushDescriptorSetKHR"
    set_pfn_vkCmdPushDescriptorSetKHR >>
  getPushDescriptorProperties >>
  loadDeviceFunction "vkCreateDescriptorUpdateTemplateKHR"
    set_pfn_vkCreateDescriptorUpdateTemplateKHR >>
  loadDeviceFunction "vkCmdPushDescriptorSetWithTemplateKHR"
    set_pfn_vkCmdPushDescriptorSetWithTemplateKHR >>
  loadDeviceFunction "vkCmdPushDescriptorSetWithTemplate2KHR"
    set_pfn_vkCmdPushDescriptorSetWithTemplate2KHR.

(** [template_info] as [prepare] fills it from the members. *)
Definition template_info (s : VulkanExample)
  : VkDescriptorUpdateTemplateCreateInfo :=
  {| ti_flags := 0;
     ti_descriptorUpdateEntryCount := 3;
     ti_pDescriptorUpdateEntries := template_entries abi;
     ti_templateType := VK_DESCRIPTOR_UPDATE_TEMPLATE_TYPE_PUSH_DESCRIPTORS_KHR;
     ti_descriptorSetLayout := descriptorSetLayout s;
     ti_pipelineBindPoint := VK_PIPELINE_BIND_POINT_GRAPHICS;
     ti_pipelineLayout := pipelineLayout s;
     ti_set := 0 |}.

(** The call is a plain statement: its [VkResult] is dropped. *)
Definition createDescriptorTemplate : Step :=
  fun s =>
    create (vkCreateDescriptorUpdateTemplateKHR
              (pfn_vkCreateDescriptorUpdateTemplateKHR s) (template_info s))
      (fun h => dev_CreateDescriptorUpdateTemplate dev h (template_info s))
      set_descriptorTemplate ignore_result s.

(** [prepare], from the return of [VulkanExampleBase::prepare()] on. *)
Definition prepare : Step :=
  loadExtensionFunctions >>
  createDescriptorTemplate >>
  loadAssets >>
  prepareUniformBuffers >>
  setupDescriptorSetLayout >>
  preparePipelines >>
  buildCommandBuffers >>
  ret (set_prepared true).

(** *** The frame *)

Definition draw : Step :=
  fun s =>
    let cb := nth (dev_currentBuffer dev (calls s)) (drawCmdBuffers s)
                VK_NULL_HANDLE in
    (ret (call prepareFrame) >>
     checked (vkQueueSubmit cb) (fun h => dev_QueueSubmit dev h cb) >>
     ret (call submitFrame)) s.

Definition render : Step :=
  fun s =>
    if negb (prepared s) then Ok s
    else
      (ret updateUniformBuffers >>
       (fun s => if animate s && negb (paused s)
                 then Ok (updateCubeUniformBuffers s) else Ok s) >>
       draw) s.

(** *** Runs *)

(** One turn of the render loop: the base class has measured the last
    frame ([frameTimer]) and calls [render]. *)
Definition frame (t : float) : Step :=
  fun s => render (set_frameTimer t s).

(** The per-frame update of the cubes over successive frame times. *)
Definition updates (ts : list float) (s : VulkanExample) : VulkanExample :=
  fold_left (fun s t => updateCubeUniformBuffers (set_frameTimer t s)) ts s.

Inductive Method := Prepare | Render | BuildCommandBuffers.

Definition invoke (m : Method) : Step :=
  match m with
  | Prepare => prepare
  | Render => render
  | BuildCommandBuffers => buildCommandBuffers
  end.

(** The state in which a method returned or the process ended. *)
Definition final (o : Outcome) : VulkanExample :=
  match o with
  | Ok s => s
  | ExitFatal _ _ s => s
  | CheckFailed _ s => s
  end.

Definition returned (o : Outcome) : bool :=
  match o with Ok _ => true | _ => false end.

(** How the process ended, if it did. *)
Inductive Stop :=
| Exited (message : string) (exitCode : Z)
| Checked (res : VkResult).

Definition stopped_by (o : Outcome) : option Stop :=
  match o with
  | Ok _ => None
  | ExitFatal message exitCode _ => Some (Exited message exitCode)
  | CheckFailed res _ => Some (Checked res)
  end.

Definition run (ms : list Method) : Step := for_each ms invoke.

(** *** Reading the trace *)

Inductive DispatchPath := DirectApply | StructuredApply.

(** The four values a binding call hands to the driver. *)
Record Binding := {
  b_template : Handle;
  b_layout : Handle;
  b_set : Z;
  b_data : DescriptorData
}.

Definition path_of (c : ApiCall) : option DispatchPath :=
  match c with
  | vkCmdPushDescriptorSetWithTemplateKHR _ _ _ _ _ _ => Some DirectApply
  | vkCmdPushDescriptorSetWithTemplate2KHR _ _ _ => Some StructuredApply
  | _ => None
  end.

(** Modelled from the spec: the two driver entry points are outside
    the example.  The direct one takes the template, the pipeline
    layout, the set index and the blob as four arguments; the
    structured one takes one record packaging the same four values. *)
Definition binding_of (c : ApiCall) : option Binding :=
  match c with
  | vkCmdPushDescriptorSetWithTemplateKHR _ _ t l n d =>
      Some {| b_template := t; b_layout := l; b_set := n; b_data := d |}
  | vkCmdPushDescriptorSetWithTemplate2KHR _ _ info =>
      Some {| b_template := pi_descriptorUpdateTemplate info;
              b_layout := pi_layout info;
              b_set := pi_set info;
              b_data := pi_pData info |}
  | _ => None
  end.

Fixpoint binding_paths (l : list ApiCall) : list DispatchPath :=
  match l with
  | [] => []
  | c :: rest =>
      match path_of c with
      | Some p => p :: binding_paths rest
      | None => binding_paths rest
      end
  end.

(** The blob [d_data] of a draw of cube [i]. *)
Definition blob (i : CubeIx) (s : VulkanExample) : DescriptorData :=
  {| uniform_buffer := descriptor (uniformBuffer s);
     cube_uniform_buffer := descriptor (cube_uniformBuffer (cube i s));
     cube_texture := texture (cube i s) |}.

(** Per-frame work: recording, binding, drawing, submitting. *)
Definition is_setup_query (c : ApiCall) : bool :=
  match c with
  | vkGetDeviceProcAddr _ | vkGetInstanceProcAddr _
  | vkGetPhysicalDeviceProperties2KHR _ => true
  | _ => false
  end.

(** The pointer a call goes through, for calls through loaded entry
    points. *)
Definition pfn_of (c : ApiCall) : option PFN :=
  match c with
  | vkGetPhysicalDeviceProperties2KHR p => Some p
  | vkCreateDescriptorUpdateTemplateKHR p _ => Some p
  | vkCmdPushDescriptorSetWithTemplateKHR p _ _ _ _ _ => Some p
  | vkCmdPushDescriptorSetWithTemplate2KHR p _ _ => Some p
  | _ => None
  end.

(** *** The model matrix, as the design document words it

    translate, then rotate about X, Y and Z by the accumulated angles,
    then scale by 0.25, starting from the identity. *)
Definition axisX : vec3 := {| vx := Float32.c1; vy := Float32.zero; vz := Float32.zero |}.
Definition axisY : vec3 := {| vx := Float32.zero; vy := Float32.c1; vz := Float32.zero |}.
Definition axisZ : vec3 := {| vx := Float32.zero; vy := Float32.zero; vz := Float32.c1 |}.

Definition position (i : CubeIx) : vec3 :=
  match i with
  | Cube0 => {| vx := Float32.c_neg2; vy := Float32.zero; vz := Float32.zero |}
  | Cube1 => {| vx := Float32.c1_5; vy := Float32.c0_5; vz := Float32.zero |}
  end.

Definition reference_modelMat (p : vec3) (r : vec3) : mat4 :=
  fold_left (fun m step => step m)
    [ (fun m => translate m p);
      (fun m => rotate m (radians (vx r)) axisX);
      (fun m => rotate m (radians (vy r)) axisY);
      (fun m => rotate m (radians (vz r)) axisZ);
      (fun m => scale m (vec3_splat Float32.c0_25)) ]
    mat4_1.

(** The angular velocity of each axis of each cube, in degrees per
    second; an axis without one is never advanced. *)
Inductive Axis := AxisX | AxisY | AxisZ.

Definition angle (a : Axis) (r : vec3) : float :=
  match a with AxisX => vx r | AxisY => vy r | AxisZ => vz r end.

Definition angularVelocity (i : CubeIx) (a : Axis) : option float :=
  match i, a with
  | Cube0, AxisX => Some Float32.c2_5
  | Cube1, AxisY => Some Float32.c2
  | _, _ => None
  end.

(** *** Notions used by the results *)

(** [P] holds wherever [f] stops, if it held where [f] started. *)
Definition preserves (P : VulkanExample -> Prop) (f : Step) : Prop :=
  forall s, P s -> P (final (f s)).

(** The paths of [n] binding calls that alternate from the direct one. *)
Definition alternation (n : nat) : list DispatchPath :=
  map (fun k => if Nat.even k then DirectApply else StructuredApply)
    (List.seq 0 n).

(** The binding calls so far alternate from the direct path, and
    [useNew] is the parity of their number. *)
Definition selector_inv (s : VulkanExample) : Prop :=
  binding_paths (calls s) = alternation (List.length (binding_paths (calls s)))
  /\ useNew s = Nat.odd (List.length (binding_paths (calls s))).

(** The call a draw of cube [i] records, by the value of the selector. *)
Definition push_call (cb : Handle) (i : CubeIx) (s : VulkanExample) : ApiCall :=
  if useNew s then
    vkCmdPushDescriptorSetWithTemplate2KHR
      (pfn_vkCmdPushDescriptorSetWithTemplate2KHR s) cb
      {| pi_descriptorUpdateTemplate := descriptorTemplate s;
         pi_layout := pipelineLayout s;
         pi_set := 0;
         pi_pData := blob i s |}
  else
    vkCmdPushDescriptorSetWithTemplateKHR
      (pfn_vkCmdPushDescriptorSetWithTemplateKHR s) cb
      (descriptorTemplate s) (pipelineLayout s) 0 (blob i s).

(** The binding of a draw of cube [i]: the template, the pipeline
    layout, set 0 and the blob of the cube. *)
Definition draw_binding (i : CubeIx) (s : VulkanExample) : Binding :=
  {| b_template := descriptorTemplate s;
     b_layout := pipelineLayout s;
     b_set := 0;
     b_data := blob i s |}.

(** If [c] is a binding call, it binds what a draw of some cube in
    state [s] binds. *)
Definition binds_as_draw (s : VulkanExample) (c : ApiCall) : Prop :=
  forall b, binding_of c = Some b -> exists i, b = draw_binding i s.

(** Since [s0], nothing a draw reads has changed and every binding
    call made binds as a draw in [s0]. *)
Definition recording_inv (s0 s : VulkanExample) : Prop :=
  descriptorTemplate s = descriptorTemplate s0
  /\ pipelineLayout s = pipelineLayout s0
  /\ uniformBuffer s = uniformBuffer s0
  /\ cubes s = cubes s0
  /\ exists l, calls s = calls s0 ++ l /\ Forall (binds_as_draw s0) l.

(** The entry points [prepare] resolves, and what the driver answers. *)
Inductive EntryPoint :=
| EP_vkCmdPushDescriptorSetKHR
| EP_vkGetPhysicalDeviceProperties2KHR
| EP_vkCreateDescriptorUpdateTemplateKHR
| EP_vkCmdPushDescriptorSetWithTemplateKHR
| EP_vkCmdPushDescriptorSetWithTemplate2KHR.

Definition entry_point_name (ep : EntryPoint) : string :=
  match ep with
  | EP_vkCmdPushDescriptorSetKHR => "vkCmdPushDescriptorSetKHR"
  | EP_vkGetPhysicalDeviceProperties2KHR => "vkGetPhysicalDeviceProperties2KHR"
  | EP_vkCreateDescriptorUpdateTemplateKHR => "vkCreateDescriptorUpdateTemplateKHR"
  | EP_vkCmdPushDescriptorSetWithTemplateKHR => "vkCmdPushDescriptorSetWithTemplateKHR"
  | EP_vkCmdPushDescriptorSetWithTemplate2KHR => "vkCmdPushDescriptorSetWithTemplate2KHR"
  end.

Definition resolve (ep : EntryPoint) : PFN :=
  match ep with
  | EP_vkGetPhysicalDeviceProperties2KHR =>
      dev_GetInstanceProcAddr dev (entry_point_name ep)
  | _ => dev_GetDeviceProcAddr dev (entry_point_name ep)
  end.

Definition diagnostic (ep : EntryPoint) : string :=
  "Could not get a valid function pointer for " ++ entry_point_name ep.

(** *** Looking calls up in a trace *)

Fixpoint position_of (p : ApiCall -> bool) (l : list ApiCall) : option nat :=
  match l with
  | [] => None
  | c :: rest =>
      if p c then Some 0%nat
      else match position_of p rest with
           | Some n => Some (S n)
           | None => None
           end
  end.

Definition is_template_creation (c : ApiCall) : bool :=
  match c with vkCreateDescriptorUpdateTemplateKHR _ _ => true | _ => false end.

Definition is_set_layout_creation (c : ApiCall) : bool :=
  match c with vkCreateDescriptorSetLayout _ => true | _ => false end.

Definition is_pipeline_layout_creation (c : ApiCall) : bool :=
  match c with vkCreatePipelineLayout _ => true | _ => false end.

(** The binding layout and the pipeline layout a template is
    requested for. *)
Definition template_layouts (c : ApiCall) : option (Handle * Handle) :=
  match c with
  | vkCreateDescriptorUpdateTemplateKHR _ info =>
      Some (ti_descriptorSetLayout info, ti_pipelineLayout info)
  | _ => None
  end.

Fixpoint bindings (l : list ApiCall) : list Binding :=
  match l with
  | [] => []
  | c :: rest =>
      match binding_of c with
      | Some b => b :: bindings rest
      | None => bindings rest
      end
  end.

(** *** Ranges of the angles *)

(** A binary32 value of the closed interval [0, 360]. *)
Definition within_turn (x : float) : bool :=
  Float32.valid x && Float32.leb Float32.zero x && Float32.leb x Float32.c360.

(** A binary32 value of the half-open interval [0, 360). *)
Definition below_turn (x : float) : bool :=
  Float32.valid x && Float32.leb Float32.zero x && Float32.ltb x Float32.c360.

(** The increment [v * t] is not negative and is below 360. *)
Definition small_increment (v t : float) : bool :=
  Float32.leb Float32.zero (Float32.mul v t)
  && Float32.ltb (Float32.mul v t) Float32.c360.

(** A frame time, a binary32 value, for which both increments of
    [updateCubeUniformBuffers] are in [0, 360). *)
Definition small_step (t : float) : bool :=
  Float32.valid t
  && small_increment Float32.c2_5 t
  && small_increment Float32.c2 t.

(** [P] holds of the three angles of both cubes. *)
Definition all_angles (P : float -> bool) (s : VulkanExample) : bool :=
  forallb
    (fun i =>
       forallb (fun a => P (angle a (rotation (cube i s))))
         [AxisX; AxisY; AxisZ])
    [Cube0; Cube1].

(** The range of the angles as the design document states it: below
    360 before an update with small increments, below 360 after. *)
Definition stays_below_turn (s : VulkanExample) : Prop :=
  all_angles below_turn s = true ->
  small_step (frameTimer s) = true ->
  all_angles below_turn (updateCubeUniformBuffers s) = true.
End Program.

Arguments Ok {G} s.
Arguments ExitFatal {G} message exitCode s.
Arguments CheckFailed {G} res s.

(** ** Concrete collaborators *)

(** A GLM that records the transforms applied, in order; [radians] is
    GLM's [degrees * 0.01745329251994329576923690768489f]. *)
Inductive Transform :=
| Translate (v : vec3)
| Rotate (angle : float) (axis : vec3)
| Scale (v : vec3).

Definition deg2rad : float :=
  Eval vm_compute in Float32.lit 21099735964646325448822 (-80).

#[local] Instance SymGlm : Glm := {|
  mat4 := list Transform;
  mat4_1 := [];
  translate := fun m v => m ++ [Translate v];
  rotate := fun m a axis => m ++ [Rotate a axis];
  scale := fun m v => m ++ [Scale v];
  radians := fun d => Float32.mul d deg2rad
|}.

(** A device that has every entry point and accepts every request; the
    handle it returns is numbered by the calls made so far. *)
Definition next_handle (h : list ApiCall) : Handle :=
  100 + Z.of_nat (List.length h).

Definition good_device : Device := {|
  dev_GetDeviceProcAddr := fun name => 4096 + Z.of_nat (String.length name);
  dev_GetInstanceProcAddr := fun name => 8192 + Z.of_nat (String.length name);
  dev_maxPushDescriptors := 32;
  dev_CreateDescriptorUpdateTemplate := fun h _ => (VK_SUCCESS, next_handle h);
  dev_CreateDescriptorSetLayout := fun h _ => (VK_SUCCESS, next_handle h);
  dev_CreatePipelineLayout := fun h _ => (VK_SUCCESS, next_handle h);
  dev_CreateGraphicsPipelines := fun h _ => (VK_SUCCESS, next_handle h);
  dev_createBuffer := fun h size =>
    (VK_SUCCESS, {| bi_buffer := next_handle h; bi_offset := 0; bi_range := size |});
  dev_map := fun _ _ => VK_SUCCESS;
  dev_loadTexture := fun h _ =>
    {| ii_sampler := next_handle h; ii_imageView := next_handle h + 1000;
       ii_imageLayout := 5 |};
  dev_BeginCommandBuffer := fun _ _ => VK_SUCCESS;
  dev_EndCommandBuffer := fun _ _ => VK_SUCCESS;
  dev_currentBuffer := fun _ => 0%nat;
  dev_QueueSubmit := fun _ _ => VK_SUCCESS
|}.

(** The same device without one device-level entry point. *)
Definition device_without (missing : string) : Device := {|
  dev_GetDeviceProcAddr := fun name =>
    if String.eqb name missing then 0 else dev_GetDeviceProcAddr good_device name;
  dev_GetInstanceProcAddr := dev_GetInstanceProcAddr good_device;
  dev_maxPushDescriptors := dev_maxPushDescriptors good_device;
  dev_CreateDescriptorUpdateTemplate := dev_CreateDescriptorUpdateTemplate good_device;
  dev_CreateDescriptorSetLayout := dev_CreateDescriptorSetLayout good_device;
  dev_CreatePipelineLayout := dev_CreatePipelineLayout good_device;
  dev_CreateGraphicsPipelines := dev_CreateGraphicsPipelines good_device;
  dev_createBuffer := dev_createBuffer good_device;
  dev_map := dev_map good_device;
  dev_loadTexture := dev_loadTexture good_device;
  dev_BeginCommandBuffer := dev_BeginCommandBuffer good_device;
  dev_EndCommandBuffer := dev_EndCommandBuffer good_device;
  dev_currentBuffer := dev_currentBuffer good_device;
  dev_QueueSubmit := dev_QueueSubmit good_device
|}.

(** The same device rejecting the update template
    ([VK_ERROR_OUT_OF_HOST_MEMORY] is -1). *)
Definition template_rejecting_device : Device := {|
  dev_GetDeviceProcAddr := dev_GetDeviceProcAddr good_device;
  dev_GetInstanceProcAddr := dev_GetInstanceProcAddr good_device;
  dev_maxPushDescriptors := dev_maxPushDescriptors good_device;
  dev_CreateDescriptorUpdateTemplate := fun _ _ => (VK_ERROR (-1), VK_NULL_HANDLE);
  dev_CreateDescriptorSetLayout := dev_CreateDescriptorSetLayout good_device;
  dev_CreatePipelineLayout := dev_CreatePipelineLayout good_device;
  dev_CreateGraphicsPipelines := dev_CreateGraphicsPipelines good_device;
  dev_createBuffer := dev_createBuffer good_device;
  dev_map := dev_map good_device;
  dev_loadTexture := dev_loadTexture good_device;
  dev_BeginCommandBuffer := dev_BeginCommandBuffer good_device;
  dev_EndCommandBuffer := dev_EndCommandBuffer good_device;
  dev_currentBuffer := dev_currentBuffer good_device;
  dev_QueueSubmit := dev_QueueSubmit good_device
|}.

(** The same device rejecting the binding layout, for comparison. *)
Definition layout_rejecting_device : Device := {|
  dev_GetDeviceProcAddr := dev_GetDeviceProcAddr good_device;
  dev_GetInstanceProcAddr := dev_GetInstanceProcAddr good_device;
  dev_maxPushDescriptors := dev_maxPushDescriptors good_device;
  dev_CreateDescriptorUpdateTemplate := dev_CreateDescriptorUpdateTemplate good_device;
  dev_CreateDescriptorSetLayout := fun _ _ => (VK_ERROR (-1), VK_NULL_HANDLE);
  dev_CreatePipelineLayout := dev_CreatePipelineLayout good_device;
  dev_CreateGraphicsPipelines := dev_CreateGraphicsPipelines good_device;
  dev_createBuffer := dev_createBuffer good_device;
  dev_map := dev_map good_device;
  dev_loadTexture := dev_loadTexture good_device;
  dev_BeginCommandBuffer := dev_BeginCommandBuffer good_device;
  dev_EndCommandBuffer := dev_EndCommandBuffer good_device;
  dev_currentBuffer := dev_currentBuffer good_device;
  dev_QueueSubmit := dev_QueueSubmit good_device
|}.

Section Startup.
Context {G : Glm}.

Definition null_buffer_info : VkDescriptorBufferInfo :=
  {| bi_buffer := VK_NULL_HANDLE; bi_offset := 0; bi_range := 0 |}.

Definition null_image_info : VkDescriptorImageInfo :=
  {| ii_sampler := VK_NULL_HANDLE; ii_imageView := VK_NULL_HANDLE;
     ii_imageLayout := 0 |}.

Definition new_cube (r : vec3) (m : mat4) : Cube :=
  {| texture := null_image_info;
     cube_uniformBuffer := {| descriptor := null_buffer_info; mapped := None |};
     rotation := r;
     modelMat := m |}.

(** The object as its member initializers and those of its base class
    leave it when [prepare] is entered.  Members without an
    initializer ([descriptorTemplate], the rotations, the matrices)
    and what the base class has set up by then (the camera, the
    command buffers, the framebuffers) are arguments. *)
Definition constructed (template0 : Handle) (r0 r1 : vec3) (m0 : mat4)
    (perspective view0 : mat4) (cmdBuffers framebuffers : list Handle)
  : VulkanExample :=
  {| animate := true;
     pfn_vkCmdPushDescriptorSetKHR := VK_NULL_HANDLE;
     pfn_vkCmdPushDescriptorSetWithTemplateKHR := VK_NULL_HANDLE;
     pfn_vkCmdPushDescriptorSetWithTemplate2KHR := VK_NULL_HANDLE;
     pfn_vkCreateDescriptorUpdateTemplateKHR := VK_NULL_HANDLE;
     maxPushDescriptors := 0;
     cubes := (new_cube r0 m0, new_cube r1 m0);
     uniformData := {| projection := m0; view := m0 |};
     uniformBuffer := {| descriptor := null_buffer_info; mapped := None |};
     pipeline := VK_NULL_HANDLE;
     pipelineLayout := VK_NULL_HANDLE;
     descriptorSetLayout := VK_NULL_HANDLE;
     descriptorTemplate := template0;
     paused := false;
     prepared := false;
     frameTimer := Float32.c1;
     camera_perspective := perspective;
     camera_view := view0;
     drawCmdBuffers := cmdBuffers;
     frameBuffers := framebuffers;
     useNew := false;
     calls := [] |}.
End Startup.

(** A start with three swapchain images and both cubes at rest. *)
Definition vec3_0 : vec3 := vec3_splat Float32.zero.

Definition sample_start : VulkanExample (G := SymGlm) :=
  constructed 0 vec3_0 vec3_0 [] [] [] [11; 12; 13] [21; 22; 23].

(** A state with cube 0 at a given angle about X and a given frame time. *)
Definition spinning (x t : float) : VulkanExample (G := SymGlm) :=
  set_frameTimer t
    (set_cube Cube0
       (set_rotation (set_vx x vec3_0) (cube Cube0 sample_start)) sample_start).

(** ** Further notions *)

(** The offset of each field of a C struct whose first free byte is
    [off]: the companion of [struct_end]. *)
Fixpoint field_offsets (off : Z) (fields : list CType) : list Z :=
  match fields with
  | [] => []
  | f :: rest =>
      align_up off (c_align f)
      :: field_offsets (align_up off (c_align f) + c_size f) rest
  end.

(** The fields of [struct DescriptorData], in order. *)
Definition DescriptorData_fields (abi : Abi) : list CType :=
  [ t_VkDescriptorBufferInfo abi;
    t_VkDescriptorBufferInfo abi;
    t_VkDescriptorImageInfo abi ].

(** The bytes [[first, last)] of the blob an entry makes the driver read. *)
Definition entry_extent (abi : Abi) (e : VkDescriptorUpdateTemplateEntry)
  : Z * Z :=
  (te_offset e, te_offset e + descriptor_size abi (descriptorType e)).

(** Extents that follow each other from [lo] on without overlapping. *)
Fixpoint extents_in_order (lo : Z) (l : list (Z * Z)) : bool :=
  match l with
  | [] => true
  | (a, b) :: rest => (lo <=? a) && (a <? b) && extents_in_order b rest
  end.

Definition VkDescriptorType_eqb (a b : VkDescriptorType) : bool :=
  match a, b with
  | VK_DESCRIPTOR_TYPE_UNIFORM_BUFFER, VK_DESCRIPTOR_TYPE_UNIFORM_BUFFER => true
  | VK_DESCRIPTOR_TYPE_COMBINED_IMAGE_SAMPLER,
    VK_DESCRIPTOR_TYPE_COMBINED_IMAGE_SAMPLER => true
  | _, _ => false
  end.

(** The entry writes descriptors of a binding the layout declares, of
    the declared type, inside the declared array. *)
Definition entry_matches_layout (bindings : list VkDescriptorSetLayoutBinding)
    (e : VkDescriptorUpdateTemplateEntry) : bool :=
  match find (fun b => lb_binding b =? dstBinding e) bindings with
  | Some b =>
      VkDescriptorType_eqb (lb_descriptorType b) (descriptorType e)
      && (0 <=? dstArrayElement e)
      && (dstArrayElement e + descriptorCount e <=? lb_descriptorCount b)
  | None => false
  end.

(** Some entry writes the binding. *)
Definition binding_is_written (entries : list VkDescriptorUpdateTemplateEntry)
    (b : VkDescriptorSetLayoutBinding) : bool :=
  existsb (fun e => dstBinding e =? lb_binding b) entries.

(** What the destructor hands back to the device.  [destroy] is the
    member of [vks::Buffer] and of [vks::Texture2D]. *)
Inductive Release :=
| vkDestroyPipeline (pipeline : Handle)
| vkDestroyPipelineLayout (pipelineLayout : Handle)
| vkDestroyDescriptorSetLayout (descriptorSetLayout : Handle)
| vkDestroyDescriptorUpdateTemplate (descriptorUpdateTemplate : Handle)
| Buffer_destroy (buffer : VkDescriptorBufferInfo)
| Texture_destroy (texture : VkDescriptorImageInfo).

Section Further.
Context {G : Glm}.

(** [~VulkanExample()]; [device] is the member of the base class. *)
Definition destructor (device : Handle) (s : VulkanExample) : list Release :=
  if device =? VK_NULL_HANDLE then []
  else
    [ vkDestroyPipeline (pipeline s);
      vkDestroyPipelineLayout (pipelineLayout s);
      vkDestroyDescriptorSetLayout (descriptorSetLayout s) ]
    ++ flat_map
         (fun c : Cube =>
            [ Buffer_destroy (descriptor (cube_uniformBuffer c));
              Texture_destroy (texture c) ])
         [fst (cubes s); snd (cubes s)]
    ++ [ Buffer_destroy (descriptor (uniformBuffer s)) ].

Definition is_template_release (r : Release) : bool :=
  match r with vkDestroyDescriptorUpdateTemplate _ => true | _ => false end.

(** Since [s0]: the members no statement of the example assigns are as
    they were, and so are the angles that have no angular velocity. *)
Definition untouched (s0 s : VulkanExample) : Prop :=
  animate s = animate s0
  /\ paused s = paused s0
  /\ frameTimer s = frameTimer s0
  /\ camera_perspective s = camera_perspective s0
  /\ camera_view s = camera_view s0
  /\ drawCmdBuffers s = drawCmdBuffers s0
  /\ frameBuffers s = frameBuffers s0
  /\ forall i a, angularVelocity i a = None ->
                 angle a (rotation (cube i s)) = angle a (rotation (cube i s0)).

(** Since [s0]: [untouched], [prepared] is as it was, the selector is as
    it was and no binding call was made. *)
Definition settled (s0 s : VulkanExample) : Prop :=
  untouched s0 s
  /\ prepared s = prepared s0
  /\ useNew s = useNew s0
  /\ bindings (calls s) = bindings (calls s0).

(** Since [s0]: [untouched] and [prepared] is as it was. *)
Definition steady (s0 s : VulkanExample) : Prop :=
  untouched s0 s /\ prepared s = prepared s0.

(** [s'] differs from [s] at most in the members that hold uniform data
    (and in nothing a [settled] fact reads). *)
Definition same_footprint (s s' : VulkanExample) : Prop :=
  animate s' = animate s
  /\ paused s' = paused s
  /\ frameTimer s' = frameTimer s
  /\ camera_perspective s' = camera_perspective s
  /\ camera_view s' = camera_view s
  /\ drawCmdBuffers s' = drawCmdBuffers s
  /\ frameBuffers s' = frameBuffers s
  /\ prepared s' = prepared s
  /\ useNew s' = useNew s
  /\ calls s' = calls s
  /\ forall i, rotation (cube i s') = rotation (cube i s).

(** [s] differs from [s0] at most in the selector and in the trace. *)
Definition same_members (s0 s : VulkanExample) : Prop :=
  animate s = animate s0
  /\ pfn_vkCmdPushDescriptorSetKHR s = pfn_vkCmdPushDescriptorSetKHR s0
  /\ pfn_vkCmdPushDescriptorSetWithTemplateKHR s
     = pfn_vkCmdPushDescriptorSetWithTemplateKHR s0
  /\ pfn_vkCmdPushDescriptorSetWithTemplate2KHR s
     = pfn_vkCmdPushDescriptorSetWithTemplate2KHR s0
  /\ pfn_vkCreateDescriptorUpdateTemplateKHR s
     = pfn_vkCreateDescriptorUpdateTemplateKHR s0
  /\ maxPushDescriptors s = maxPushDescriptors s0
  /\ cubes s = cubes s0
  /\ uniformData s = uniformData s0
  /\ uniformBuffer s = uniformBuffer s0
  /\ pipeline s = pipeline s0
  /\ pipelineLayout s = pipelineLayout s0
  /\ descriptorSetLayout s = descriptorSetLayout s0
  /\ descriptorTemplate s = descriptorTemplate s0
  /\ paused s = paused s0
  /\ prepared s = prepared s0
  /\ frameTimer s = frameTimer s0
  /\ camera_perspective s = camera_perspective s0
  /\ camera_view s = camera_view s0
  /\ drawCmdBuffers s = drawCmdBuffers s0
  /\ frameBuffers s = frameBuffers s0.

(** The state a frame submits from: the camera uniform is refreshed,
    the cubes only when the animation runs. *)
Definition frame_updated (s : VulkanExample) : VulkanExample :=
  if animate (updateUniformBuffers s) && negb (paused (updateUniformBuffers s))
  then updateCubeUniformBuffers (updateUniformBuffers s)
  else updateUniformBuffers s.

(** The calls of [draw] from a trace [h]: the frame is prepared, the
    command buffer the swapchain selected is submitted, and the frame is
    presented unless the submission was rejected. *)
Definition submission (dev : Device) (h : list ApiCall)
    (cmdBuffers : list Handle) : list ApiCall :=
  let cb := nth (dev_currentBuffer dev h) cmdBuffers VK_NULL_HANDLE in
  [prepareFrame; vkQueueSubmit cb]
  ++ (if is_success (dev_QueueSubmit dev (h ++ [prepareFrame]) cb)
      then [submitFrame] else []).

Definition submission_result (dev : Device) (h : list ApiCall)
    (cmdBuffers : list Handle) : option Stop :=
  let cb := nth (dev_currentBuffer dev h) cmdBuffers VK_NULL_HANDLE in
  let res := dev_QueueSubmit dev (h ++ [prepareFrame]) cb in
  if is_success res then None else Some (Checked res).

(** What recording command buffer [i] appends when the driver accepts
    it, from the members at entry: cube 0 is pushed by the path the
    selector stands on, cube 1 by the other one. *)
Definition buffer_recording (s : VulkanExample) (i : nat) : list ApiCall :=
  let cb := nth i (drawCmdBuffers s) VK_NULL_HANDLE in
  let framebuffer := nth i (frameBuffers s) VK_NULL_HANDLE in
  [ vkBeginCommandBuffer cb;
    vkCmdBeginRenderPass cb framebuffer;
    vkCmdBindPipeline cb (pipeline s);
    vkCmdSetViewport cb;
    vkCmdSetScissor cb;
    bindBuffers cb;
    push_call cb Cube0 s;
    modelDraw cb;
    push_call cb Cube1 (set_useNew (negb (useNew s)) s);
    modelDraw cb;
    drawUI cb;
    vkCmdEndRenderPass cb;
    vkEndCommandBuffer cb ].

Definition recording (s : VulkanExample) : list ApiCall :=
  flat_map (buffer_recording s) (List.seq 0 (List.length (drawCmdBuffers s))).

(** The path and the blob of every binding call of a trace, in order. *)
Fixpoint pushes (l : list ApiCall) : list (DispatchPath * DescriptorData) :=
  match l with
  | [] => []
  | c :: rest =>
      match path_of c, binding_of c with
      | Some p, Some b => (p, b_data b) :: pushes rest
      | _, _ => pushes rest
      end
  end.

(** What is mapped is what the object holds: the mapped memory of the
    scene buffer holds [uniformData], which holds the matrices of the
    camera, and the mapped memory of each cube's buffer holds the
    cube's [modelMat]. *)
Definition synced (s : VulkanExample) : Prop :=
  mapped (uniformBuffer s) = Some (uniformData s)
  /\ uniformData s
     = {| projection := camera_perspective s; view := camera_view s |}
  /\ forall i, mapped (cube_uniformBuffer (cube i s)) = Some (modelMat (cube i s)).

(** The calls of [l] that go through a loaded entry point go through a
    pointer that is not null. *)
Definition through_resolved (l : list ApiCall) : Prop :=
  forall c p, In c l -> pfn_of c = Some p -> p <> 0.

(** The three entry points the object calls through its members are
    not null. *)
Definition entry_points_resolved (s : VulkanExample) : Prop :=
  pfn_vkCreateDescriptorUpdateTemplateKHR s <> 0
  /\ pfn_vkCmdPushDescriptorSetWithTemplateKHR s <> 0
  /\ pfn_vkCmdPushDescriptorSetWithTemplate2KHR s <> 0.

(** Since [s0], only calls through resolved entry points were added. *)
Definition resolved_since (s0 s : VulkanExample) : Prop :=
  exists l, calls s = calls s0 ++ l /\ through_resolved l.

(** [s'] has the entry points and the trace of [s]. *)
Definition same_entry_points (s s' : VulkanExample) : Prop :=
  pfn_vkCreateDescriptorUpdateTemplateKHR s'
  = pfn_vkCreateDescriptorUpdateTemplateKHR s
  /\ pfn_vkCmdPushDescriptorSetWithTemplateKHR s'
     = pfn_vkCmdPushDescriptorSetWithTemplateKHR s
  /\ pfn_vkCmdPushDescriptorSetWithTemplate2KHR s'
     = pfn_vkCmdPushDescriptorSetWithTemplate2KHR s
  /\ calls s' = calls s.

(** Since [s0], the entry points are as they were and no call went
    through a loaded entry point. *)
Definition quiet_since (s0 s : VulkanExample) : Prop :=
  pfn_vkCreateDescriptorUpdateTemplateKHR s
  = pfn_vkCreateDescriptorUpdateTemplateKHR s0
  /\ pfn_vkCmdPushDescriptorSetWithTemplateKHR s
     = pfn_vkCmdPushDescriptorSetWithTemplateKHR s0
  /\ pfn_vkCmdPushDescriptorSetWithTemplate2KHR s
     = pfn_vkCmdPushDescriptorSetWithTemplate2KHR s0
  /\ exists l, calls s = calls s0 ++ l
               /\ Forall (fun c => pfn_of c = None) l.

(** The entry points are resolved and, since [s0], every call through
    a loaded entry point went through a resolved one. *)
Definition resolved_run (s0 s : VulkanExample) : Prop :=
  entry_points_resolved s /\ resolved_since s0 s.

(** Whatever [f] is entered with and however it ends, the calls it
    makes through loaded entry points go through resolved ones, and if
    it returns the entry points are resolved. *)
Definition resolves (f : Step) : Prop :=
  forall s,
    resolved_since s (final (f s))
    /\ (stopped_by (f s) = None -> entry_points_resolved (final (f s))).

(** The result the program checks after a call made from the trace
    [h]: the answer of the device to that call.  The result of creating
    the descriptor update template is not among them. *)
Definition answer_of (dev : Device) (h : list ApiCall) (c : ApiCall)
  : option VkResult :=
  match c with
  | createBuffer size => Some (fst (dev_createBuffer dev h size))
  | mapBuffer b => Some (dev_map dev h b)
  | vkCreateDescriptorSetLayout ci =>
      Some (fst (dev_CreateDescriptorSetLayout dev h ci))
  | vkCreatePipelineLayout setLayouts =>
      Some (fst (dev_CreatePipelineLayout dev h setLayouts))
  | vkCreateGraphicsPipelines layout =>
      Some (fst (dev_CreateGraphicsPipelines dev h layout))
  | vkBeginCommandBuffer cb => Some (dev_BeginCommandBuffer dev h cb)
  | vkEndCommandBuffer cb => Some (dev_EndCommandBuffer dev h cb)
  | vkQueueSubmit cb => Some (dev_QueueSubmit dev h cb)
  | _ => None
  end.

(** Every checked call of [l], made after [h], was accepted. *)
Fixpoint accepted (dev : Device) (h l : list ApiCall) : bool :=
  match l with
  | [] => true
  | c :: rest =>
      match answer_of dev h c with
      | Some r => is_success r
      | None => true
      end && accepted dev (h ++ [c]) rest
  end.

(** Since [s0], every checked call was accepted. *)
Definition passed (dev : Device) (s0 s : VulkanExample) : Prop :=
  exists l, calls s = calls s0 ++ l /\ accepted dev (calls s0) l = true.

(** Since [s0], every checked call was accepted but the last call made,
    which the device rejected with [r]. *)
Definition rejected (dev : Device) (s0 : VulkanExample) (r : VkResult)
    (s : VulkanExample) : Prop :=
  exists l c,
    calls s = calls s0 ++ l ++ [c]
    /\ accepted dev (calls s0) l = true
    /\ answer_of dev (calls s0 ++ l) c = Some r
    /\ is_success r = false.

(** How a step entered after [s0] may end: it returns with every
    checked call accepted; or the process exits with code -1 and the
    diagnostic of an entry point that did not resolve, with every
    checked call accepted; or the process ends at a failed check, of
    the result of the last call made. *)
Definition ends_well (dev : Device) (s0 : VulkanExample) (o : Outcome)
  : Prop :=
  match o with
  | Ok s => passed dev s0 s
  | ExitFatal message exitCode s =>
      passed dev s0 s
      /\ exitCode = -1
      /\ exists ep, resolve dev ep = 0 /\ message = diagnostic ep
  | CheckFailed r s => rejected dev s0 r s
  end.

(** The device resolves the five entry points and accepts every request
    whose result the program checks. *)
Definition conforming (dev : Device) : Prop :=
  (forall ep, resolve dev ep <> 0)
  /\ (forall h c r, answer_of dev h c = Some r -> is_success r = true).

Definition fail_fast (dev : Device) (s0 : VulkanExample) (f : Step) : Prop :=
  forall s, passed dev s0 s -> ends_well dev s0 (f s).

(** A recorded command uses what the object holds: a binding call
    pushes through the template and the pipeline layout of [s] into set
    0, and a pipeline bind binds the pipeline of [s]. *)
Definition wired (s : VulkanExample) (c : ApiCall) : bool :=
  match c with
  | vkCmdBindPipeline _ p => p =? pipeline s
  | vkCmdPushDescriptorSetWithTemplateKHR _ _ t l n _ =>
      (t =? descriptorTemplate s) && (l =? pipelineLayout s) && (n =? 0)
  | vkCmdPushDescriptorSetWithTemplate2KHR _ _ info =>
      (pi_descriptorUpdateTemplate info =? descriptorTemplate s)
      && (pi_layout info =? pipelineLayout s)
      && (pi_set info =? 0)
  | _ => true
  end.

(** What [preparePipelines] asks of the device and of the loader, by
    the handles the object holds afterwards. *)
Definition pipeline_requests (s : VulkanExample) : list ApiCall :=
  [ vkCreatePipelineLayout [descriptorSetLayout s];
    loadFromFile "pushdescriptors/cube.vert.spv";
    loadFromFile "pushdescriptors/cube.frag.spv";
    vkCreateGraphicsPipelines (pipelineLayout s) ].

(** [s'] has the uniform data, the camera and the cubes of [s]. *)
Definition same_uniforms (s s' : VulkanExample) : Prop :=
  uniformBuffer s' = uniformBuffer s
  /\ uniformData s' = uniformData s
  /\ camera_perspective s' = camera_perspective s
  /\ camera_view s' = camera_view s
  /\ cubes s' = cubes s.
End Further.

(** * Results *)

(** ** binary32 rounding

    What [SFadd], [SFsub] and [SFmul] do to canonical non-negative
    values, proved on the definitions of [SpecFloat]. *)

Module Binary32.
Import Float32.

Ltac pow_atoms :=
repeat match goal with
       | |- context [2 ^ ?e] =>
           let x := fresh "pw" in set (x := 2 ^ e) in *; clearbody x
       | H : context [2 ^ ?e] |- _ =>
           let x := fresh "pw" in set (x := 2 ^ e) in *; clearbody x
       end.

Lemma digits2_pos_bounds (m : positive) :
2 ^ (Zpos (digits2_pos m) - 1) <= Zpos m < 2 ^ Zpos (digits2_pos m).
Proof.
induction m as [p IH | p IH |]; cbn [digits2_pos].
- rewrite Pos2Z.inj_succ, Pos2Z.inj_xI.
  replace (Z.succ (Zpos (digits2_pos p)) - 1) with (Z.succ (Zpos (digits2_pos p) - 1)) by lia.
  rewrite !Z.pow_succ_r by lia. pow_atoms. lia.
- rewrite Pos2Z.inj_succ. change (Zpos p~0) with (2 * Zpos p).
  replace (Z.succ (Zpos (digits2_pos p)) - 1) with (Z.succ (Zpos (digits2_pos p) - 1)) by lia.
  rewrite !Z.pow_succ_r by lia. pow_atoms. lia.
- cbn. lia.
Qed.

Lemma digits2_pos_unique (m : positive) (d : Z) :
2 ^ (d - 1) <= Zpos m < 2 ^ d -> Zpos (digits2_pos m) = d.
Proof.
intros [Hlo Hhi]. pose proof (digits2_pos_bounds m) as [Blo Bhi].
destruct (Z.lt_trichotomy (Zpos (digits2_pos m)) d) as [Hlt | [Heq | Hgt]]; [| exact Heq |].
- assert (2 ^ Zpos (digits2_pos m) <= 2 ^ (d - 1)) by (apply Z.pow_le_mono_r; lia). lia.
- assert (2 ^ d <= 2 ^ (Zpos (digits2_pos m) - 1)) by (apply Z.pow_le_mono_r; lia). lia.
Qed.

Lemma iter_xO (m d : positive) : Zpos (Pos.iter xO m d) = Zpos m * 2 ^ Zpos d.
Proof.
induction d as [| d IH] using Pos.peano_ind.
- cbn. lia.
- rewrite Pos.iter_succ. change (Zpos (Pos.iter xO m d)~0) with (2 * Zpos (Pos.iter xO m d)).
  rewrite IH, Pos2Z.inj_succ, Z.pow_succ_r by lia. lia.
Qed.

Lemma iter_pos_nat {A} (f : A -> A) (n : positive) (x : A) :
iter_pos f n x = Nat.iter (Pos.to_nat n) f x.
Proof.
revert x. induction n as [n IH | n IH |]; intro x; cbn [iter_pos].
- rewrite !IH, Pos2Nat.inj_xI. 
  replace (S (2 * Pos.to_nat n)) with (Pos.to_nat n + (Pos.to_nat n + 1))%nat by lia.
  rewrite !Nat.iter_add. cbn. reflexivity.
- rewrite !IH, Pos2Nat.inj_xO.
  replace (2 * Pos.to_nat n)%nat with (Pos.to_nat n + Pos.to_nat n)%nat by lia.
  rewrite Nat.iter_add. reflexivity.
- reflexivity.
Qed.

Lemma shr_1_spec (m : Z) (r s : bool) :
0 <= m ->
shr_m (shr_1 (Build_shr_record m r s)) = m / 2
/\ (r = false -> s = false -> m mod 2 = 0 ->
    shr_r (shr_1 (Build_shr_record m r s)) = false
    /\ shr_s (shr_1 (Build_shr_record m r s)) = false).
Proof.
intro Hm. destruct m as [| p | p]; [| | lia].
- cbn. split; [reflexivity |]. intros -> -> _. split; reflexivity.
- destruct p as [p | p |]; cbn [shr_1 shr_m shr_r shr_s].
  + split; [change (Zpos p~1) with (2 * Zpos p + 1); apply Z.div_unique with 1; lia |].
    intros _ _ H. apply Z.mod_divide in H; [| lia]. destruct H as [c Hc].
    change (Zpos p~1) with (2 * Zpos p + 1) in Hc. lia.
  + split; [change (Zpos p~0) with (2 * Zpos p); apply Z.div_unique with 0; lia |].
    intros -> -> _. split; reflexivity.
  + split; [reflexivity |]. intros _ _ H. discriminate.
Qed.

Lemma iter_shr_1 (k : nat) (m : Z) (r s : bool) :
0 <= m ->
shr_m (Nat.iter k shr_1 (Build_shr_record m r s)) = m / 2 ^ Z.of_nat k
/\ (r = false -> s = false -> m mod 2 ^ Z.of_nat k = 0 ->
    shr_r (Nat.iter k shr_1 (Build_shr_record m r s)) = false
    /\ shr_s (Nat.iter k shr_1 (Build_shr_record m r s)) = false).
Proof.
intro Hm. induction k as [| k [IHm IHx]].
- cbn. rewrite Z.div_1_r. auto.
- rewrite !Nat.iter_succ.
  destruct (Nat.iter k shr_1 (Build_shr_record m r s)) as [mk rk sk].
  cbn [shr_m shr_r shr_s] in IHm, IHx.
  assert (Hpow : 2 ^ Z.of_nat (S k) = 2 ^ Z.of_nat k * 2).
  { rewrite Nat2Z.inj_succ, Z.pow_succ_r by lia. lia. }
  assert (Hpos : 0 < 2 ^ Z.of_nat k) by (apply Z.pow_pos_nonneg; lia).
  assert (Hmk : 0 <= mk) by (subst mk; apply Z.div_pos; lia).
  destruct (shr_1_spec mk rk sk Hmk) as [Sm Sx].
  split.
  + rewrite Sm, IHm, Hpow, Z.div_div by lia. reflexivity.
  + intros Hr Hs Hmod. rewrite Hpow in Hmod.
    apply Z.mod_divide in Hmod; [| lia]. destruct Hmod as [c Hc].
    assert (Hk : m mod 2 ^ Z.of_nat k = 0).
    { apply Z.mod_divide; [lia |]. exists (c * 2). lia. }
    destruct (IHx Hr Hs Hk) as [-> ->].
    apply Sx; [reflexivity | reflexivity |].
    subst mk. replace m with (c * 2 * 2 ^ Z.of_nat k) by lia.
    rewrite Z.div_mul by lia. apply Z.mod_mul. lia.
Qed.

Lemma round_nearest_even_cases (mrs : shr_record) :
let m1 := round_nearest_even (shr_m mrs) (loc_of_shr_record mrs) in
(m1 = shr_m mrs \/ m1 = shr_m mrs + 1)
/\ (shr_r mrs = false -> shr_s mrs = false -> m1 = shr_m mrs).
Proof.
destruct mrs as [m [|] [|]]; cbn; try destruct (Z.even m); auto.
- split; [auto |]. discriminate.
- split; [auto |]. discriminate.
- split; [auto |]. discriminate.
Qed.

Lemma faithful_refl U : faithful U U.
Proof. intros mb j _ _. auto. Qed.

Lemma faithful_truncation (K Q U m1 : Z) :
0 <= K ->
2 ^ 23 <= Q ->
Q * 2 ^ K <= U < (Q + 1) * 2 ^ K ->
(m1 = Q \/ (m1 = Q + 1 /\ U <> Q * 2 ^ K)) ->
faithful U (m1 * 2 ^ K).
Proof.
intros HK HQ HU Hm1 mb j Hj Hmb.
assert (HP : 0 < 2 ^ K) by (apply Z.pow_pos_nonneg; lia).
destruct (Z.le_gt_cases K j) as [Hge | Hlt].
- assert (HB : mb * 2 ^ j = (mb * 2 ^ (j - K)) * 2 ^ K).
  { rewrite <- Z.mul_assoc, <- Z.pow_add_r by lia. f_equal. f_equal. lia. }
  rewrite HB. set (c := mb * 2 ^ (j - K)). clearbody c.
  set (P := 2 ^ K) in *. clearbody P.
  split; intro H.
  + assert (c < Q + 1) by nia. assert (c * P <= Q * P) by nia.
    destruct Hm1 as [-> | [-> _]]; nia.
  + destruct Hm1 as [-> | [-> Hne]]; [nia |].
    assert (Q < c) by nia. nia.
- assert (Hp1 : 2 ^ j <= 2 ^ (K - 1)) by (apply Z.pow_le_mono_r; lia).
  assert (Hp2 : 2 ^ K = 2 * 2 ^ (K - 1)).
  { rewrite <- Z.pow_succ_r by lia. f_equal. lia. }
  assert (Hp3 : 0 < 2 ^ j) by (apply Z.pow_pos_nonneg; lia).
  assert (Hlow : mb * 2 ^ j < Q * 2 ^ K).
  { change (2 ^ 24) with (2 * 2 ^ 23) in Hmb.
    set (A := 2 ^ 23) in *. clearbody A.
    rewrite Hp2. set (P1 := 2 ^ (K - 1)) in *. set (Pj := 2 ^ j) in *.
    clearbody P1 Pj.
    assert (mb * Pj < 2 * A * P1) by nia. nia. }
  split; intro H; [| lia].
  destruct Hm1 as [-> | [-> _]]; nia.
Qed.

Lemma fexp32 (e : Z) : fexp 24 128 e = Z.max (e - 24) (-149).
Proof. reflexivity. Qed.

Lemma pow2_split (a b : Z) : 0 <= a -> 0 <= b -> 2 ^ (a + b) = 2 ^ a * 2 ^ b.
Proof. intros. apply Z.pow_add_r; assumption. Qed.

Lemma shr_fexp_exact (m : positive) (e : Z) :
Z.max (Zpos (digits2_pos m) + e - 24) (-149) = e ->
shr_fexp 24 128 (Zpos m) e loc_Exact =
(Build_shr_record (Zpos m) false false, e).
Proof.
intro H. unfold shr_fexp. cbn [Zdigits2]. rewrite fexp32, H, Z.sub_diag.
reflexivity.
Qed.

Lemma shr_fexp_shift (m : positive) (e : Z) :
e < Z.max (Zpos (digits2_pos m) + e - 24) (-149) ->
exists mrs,
  shr_fexp 24 128 (Zpos m) e loc_Exact =
    (mrs, Z.max (Zpos (digits2_pos m) + e - 24) (-149))
  /\ shr_m mrs =
     Zpos m / 2 ^ (Z.max (Zpos (digits2_pos m) + e - 24) (-149) - e)
  /\ (Zpos m mod 2 ^ (Z.max (Zpos (digits2_pos m) + e - 24) (-149) - e) = 0 ->
      shr_r mrs = false /\ shr_s mrs = false).
Proof.
intros Hlt. unfold shr_fexp. cbn [Zdigits2]. rewrite fexp32.
set (f := Z.max (Zpos (digits2_pos m) + e - 24) (-149)) in *.
cbn [shr_record_of_loc]. unfold shr.
destruct (f - e) as [| n | n] eqn:Hn; try lia.
rewrite iter_pos_nat.
destruct (iter_shr_1 (Pos.to_nat n) (Zpos m) false false) as [A B]; [lia |].
rewrite positive_nat_Z in A, B.
eexists. split; [f_equal; lia |]. split; [exact A |].
intro H. apply B; auto.
Qed.

Lemma binary_round_faithful (M : positive) (E : Z) :
-149 <= E ->
Zpos M * 2 ^ (E + 149) < 2 ^ 276 ->
exists m' e',
  binary_round 24 128 false M E = S754_finite false m' e'
  /\ bounded 24 128 m' e' = true
  /\ faithful (Zpos M * 2 ^ (E + 149)) (Zpos m' * 2 ^ (e' + 149)).
Proof.
intros HE HU.
pose proof (digits2_pos_bounds M) as [Dlo Dhi].
assert (HPE : 0 < 2 ^ (E + 149)) by (apply Z.pow_pos_nonneg; lia).
assert (Hd : Zpos (digits2_pos M) + E < 128).
{ destruct (Z.lt_ge_cases (Zpos (digits2_pos M) + E) 128) as [H | H]; [exact H |].
  exfalso.
  assert (2 ^ 276 <= 2 ^ (Zpos (digits2_pos M) - 1) * 2 ^ (E + 149)).
  { rewrite <- Z.pow_add_r by lia. apply Z.pow_le_mono_r; lia. }
  nia. }
unfold binary_round. rewrite fexp32.
set (d := Zpos (digits2_pos M)) in *.
destruct (Z.le_gt_cases d 24) as [Hsmall | Hbig].
- (* the sum fits: no rounding *)
  set (f := Z.max (d + E - 24) (-149)).
  assert (Hf : -149 <= f <= E) by lia.
  assert (Hal : exists mz, shl_align M E f = (mz, f)
                           /\ Zpos mz = Zpos M * 2 ^ (E - f)).
  { unfold shl_align. destruct (f - E) as [| n | n] eqn:Hfe; try lia.
    - exists M. replace f with E by lia. rewrite Z.sub_diag.
      split; [reflexivity | lia].
    - exists (Pos.iter xO M n). split; [reflexivity |].
      rewrite iter_xO. f_equal. f_equal. lia. }
  destruct Hal as (mz & -> & Hmz).
  assert (Hdz : Zpos (digits2_pos mz) = d + (E - f)).
  { apply digits2_pos_unique. rewrite Hmz.
    replace (d + (E - f) - 1) with ((d - 1) + (E - f)) by lia.
    rewrite !pow2_split by lia.
    assert (0 < 2 ^ (E - f)) by (apply Z.pow_pos_nonneg; lia). nia. }
  assert (Hcan : Z.max (Zpos (digits2_pos mz) + f - 24) (-149) = f) by lia.
  unfold binary_round_aux. rewrite (shr_fexp_exact mz f Hcan).
  cbn [shr_m loc_of_shr_record round_nearest_even].
  rewrite (shr_fexp_exact mz f Hcan). cbn [shr_m].
  destruct (Z.leb_spec f (128 - 24)) as [_ | Habs]; [| lia].
  exists mz, f. split; [reflexivity |]. split.
  + unfold bounded, canonical_mantissa. rewrite fexp32.
    apply andb_true_intro. split; [apply Z.eqb_eq; lia | apply Z.leb_le; lia].
  + rewrite Hmz, <- Z.mul_assoc, <- Z.pow_add_r by lia.
    replace (E - f + (f + 149)) with (E + 149) by lia. apply faithful_refl.
- (* the sum has more than 24 bits: it is rounded *)
  replace (Z.max (d + E - 24) (-149)) with (d + E - 24) by lia.
  assert (Hal : shl_align M E (d + E - 24) = (M, E)).
  { unfold shl_align. destruct (d + E - 24 - E) eqn:Hn; try lia; reflexivity. }
  rewrite Hal. unfold binary_round_aux.
  destruct (shr_fexp_shift M E) as (mrs & -> & Hq & Hexact); [fold d; lia |].
  fold d in Hq, Hexact |- *.
  replace (Z.max (d + E - 24) (-149)) with (d + E - 24) in * by lia.
  replace (d + E - 24 - E) with (d - 24) in * by lia.
  set (n := d - 24) in *. set (f := d + E - 24).
  assert (Hn : 0 < n) by (unfold n; lia).
  assert (HPn : 0 < 2 ^ n) by (apply Z.pow_pos_nonneg; lia).
  assert (HdM : 2 ^ 23 * 2 ^ n <= Zpos M < 2 ^ 24 * 2 ^ n).
  { rewrite <- !pow2_split by lia.
    replace (23 + n) with (d - 1) by (unfold n; lia).
    replace (24 + n) with d by (unfold n; lia). lia. }
  set (q := shr_m mrs) in *.
  assert (Hqb : 2 ^ 23 <= q < 2 ^ 24).
  { rewrite Hq. split.
    - apply Z.div_le_lower_bound; lia.
    - apply Z.div_lt_upper_bound; lia. }
  assert (HqM : q * 2 ^ n <= Zpos M < (q + 1) * 2 ^ n).
  { rewrite Hq. split.
    - rewrite Z.mul_comm. apply Z.mul_div_le. lia.
    - rewrite Z.mul_comm. replace (Zpos M / 2 ^ n + 1) with (Z.succ (Zpos M / 2 ^ n)) by lia.
      apply Z.mul_succ_div_gt. lia. }
  destruct (round_nearest_even_cases mrs) as [Hcases Hsame].
  fold q in Hcases, Hsame.
  set (m1 := round_nearest_even q (loc_of_shr_record mrs)) in *.
  assert (Hm1 : m1 = q \/ (m1 = q + 1 /\ Zpos M <> q * 2 ^ n)).
  { destruct Hcases as [H | H]; [left; exact H |].
    right. split; [exact H |]. intro Heq.
    assert (Hmod : Zpos M mod 2 ^ n = 0).
    { rewrite Heq. apply Z.mod_mul. lia. }
    destruct (Hexact Hmod) as [Hr Hs]. specialize (Hsame Hr Hs). lia. }
  assert (HK : 2 ^ (f + 149) = 2 ^ n * 2 ^ (E + 149)).
  { rewrite <- pow2_split by lia. f_equal. unfold f, n. lia. }
  assert (Hfaith : faithful (Zpos M * 2 ^ (E + 149)) (m1 * 2 ^ (f + 149))).
  { apply faithful_truncation with (Q := q).
    - unfold f; lia.
    - lia.
    - rewrite HK. nia.
    - destruct Hm1 as [H | [H Hne]]; [left; exact H |].
      right. split; [exact H |]. rewrite HK. nia. }
  assert (Hm1pos : 0 < m1) by lia.
  destruct m1 as [| pm | pm] eqn:Em1; try lia.
  destruct (Z.eq_dec (Zpos pm) (2 ^ 24)) as [Htop | Hnot].
  + (* the mantissa carried into bit 25 *)
    assert (pm = 16777216%positive) by (injection Htop; auto). subst pm.
    assert (Hs2 : shr_fexp 24 128 16777216 f loc_Exact =
                  (Build_shr_record 8388608 false false, f + 1)).
    { unfold shr_fexp. cbn [Zdigits2 digits2_pos Pos.succ]. rewrite fexp32.
      replace (Z.max (25 + f - 24) (-149) - f) with 1 by (unfold f; lia).
      reflexivity. }
    rewrite Hs2. cbn [shr_m].
    destruct (Z.leb_spec (f + 1) (128 - 24)) as [_ | Habs]; [| unfold f in Habs; lia].
    exists 8388608%positive, (f + 1). split; [reflexivity |]. split.
    * unfold bounded, canonical_mantissa. cbn [digits2_pos Pos.succ].
      rewrite fexp32. apply andb_true_intro.
      split; [apply Z.eqb_eq | apply Z.leb_le]; unfold f; lia.
    * replace (Zpos 8388608 * 2 ^ (f + 1 + 149)) with (16777216 * 2 ^ (f + 149)).
      { exact Hfaith. }
      replace (f + 1 + 149) with (Z.succ (f + 149)) by lia.
      rewrite Z.pow_succ_r by (unfold f; lia). lia.
  + assert (Hd1 : Zpos (digits2_pos pm) = 24).
    { apply digits2_pos_unique. change (24 - 1) with 23. lia. }
    assert (Hcan : Z.max (Zpos (digits2_pos pm) + f - 24) (-149) = f)
      by (unfold f; lia).
    rewrite (shr_fexp_exact pm f Hcan). cbn [shr_m].
    destruct (Z.leb_spec f (128 - 24)) as [_ | Habs]; [| unfold f in Habs; lia].
    exists pm, f. split; [reflexivity |]. split.
    * unfold bounded, canonical_mantissa. rewrite fexp32.
      apply andb_true_intro.
      split; [apply Z.eqb_eq | apply Z.leb_le]; unfold f; lia.
    * exact Hfaith.
Qed.

Lemma bounded_canonical (m : positive) (e : Z) :
bounded 24 128 m e = true ->
-149 <= e <= 104
/\ Zpos (digits2_pos m) <= 24
/\ (e = -149 \/ Zpos (digits2_pos m) = 24).
Proof.
unfold bounded, canonical_mantissa. rewrite fexp32. intro H.
apply andb_prop in H. destruct H as [H1 H2].
apply Z.eqb_eq in H1. apply Z.leb_le in H2. lia.
Qed.

Lemma bounded_mantissa (m : positive) (e : Z) :
bounded 24 128 m e = true ->
0 < Zpos m < 2 ^ 24 /\ (e = -149 \/ 2 ^ 23 <= Zpos m).
Proof.
intro H. destruct (bounded_canonical m e H) as (He & Hd & Hn).
pose proof (digits2_pos_bounds m) as [Dlo Dhi].
split.
- split; [lia |].
  assert (2 ^ Zpos (digits2_pos m) <= 2 ^ 24) by (apply Z.pow_le_mono_r; lia).
  lia.
- destruct Hn as [Hn | Hn]; [left; exact Hn | right].
  rewrite Hn in Dlo. exact Dlo.
Qed.

Lemma scaled_lt_of_exponent (m1 m2 : positive) (e1 e2 : Z) :
bounded 24 128 m1 e1 = true ->
bounded 24 128 m2 e2 = true ->
e1 < e2 ->
Zpos m1 * 2 ^ (e1 + 149) < Zpos m2 * 2 ^ (e2 + 149).
Proof.
intros H1 H2 Hlt.
destruct (bounded_canonical m1 e1 H1) as (He1 & _ & _).
destruct (bounded_mantissa m1 e1 H1) as (Hm1 & _).
destruct (bounded_mantissa m2 e2 H2) as (Hm2 & Hn2).
destruct Hn2 as [Hn2 | Hn2]; [lia |].
assert (HP : 0 < 2 ^ (e1 + 149)) by (apply Z.pow_pos_nonneg; lia).
assert (Hpow : 2 * 2 ^ (e1 + 149) <= 2 ^ (e2 + 149)).
{ rewrite <- Z.pow_succ_r by lia. apply Z.pow_le_mono_r; lia. }
change (2 ^ 24) with (2 * 2 ^ 23) in Hm1.
set (A := 2 ^ 23) in *. set (P1 := 2 ^ (e1 + 149)) in *.
set (P2 := 2 ^ (e2 + 149)) in *. clearbody A P1 P2.
assert (Zpos m1 * P1 < 2 * A * P1) by nia.
assert (A * (2 * P1) <= Zpos m2 * P2) by nia.
lia.
Qed.

Lemma SFcompare_scaled (x y : spec_float) :
valid_binary 24 128 x = true -> valid_binary 24 128 y = true ->
nonneg_finite x = true -> nonneg_finite y = true ->
SFcompare x y = Some (scaled x ?= scaled y).
Proof.
intros Vx Vy Nx Ny.
destruct x as [sx | sx | | [|] mx ex]; try discriminate;
  destruct y as [sy | sy | | [|] my ey]; try discriminate;
  cbn [SFcompare scaled valid_binary] in *.
- reflexivity.
- assert (0 < 2 ^ (ey + 149)).
  { destruct (bounded_canonical my ey Vy) as (He & _). apply Z.pow_pos_nonneg; lia. }
  symmetry. f_equal. apply Z.compare_lt_iff. lia.
- assert (0 < 2 ^ (ex + 149)).
  { destruct (bounded_canonical mx ex Vx) as (He & _). apply Z.pow_pos_nonneg; lia. }
  symmetry. f_equal. apply Z.compare_gt_iff. lia.
- f_equal. destruct (Z.compare_spec ex ey) as [Heq | Hlt | Hgt].
  + subst ey.
    assert (0 < 2 ^ (ex + 149)).
    { destruct (bounded_canonical mx ex Vx) as (He & _). apply Z.pow_pos_nonneg; lia. }
    rewrite <- Zmult_compare_compat_r by lia. reflexivity.
  + symmetry. apply Z.compare_lt_iff. apply scaled_lt_of_exponent; assumption.
  + symmetry. apply Z.compare_gt_iff. apply scaled_lt_of_exponent; assumption.
Qed.

Lemma shl_align_scaled (m : positive) (e ez : Z) :
-149 <= ez <= e ->
Zpos (fst (shl_align m e ez)) * 2 ^ (ez + 149) = Zpos m * 2 ^ (e + 149).
Proof.
intro H. unfold shl_align. destruct (ez - e) as [| n | n] eqn:Hd; try lia.
- cbn [fst]. replace ez with e by lia. reflexivity.
- cbn [fst]. rewrite iter_xO, <- Z.mul_assoc, <- Z.pow_add_r by lia.
  f_equal. f_equal. lia.
Qed.

Lemma SFadd_faithful (x y : spec_float) :
valid_binary 24 128 x = true -> valid_binary 24 128 y = true ->
nonneg_finite x = true -> nonneg_finite y = true ->
scaled x + scaled y < 2 ^ 276 ->
valid_binary 24 128 (SFadd 24 128 x y) = true
/\ nonneg_finite (SFadd 24 128 x y) = true
/\ faithful (scaled x + scaled y) (scaled (SFadd 24 128 x y)).
Proof.
intros Vx Vy Nx Ny Hsum.
destruct x as [sx | sx | | [|] mx ex]; try discriminate;
  destruct y as [sy | sy | | [|] my ey]; try discriminate;
  cbn [SFadd].
{ destruct sx, sy; (split; [| split]); try reflexivity; apply faithful_refl. }
{ (split; [| split]); try assumption. cbn [scaled]. rewrite Z.add_0_l.
  apply faithful_refl. }
{ (split; [| split]); try assumption. cbn [scaled]. rewrite Z.add_0_r.
  apply faithful_refl. }
cbn [valid_binary scaled] in *.
destruct (bounded_canonical mx ex Vx) as (Hex & _).
destruct (bounded_canonical my ey Vy) as (Hey & _).
set (ez := Z.min ex ey).
pose proof (shl_align_scaled mx ex ez ltac:(unfold ez; lia)) as Ha.
pose proof (shl_align_scaled my ey ez ltac:(unfold ez; lia)) as Hb.
set (a := fst (shl_align mx ex ez)) in *.
set (b := fst (shl_align my ey ez)) in *.
cbn [cond_Zopp]. change (Zpos a + Zpos b) with (Zpos (a + b)).
cbn [binary_normalize].
assert (HU : Zpos (a + b) * 2 ^ (ez + 149) =
             Zpos mx * 2 ^ (ex + 149) + Zpos my * 2 ^ (ey + 149)).
{ rewrite Pos2Z.inj_add, Z.mul_add_distr_r, Ha, Hb. reflexivity. }
destruct (binary_round_faithful (a + b) ez) as (m' & e' & -> & Hb' & Hf).
{ unfold ez; lia. }
{ rewrite HU. exact Hsum. }
cbn [valid_binary nonneg_finite scaled]. rewrite <- HU. auto.
Qed.

Lemma SFsub_faithful (x y : spec_float) :
valid_binary 24 128 x = true -> valid_binary 24 128 y = true ->
nonneg_finite x = true -> nonneg_finite y = true ->
0 < scaled y < scaled x ->
scaled x < 2 ^ 276 ->
valid_binary 24 128 (SFsub 24 128 x y) = true
/\ nonneg_finite (SFsub 24 128 x y) = true
/\ faithful (scaled x - scaled y) (scaled (SFsub 24 128 x y)).
Proof.
intros Vx Vy Nx Ny Hlt Hbig.
destruct x as [sx | sx | | [|] mx ex]; try discriminate;
  destruct y as [sy | sy | | [|] my ey]; try discriminate;
  cbn [scaled] in Hlt; try lia.
cbn [SFsub valid_binary scaled] in *.
destruct (bounded_canonical mx ex Vx) as (Hex & _).
destruct (bounded_canonical my ey Vy) as (Hey & _).
set (ez := Z.min ex ey).
pose proof (shl_align_scaled mx ex ez ltac:(unfold ez; lia)) as Ha.
pose proof (shl_align_scaled my ey ez ltac:(unfold ez; lia)) as Hb.
set (a := fst (shl_align mx ex ez)) in *.
set (b := fst (shl_align my ey ez)) in *.
cbn [cond_Zopp].
assert (HP : 0 < 2 ^ (ez + 149)) by (apply Z.pow_pos_nonneg; unfold ez; lia).
assert (Hab : (b < a)%positive).
{ apply Pos2Z.pos_lt_pos. nia. }
change (Zpos a - Zpos b) with (Z.pos_sub a b).
rewrite (Z.pos_sub_gt a b Hab). cbn [binary_normalize].
assert (HU : Zpos (a - b) * 2 ^ (ez + 149) =
             Zpos mx * 2 ^ (ex + 149) - Zpos my * 2 ^ (ey + 149)).
{ rewrite Pos2Z.inj_sub by exact Hab. rewrite Z.mul_sub_distr_r, Ha, Hb.
  reflexivity. }
destruct (binary_round_faithful (a - b) ez) as (m' & e' & -> & Hb' & Hf).
{ unfold ez; lia. }
{ rewrite HU. lia. }
cbn [valid_binary nonneg_finite scaled]. rewrite <- HU. auto.
Qed.

Lemma scaled_nonneg (x : spec_float) : 0 <= scaled x.
Proof.
destruct x as [s | s | | [|] m e]; cbn [scaled]; lia.
Qed.

Lemma SFleb_scaled (x y : spec_float) :
valid_binary 24 128 x = true -> valid_binary 24 128 y = true ->
nonneg_finite x = true -> nonneg_finite y = true ->
SFleb x y = (scaled x <=? scaled y).
Proof.
intros Vx Vy Nx Ny. unfold SFleb, Z.leb.
rewrite (SFcompare_scaled x y Vx Vy Nx Ny).
destruct (scaled x ?= scaled y); reflexivity.
Qed.

Lemma SFltb_scaled (x y : spec_float) :
valid_binary 24 128 x = true -> valid_binary 24 128 y = true ->
nonneg_finite x = true -> nonneg_finite y = true ->
SFltb x y = (scaled x <? scaled y).
Proof.
intros Vx Vy Nx Ny. unfold SFltb, Z.ltb.
rewrite (SFcompare_scaled x y Vx Vy Nx Ny).
destruct (scaled x ?= scaled y); reflexivity.
Qed.

Lemma between_nonneg_finite (x : spec_float) :
SFleb (S754_zero false) x = true ->
(SFleb x c360 = true \/ SFltb x c360 = true) ->
nonneg_finite x = true.
Proof.
destruct x as [s | [|] | | [|] m e]; try reflexivity; intros H1 H2.
- discriminate H1.
- destruct H2 as [H2 | H2]; discriminate H2.
- discriminate H1.
- discriminate H1.
Qed.

(** [r += inc; if (r > 360.0f) r -= 360.0f;] keeps a binary32 value of
  [0, 360] in [0, 360] when [inc] is a binary32 value of [0, 360). *)
Lemma wrap_in_range (r inc : spec_float) :
valid_binary 24 128 r = true ->
SFleb (S754_zero false) r = true ->
SFleb r c360 = true ->
valid_binary 24 128 inc = true ->
SFleb (S754_zero false) inc = true ->
SFltb inc c360 = true ->
let r1 := SFadd 24 128 r inc in
let r' := if SFltb c360 r1 then SFsub 24 128 r1 c360 else r1 in
valid_binary 24 128 r' = true
/\ SFleb (S754_zero false) r' = true
/\ SFleb r' c360 = true.
Proof.
intros Vr Zr Lr Vi Zi Li r1 r'.
assert (Nr : nonneg_finite r = true) by (apply between_nonneg_finite; auto).
assert (Ni : nonneg_finite inc = true) by (apply between_nonneg_finite; auto).
assert (V360 : valid_binary 24 128 c360 = true) by reflexivity.
assert (N360 : nonneg_finite c360 = true) by reflexivity.
assert (V0 : valid_binary 24 128 (S754_zero false) = true) by reflexivity.
assert (N0 : nonneg_finite (S754_zero false) = true) by reflexivity.
rewrite SFleb_scaled in Lr by assumption. apply Z.leb_le in Lr.
rewrite SFltb_scaled in Li by assumption. apply Z.ltb_lt in Li.
pose proof (scaled_nonneg r) as Pr. pose proof (scaled_nonneg inc) as Pi.
assert (E360 : scaled c360 = 11796480 * 2 ^ 134) by reflexivity.
assert (Hbig : 2 * (11796480 * 2 ^ 134) < 2 ^ 276) by reflexivity.
assert (Hpos : 0 < 11796480 * 2 ^ 134) by reflexivity.
assert (E720 : 11796480 * 2 ^ 135 = 2 * (11796480 * 2 ^ 134)) by reflexivity.
set (S := 11796480 * 2 ^ 134) in *.
destruct (SFadd_faithful r inc Vr Vi Nr Ni) as (V1 & N1 & F1); [lia |].
fold r1 in V1, N1, F1.
destruct (F1 11796480 135) as [_ Hup]; [lia | split; [lia | reflexivity] |].
rewrite E720 in Hup. specialize (Hup ltac:(lia)).
pose proof (scaled_nonneg r1) as P1.
assert (Hcmp : SFltb c360 r1 = (scaled c360 <? scaled r1))
  by (apply SFltb_scaled; assumption).
subst r'. rewrite Hcmp. destruct (Z.ltb_spec (scaled c360) (scaled r1)) as [Hgt | Hle].
- destruct (SFsub_faithful r1 c360 V1 V360 N1 N360) as (V2 & N2 & F2); [lia | lia |].
  destruct (F2 11796480 134) as [_ Hup2]; [lia | split; [lia | reflexivity] |].
  change (11796480 * 2 ^ 134) with S in Hup2. specialize (Hup2 ltac:(lia)).
  split; [exact V2 |].
  rewrite !SFleb_scaled by assumption.
  pose proof (scaled_nonneg (SFsub 24 128 r1 c360)).
  split; apply Z.leb_le; [exact H | lia].
- split; [exact V1 |].
  rewrite !SFleb_scaled by assumption.
  split; apply Z.leb_le; [exact P1 | lia].
Qed.

Lemma digits2_pos_le (m : positive) (d : Z) :
0 <= d -> Zpos m < 2 ^ d -> Zpos (digits2_pos m) <= d.
Proof.
intros Hd H. pose proof (digits2_pos_bounds m) as [Dlo _].
destruct (Z.le_gt_cases (Zpos (digits2_pos m)) d) as [Hle | Hgt]; [exact Hle |].
assert (2 ^ d <= 2 ^ (Zpos (digits2_pos m) - 1)) by (apply Z.pow_le_mono_r; lia).
lia.
Qed.

(** Rounding an exact mantissa that is not below its canonical exponent
  gives a binary32 value. *)
Lemma binary_round_aux_valid (s : bool) (m : positive) (e : Z) :
e <= Z.max (Zpos (digits2_pos m) + e - 24) (-149) ->
valid_binary 24 128 (binary_round_aux 24 128 s (Zpos m) e loc_Exact) = true.
Proof.
intro Hle. unfold binary_round_aux.
pose proof (digits2_pos_bounds m) as [Dlo Dhi].
set (d := Zpos (digits2_pos m)) in *.
set (f := Z.max (d + e - 24) (-149)) in *.
destruct (Z.eq_dec f e) as [Heq | Hne].
- rewrite (shr_fexp_exact m e Heq).
  cbn [shr_m loc_of_shr_record round_nearest_even].
  rewrite (shr_fexp_exact m e Heq). cbn [shr_m].
  destruct (Z.leb_spec e (128 - 24)); [| reflexivity].
  cbn [valid_binary]. unfold bounded, canonical_mantissa. rewrite fexp32.
  apply andb_true_intro. split; [apply Z.eqb_eq | apply Z.leb_le]; lia.
- destruct (shr_fexp_shift m e) as (mrs & -> & Hq & _); [fold d f; lia |].
  fold d in Hq |- *. fold f in Hq |- *. set (n := f - e) in *.
  assert (Hn : 0 < n) by (unfold n; lia).
  assert (HPn : 0 < 2 ^ n) by (apply Z.pow_pos_nonneg; lia).
  set (q := shr_m mrs) in *.
  assert (Hq0 : 0 <= q < 2 ^ 24).
  { rewrite Hq. split; [apply Z.div_pos; lia |].
    apply Z.div_lt_upper_bound; [lia |].
    assert (2 ^ d <= 2 ^ (n + 24)) by (apply Z.pow_le_mono_r; unfold n, f; lia).
    rewrite pow2_split in H by lia. lia. }
  assert (Hq1 : f = -149 \/ 2 ^ 23 <= q).
  { destruct (Z.eq_dec f (-149)) as [H | H]; [left; exact H | right].
    rewrite Hq. apply Z.div_le_lower_bound; [lia |].
    rewrite Z.mul_comm, <- pow2_split by lia.
    replace (23 + n) with (d - 1) by (unfold n, f in *; lia). exact Dlo. }
  destruct (round_nearest_even_cases mrs) as [Hcases _].
  fold q in Hcases.
  set (m1 := round_nearest_even q (loc_of_shr_record mrs)) in *.
  destruct m1 as [| pm | pm] eqn:Em1; try lia.
  + unfold shr_fexp. cbn [Zdigits2]. rewrite fexp32. cbn [shr_record_of_loc].
    unfold shr. destruct (Z.max (0 + f - 24) (-149) - f) eqn:Hs;
      try (unfold f in Hs; lia); reflexivity.
  + destruct (Z.eq_dec (Zpos pm) (2 ^ 24)) as [Htop | Hnot].
    * assert (pm = 16777216%positive) by (injection Htop; auto). subst pm.
      assert (Hs2 : shr_fexp 24 128 16777216 f loc_Exact =
                    (Build_shr_record 8388608 false false, f + 1)).
      { unfold shr_fexp. cbn [Zdigits2 digits2_pos Pos.succ]. rewrite fexp32.
        replace (Z.max (25 + f - 24) (-149) - f) with 1 by (unfold f; lia).
        reflexivity. }
      rewrite Hs2. cbn [shr_m].
      destruct (Z.leb_spec (f + 1) (128 - 24)); [| reflexivity].
      cbn [valid_binary]. unfold bounded, canonical_mantissa.
      cbn [digits2_pos Pos.succ]. rewrite fexp32. apply andb_true_intro.
      split; [apply Z.eqb_eq | apply Z.leb_le]; unfold f in *; lia.
    * assert (Hd1 : Zpos (digits2_pos pm) <= 24)
        by (apply digits2_pos_le; lia).
      assert (Hd2 : f = -149 \/ Zpos (digits2_pos pm) = 24).
      { destruct Hq1 as [H | H]; [left; exact H | right].
        apply digits2_pos_unique. change (24 - 1) with 23. lia. }
      assert (Hcan : Z.max (Zpos (digits2_pos pm) + f - 24) (-149) = f)
        by (unfold f in *; lia).
      rewrite (shr_fexp_exact pm f Hcan). cbn [shr_m].
      destruct (Z.leb_spec f (128 - 24)); [| reflexivity].
      cbn [valid_binary]. unfold bounded, canonical_mantissa. rewrite fexp32.
      apply andb_true_intro. split; [apply Z.eqb_eq | apply Z.leb_le]; lia.
Qed.

Lemma digits2_pos_mul (a b : positive) :
Zpos (digits2_pos a) + Zpos (digits2_pos b) - 1 <= Zpos (digits2_pos (a * b)).
Proof.
pose proof (digits2_pos_bounds a) as [Alo _].
pose proof (digits2_pos_bounds b) as [Blo _].
pose proof (digits2_pos_bounds (a * b)) as [_ Chi].
destruct (Z.le_gt_cases (Zpos (digits2_pos a) + Zpos (digits2_pos b) - 1)
            (Zpos (digits2_pos (a * b)))) as [H | H]; [exact H |].
assert (H1 : 2 ^ Zpos (digits2_pos (a * b)) <=
             2 ^ ((Zpos (digits2_pos a) - 1) + (Zpos (digits2_pos b) - 1)))
  by (apply Z.pow_le_mono_r; lia).
rewrite pow2_split in H1 by lia. rewrite Pos2Z.inj_mul in Chi.
assert (0 < 2 ^ (Zpos (digits2_pos a) - 1)) by (apply Z.pow_pos_nonneg; lia).
assert (0 < 2 ^ (Zpos (digits2_pos b) - 1)) by (apply Z.pow_pos_nonneg; lia).
nia.
Qed.

Lemma SFmul_valid (x y : spec_float) :
valid_binary 24 128 x = true -> valid_binary 24 128 y = true ->
valid_binary 24 128 (SFmul 24 128 x y) = true.
Proof.
intros Vx Vy.
destruct x as [sx | sx | | sx mx ex]; destruct y as [sy | sy | | sy my ey];
  try reflexivity.
cbn [SFmul valid_binary] in *.
apply binary_round_aux_valid.
destruct (bounded_canonical mx ex Vx) as (Hex & Hdx & Hnx).
destruct (bounded_canonical my ey Vy) as (Hey & Hdy & Hny).
pose proof (digits2_pos_mul mx my).
assert (0 < Zpos (digits2_pos mx)) by lia.
assert (0 < Zpos (digits2_pos my)) by lia.
lia.
Qed.

(** The same, on [advance]. *)
Lemma advance_in_range (v t r : float) :
valid v = true ->
valid t = true ->
leb zero (mul v t) = true ->
ltb (mul v t) c360 = true ->
valid r = true ->
leb zero r = true ->
leb r c360 = true ->
valid (advance v t r) = true
/\ leb zero (advance v t r) = true
/\ leb (advance v t r) c360 = true.
Proof.
unfold advance, gtb, ltb, leb, valid, add, sub, mul, prec, emax, zero.
intros Vv Vt Hi0 Hi1 Vr Hr0 Hr1.
exact (wrap_in_range r (SFmul 24 128 v t) Vr Hr0 Hr1
         (SFmul_valid v t Vv Vt) Hi0 Hi1).
Qed.

End Binary32.

(** ** The template entries *)

Lemma sizes_Align64 :
  sizeof_VkDescriptorBufferInfo Align64 = 24
  /\ sizeof_VkDescriptorImageInfo Align64 = 24
  /\ sizeof_DescriptorData Align64 = 72.
Proof. repeat split; reflexivity. Qed.

Lemma sizes_Align32 :
  sizeof_VkDescriptorBufferInfo Align32 = 24
  /\ sizeof_VkDescriptorImageInfo Align32 = 20
  /\ sizeof_DescriptorData Align32 = 68.
Proof. repeat split; reflexivity. Qed.

(** C4, as stated, fails: the first entry has [descriptorCount = 1] and
    a stride of [sizeof(DescriptorData)], which is not zero. *)
Lemma template_entries_break_stride_rule :
  ~ Forall (TemplateEntry_invariant Align64) (template_entries Align64).
Proof.
  intro H. inversion H as [| e l [_ [_ Hstride]] _]; subst.
  cbv in Hstride. assert (1 > 1) by (apply Hstride; discriminate). lia.
Qed.

(** C4, amended: every entry built by [prepare] lies inside the blob
    (its offset plus the descriptor size of its kind is at most
    [sizeof(DescriptorData)]), its stride is [sizeof(DescriptorData)],
    which is not zero, and its [descriptorCount] is 1. *)
Theorem template_entries_within_blob (abi : Abi) :
  Forall (TemplateEntry_holds abi) (template_entries abi).
Proof.
  destruct abi; repeat constructor; cbv; congruence.
Qed.

(** ** The per-object update *)

Section Update.
Context {G : Glm}.

Lemma cube_set_cube (i j : CubeIx) (c : Cube) (s : VulkanExample) :
  cube i (set_cube j c s) =
  match i, j with
  | Cube0, Cube0 | Cube1, Cube1 => c
  | _, _ => cube i s
  end.
Proof. destruct i, j; reflexivity. Qed.

Lemma updateCubeUniformBuffers_stages (s : VulkanExample) :
  updateCubeUniformBuffers s = rotations_advanced (matrices_written s).
Proof. reflexivity. Qed.

Lemma matrices_written_cube (i : CubeIx) (s : VulkanExample) :
  cube i (matrices_written s) =
  set_cube_uniformBuffer
    (memcpy (cube_uniformBuffer (cube i s))
       (reference_modelMat (position i) (rotation (cube i s))))
    (set_modelMat (reference_modelMat (position i) (rotation (cube i s)))
       (cube i s)).
Proof. destruct i; reflexivity. Qed.

Lemma matrices_written_flags (s : VulkanExample) :
  animate (matrices_written s) = animate s
  /\ paused (matrices_written s) = paused s
  /\ frameTimer (matrices_written s) = frameTimer s.
Proof. repeat split. Qed.

Lemma matrices_written_trace (s : VulkanExample) :
  useNew (matrices_written s) = useNew s
  /\ calls (matrices_written s) = calls s.
Proof. split; reflexivity. Qed.

Lemma rotations_advanced_trace (s : VulkanExample) :
  useNew (rotations_advanced s) = useNew s
  /\ calls (rotations_advanced s) = calls s.
Proof.
  unfold rotations_advanced.
  destruct (animate s && negb (paused s)); split; reflexivity.
Qed.

Lemma rotations_advanced_angle (i : CubeIx) (a : Axis) (s : VulkanExample) :
  angle a (rotation (cube i (rotations_advanced s))) =
  match angularVelocity i a with
  | Some v =>
      if animate s && negb (paused s)
      then advance v (frameTimer s) (angle a (rotation (cube i s)))
      else angle a (rotation (cube i s))
  | None => angle a (rotation (cube i s))
  end.
Proof.
  unfold rotations_advanced.
  destruct (animate s && negb (paused s)); destruct i, a; reflexivity.
Qed.

Lemma rotations_advanced_matrix (i : CubeIx) (s : VulkanExample) :
  modelMat (cube i (rotations_advanced s)) = modelMat (cube i s)
  /\ cube_uniformBuffer (cube i (rotations_advanced s))
     = cube_uniformBuffer (cube i s).
Proof.
  unfold rotations_advanced.
  destruct (animate s && negb (paused s)); destruct i; split; reflexivity.
Qed.

(** The angles of a cube after an update: an axis with an angular
    velocity is advanced when the animation runs, nothing else moves. *)
Lemma updateCubeUniformBuffers_angle (i : CubeIx) (a : Axis) (s : VulkanExample) :
  angle a (rotation (cube i (updateCubeUniformBuffers s))) =
  match angularVelocity i a with
  | Some v =>
      if animate s && negb (paused s)
      then advance v (frameTimer s) (angle a (rotation (cube i s)))
      else angle a (rotation (cube i s))
  | None => angle a (rotation (cube i s))
  end.
Proof.
  rewrite updateCubeUniformBuffers_stages, rotations_advanced_angle.
  destruct (matrices_written_flags s) as (-> & -> & ->).
  rewrite matrices_written_cube. reflexivity.
Qed.

Lemma updateCubeUniformBuffers_matrix (i : CubeIx) (s : VulkanExample) :
  modelMat (cube i (updateCubeUniformBuffers s)) =
    reference_modelMat (position i) (rotation (cube i s))
  /\ mapped (cube_uniformBuffer (cube i (updateCubeUniformBuffers s))) =
    Some (reference_modelMat (position i) (rotation (cube i s))).
Proof.
  rewrite updateCubeUniformBuffers_stages.
  destruct (rotations_advanced_matrix i (matrices_written s)) as [-> ->].
  rewrite matrices_written_cube. split; reflexivity.
Qed.

Lemma updateCubeUniformBuffers_trace (s : VulkanExample) :
  useNew (updateCubeUniformBuffers s) = useNew s
  /\ calls (updateCubeUniformBuffers s) = calls s.
Proof.
  rewrite updateCubeUniformBuffers_stages.
  destruct (rotations_advanced_trace (matrices_written s)) as [-> ->].
  apply matrices_written_trace.
Qed.

(** C6: in every update and for both cubes, the matrix left in
    [modelMat] and copied to the cube's mapped uniform buffer is the
    identity translated by the cube's fixed position, then rotated
    about X, about Y and about Z by the cube's accumulated angles,
    then scaled by the fixed factor 0.25, in that order. *)
Theorem modelMat_composition_order (i : CubeIx) (s : VulkanExample) :
  let s' := updateCubeUniformBuffers s in
  let r := rotation (cube i s) in
  let m :=
    scale
      (rotate
         (rotate
            (rotate (translate mat4_1 (position i)) (radians (vx r)) axisX)
            (radians (vy r)) axisY)
         (radians (vz r)) axisZ)
      (vec3_splat Float32.c0_25) in
  modelMat (cube i s') = m
  /\ mapped (cube_uniformBuffer (cube i s')) = Some m
  /\ m = reference_modelMat (position i) r.
Proof.
  cbv zeta. destruct (updateCubeUniformBuffers_matrix i s) as [Hm Hb].
  rewrite Hm, Hb. repeat split.
Qed.

(** C10: the matrix an update writes to a cube's mapped uniform buffer
    is computed from the angles the cube had when the update was
    entered; the advance made by the same call (only when [animate]
    is set and [paused] is not) shows in the cube's angles afterwards
    and in the matrix the next call writes. *)
Theorem matrix_from_rotation_at_entry (i : CubeIx) (s : VulkanExample) :
  let s1 := updateCubeUniformBuffers s in
  let s2 := updateCubeUniformBuffers s1 in
  mapped (cube_uniformBuffer (cube i s1)) =
    Some (reference_modelMat (position i) (rotation (cube i s)))
  /\ (forall a,
        angle a (rotation (cube i s1)) =
        match angularVelocity i a with
        | Some v =>
            if animate s && negb (paused s)
            then advance v (frameTimer s) (angle a (rotation (cube i s)))
            else angle a (rotation (cube i s))
        | None => angle a (rotation (cube i s))
        end)
  /\ mapped (cube_uniformBuffer (cube i s2)) =
    Some (reference_modelMat (position i) (rotation (cube i s1))).
Proof.
  cbv zeta. split; [| split].
  - apply updateCubeUniformBuffers_matrix.
  - intro a. apply updateCubeUniformBuffers_angle.
  - apply updateCubeUniformBuffers_matrix.
Qed.

Lemma angle_AxisX (r : vec3) : angle AxisX r = vx r.
Proof. reflexivity. Qed.

Lemma cube0_x_after_update (s : VulkanExample) (t : float) :
  animate s = true ->
  paused s = false ->
  vx (rotation (cube Cube0 (updateCubeUniformBuffers (set_frameTimer t s))))
  = advance Float32.c2_5 t (vx (rotation (cube Cube0 s))).
Proof.
  intros Ha Hp.
  rewrite <- !angle_AxisX.
  rewrite updateCubeUniformBuffers_angle.
  assert (E : angularVelocity Cube0 AxisX = Some Float32.c2_5) by reflexivity.
  rewrite E.
  change (animate (set_frameTimer t s)) with (animate s).
  change (paused (set_frameTimer t s)) with (paused s).
  rewrite Ha, Hp. reflexivity.
Qed.

(** *** The range of the angles *)

Lemma all_angles_spec (P : float -> bool) (s : VulkanExample) :
  all_angles P s = true <->
  forall i a, P (angle a (rotation (cube i s))) = true.
Proof.
  unfold all_angles. cbn [forallb]. rewrite !andb_true_iff. split.
  - intros H i a. destruct i, a; tauto.
  - intro H.
    pose proof (H Cube0 AxisX). pose proof (H Cube0 AxisY).
    pose proof (H Cube0 AxisZ). pose proof (H Cube1 AxisX).
    pose proof (H Cube1 AxisY). pose proof (H Cube1 AxisZ). tauto.
Qed.

Lemma advance_within_turn (v t r : float) :
  Float32.valid v = true ->
  Float32.valid t = true ->
  small_increment v t = true ->
  within_turn r = true ->
  within_turn (advance v t r) = true.
Proof.
  unfold small_increment, within_turn. intros Vv Vt Hi Hr.
  apply andb_prop in Hi. destruct Hi as [Hi0 Hi1].
  apply andb_prop in Hr. destruct Hr as [Hr Hr1].
  apply andb_prop in Hr. destruct Hr as [Vr Hr0].
  destruct (Binary32.advance_in_range v t r Vv Vt Hi0 Hi1 Vr Hr0 Hr1)
    as (H1 & H2 & H3).
  rewrite H1, H2, H3. reflexivity.
Qed.

Lemma updateCubeUniformBuffers_within_turn (t : float) (s : VulkanExample) :
  all_angles within_turn s = true ->
  small_step t = true ->
  all_angles within_turn (updateCubeUniformBuffers (set_frameTimer t s)) = true.
Proof.
  rewrite !all_angles_spec. intros Hs Ht i a.
  rewrite updateCubeUniformBuffers_angle.
  change (frameTimer (set_frameTimer t s)) with t.
  change (cube i (set_frameTimer t s)) with (cube i s).
  unfold small_step in Ht.
  apply andb_prop in Ht. destruct Ht as [Ht H2].
  apply andb_prop in Ht. destruct Ht as [Vt H25].
  destruct (angularVelocity i a) as [v |] eqn:Ev; [| apply Hs].
  destruct (animate _ && negb (paused _)); [| apply Hs].
  destruct i, a; cbn in Ev; try discriminate; injection Ev as <-;
    apply advance_within_turn; auto.
Qed.

(** C9, amended: over any number of turns of the per-frame update,
    whether or not the animation runs, each of the three angles of
    both cubes is a binary32 value of the closed interval [0, 360]
    after every update, provided it was one before the first update
    and every frame time is a binary32 value for which both
    increments (2.5 and 2 times the frame time, rounded) are at least
    0 and below 360. *)
Theorem rotation_within_turn (ts : list float) (s : VulkanExample) :
  all_angles within_turn s = true ->
  forallb small_step ts = true ->
  all_angles within_turn (updates ts s) = true.
Proof.
  revert s. induction ts as [| t ts IH]; intros s Hs Hts.
  - exact Hs.
  - cbn [forallb] in Hts. apply andb_prop in Hts. destruct Hts as [Ht Hts].
    unfold updates. cbn [fold_left]. apply IH; [| exact Hts].
    apply updateCubeUniformBuffers_within_turn; assumption.
Qed.
End Update.

(** With the recording GLM, the matrix is the list of the five
    transforms in the order of the calls. *)
Example modelMat_recorded :
  modelMat (cube Cube1 (updateCubeUniformBuffers sample_start)) =
  [ Translate (position Cube1);
    Rotate (@radians SymGlm Float32.zero) axisX;
    Rotate (@radians SymGlm Float32.zero) axisY;
    Rotate (@radians SymGlm Float32.zero) axisZ;
    Scale (vec3_splat Float32.c0_25) ].
Proof. reflexivity. Qed.

(** Two successive updates from rest: the first matrix of cube 0 turns
    by the angle at entry (0), the second by the 2.5 degrees the first
    update added. *)
Example second_update_shows_advance :
  let s1 := updateCubeUniformBuffers sample_start in
  let s2 := updateCubeUniformBuffers s1 in
  nth_error (modelMat (cube Cube0 s1)) 1
    = Some (Rotate (@radians SymGlm Float32.zero) axisX)
  /\ nth_error (modelMat (cube Cube0 s2)) 1
    = Some (Rotate (@radians SymGlm Float32.c2_5) axisX).
Proof. split; reflexivity. Qed.

(** ** Reasoning about runs *)

Section Runs.
Context {G : Glm}.
Variable abi : Abi.
Variable dev : Device.

Lemma preserves_and_then P f g :
  preserves P f -> preserves P g -> preserves P (and_then f g).
Proof.
  intros Hf Hg s Hs. unfold and_then.
  specialize (Hf s Hs). destruct (f s); cbn in *; auto.
Qed.

Lemma preserves_for_each {A} P (l : list A) body :
  (forall a, preserves P (body a)) -> preserves P (for_each l body).
Proof.
  intro Hb. induction l as [| a l IH]; intros s Hs; cbn.
  - exact Hs.
  - apply preserves_and_then; auto.
Qed.

Lemma preserves_ret P f :
  (forall s, P s -> P (f s)) -> preserves P (ret f).
Proof. intros H s Hs. apply H, Hs. Qed.

Lemma final_VK_CHECK_RESULT res s : final (VK_CHECK_RESULT res s) = s.
Proof. unfold VK_CHECK_RESULT. destruct (is_success res); reflexivity. Qed.

Lemma preserves_checked P c answer :
  (forall s, P s -> P (call c s)) -> preserves P (checked c answer).
Proof.
  intros H s Hs. unfold checked. rewrite final_VK_CHECK_RESULT. auto.
Qed.

Lemma preserves_create P c answer store k :
  (forall s, P s -> P (call c s)) ->
  (forall h s, P s -> P (store h s)) ->
  (forall res, preserves P (k res)) ->
  preserves P (create c answer store k).
Proof.
  intros Hc Hs Hk s H. unfold create.
  destruct (answer (calls s)) as [res h].
  apply Hk. destruct (is_success res); auto.
Qed.

Lemma preserves_apply (P : VulkanExample -> Prop) (f : Step) s :
  preserves P f -> P s -> P (final (f s)).
Proof. intros H. apply H. Qed.

Lemma final_create (P : VulkanExample -> Prop) c answer store k s :
  (forall s, P s -> P (call c s)) ->
  (forall h s, P s -> P (store h s)) ->
  (forall res, preserves P (k res)) ->
  P s -> P (final (create c answer store k s)).
Proof. intros Hc Hs Hk H. exact (preserves_create P c answer store k Hc Hs Hk s H). Qed.

Lemma final_checked (P : VulkanExample -> Prop) c answer s :
  (forall s, P s -> P (call c s)) ->
  P s -> P (final (checked c answer s)).
Proof. intros Hc H. exact (preserves_checked P c answer Hc s H). Qed.

Lemma preserves_VK_CHECK_RESULT P res : preserves P (VK_CHECK_RESULT res).
Proof. intros s Hs. rewrite final_VK_CHECK_RESULT. exact Hs. Qed.

Lemma preserves_ignore_result P res : preserves P (ignore_result res).
Proof. intros s Hs. exact Hs. Qed.

Lemma binding_paths_app l1 l2 :
  binding_paths (l1 ++ l2) = binding_paths l1 ++ binding_paths l2.
Proof.
  induction l1 as [| c l1 IH]; cbn; [reflexivity |].
  destruct (path_of c); cbn; rewrite IH; reflexivity.
Qed.

Lemma length_alternation n : List.length (alternation n) = n.
Proof. unfold alternation. rewrite length_map, length_seq. reflexivity. Qed.

Lemma alternation_S n :
  alternation (S n) =
  alternation n ++ [if Nat.even n then DirectApply else StructuredApply].
Proof.
  unfold alternation. rewrite seq_S, map_app. reflexivity.
Qed.

Lemma selector_inv_same s s' :
  useNew s' = useNew s ->
  binding_paths (calls s') = binding_paths (calls s) ->
  selector_inv s -> selector_inv s'.
Proof.
  unfold selector_inv. intros Hu Hc [H1 H2]. rewrite Hu, Hc. auto.
Qed.

Lemma selector_inv_call c s :
  path_of c = None -> selector_inv s -> selector_inv (call c s).
Proof.
  intros Hc. apply selector_inv_same; [reflexivity |].
  cbn. rewrite binding_paths_app. cbn. rewrite Hc. apply app_nil_r.
Qed.

Lemma useNew_pushDescriptors cb i s :
  useNew (pushDescriptors cb i s) = negb (useNew s).
Proof.
  unfold pushDescriptors. destruct (useNew s) eqn:E; cbn; rewrite E; reflexivity.
Qed.

Lemma calls_pushDescriptors cb i s :
  calls (pushDescriptors cb i s) = calls s ++ [push_call cb i s].
Proof.
  unfold pushDescriptors, push_call. destruct (useNew s); reflexivity.
Qed.

Lemma path_of_push_call cb i s :
  path_of (push_call cb i s) =
  Some (if useNew s then StructuredApply else DirectApply).
Proof. unfold push_call. destruct (useNew s); reflexivity. Qed.

Lemma binding_of_push_call cb i s :
  binding_of (push_call cb i s) =
  Some {| b_template := descriptorTemplate s;
          b_layout := pipelineLayout s;
          b_set := 0;
          b_data := blob i s |}.
Proof. unfold push_call. destruct (useNew s); reflexivity. Qed.

Lemma selector_inv_pushDescriptors cb i s :
  selector_inv s -> selector_inv (pushDescriptors cb i s).
Proof.
  unfold selector_inv. intros [H1 H2].
  set (n := List.length (binding_paths (calls s))) in *.
  assert (Hp : binding_paths (calls (pushDescriptors cb i s)) =
               alternation (S n)).
  { rewrite alternation_S, <- H1, calls_pushDescriptors, binding_paths_app.
    cbn. rewrite path_of_push_call, H2, <- Nat.negb_even.
    destruct (Nat.even n); reflexivity. }
  rewrite Hp, length_alternation.
  split; [reflexivity |].
  rewrite useNew_pushDescriptors, H2, Nat.odd_succ, <- Nat.negb_odd.
  reflexivity.
Qed.

(** *** Every method keeps the selector invariant *)

Ltac same_selector :=
  match goal with
  | H : selector_inv ?s |- selector_inv _ =>
      first
        [ exact H
        | refine (selector_inv_same s _ _ _ H);
          [ reflexivity
          | cbn; rewrite ?binding_paths_app; cbn; rewrite ?app_nil_r;
            reflexivity ] ]
  end.

Ltac quiet_step :=
  match goal with
  | |- preserves _ (and_then _ _) => apply preserves_and_then
  | |- preserves _ (VK_CHECK_RESULT _) => apply preserves_VK_CHECK_RESULT
  | |- preserves _ (ignore_result _) => apply preserves_ignore_result
  | |- preserves _ (for_each _ _) => apply preserves_for_each; intro
  | |- preserves _ (ret _) => apply preserves_ret; intros ? ?; same_selector
  | |- preserves _ (checked _ _) =>
      apply preserves_checked; intros ? ?; same_selector
  | |- preserves _ (create _ _ _ _) =>
      apply preserves_create;
      [ intros ? ?; same_selector | intros ? ? ?; same_selector | intro ]
  | |- preserves _ (fun _ => _) =>
      let s := fresh "s" in
      let Hs := fresh "Hs" in
      intros s Hs; cbv beta
  | Hs : selector_inv ?s |- selector_inv (final (create _ _ _ _ ?s)) =>
      apply final_create;
      [ intros ? ?; same_selector | intros ? ? ?; same_selector
      | intro | exact Hs ]
  | Hs : selector_inv ?s |- selector_inv (final (checked _ _ ?s)) =>
      apply final_checked; [ intros ? ?; same_selector | exact Hs ]
  end.

Lemma selector_loadDeviceFunction name store :
  (forall p s, selector_inv s -> selector_inv (store p s)) ->
  preserves selector_inv (loadDeviceFunction dev name store).
Proof.
  intros H s Hs. unfold loadDeviceFunction, exitFatal.
  destruct (_ =? 0); cbn [final]; apply H, selector_inv_call; auto.
Qed.

Lemma selector_getPushDescriptorProperties :
  preserves selector_inv (getPushDescriptorProperties dev).
Proof.
  intros s Hs. unfold getPushDescriptorProperties, exitFatal.
  destruct (_ =? 0); cbn [final]; same_selector.
Qed.

Lemma selector_loadExtensionFunctions :
  preserves selector_inv (loadExtensionFunctions dev).
Proof.
  unfold loadExtensionFunctions. repeat quiet_step;
    first [ apply selector_getPushDescriptorProperties
          | apply selector_loadDeviceFunction; intros ? ? ?; same_selector ].
Qed.

Lemma selector_createDescriptorTemplate :
  preserves selector_inv (createDescriptorTemplate abi dev).
Proof. unfold createDescriptorTemplate. repeat quiet_step. Qed.

Lemma selector_set_cube i c s : selector_inv s -> selector_inv (set_cube i c s).
Proof. intro H. destruct i; same_selector. Qed.

Lemma selector_loadTexture i path :
  preserves selector_inv (loadTexture dev i path).
Proof.
  intros s Hs. unfold loadTexture. cbn [final].
  apply selector_set_cube. same_selector.
Qed.

Lemma selector_loadAssets : preserves selector_inv (loadAssets dev).
Proof.
  unfold loadAssets. repeat quiet_step; apply selector_loadTexture.
Qed.

Lemma selector_updateCubeUniformBuffers s :
  selector_inv s -> selector_inv (updateCubeUniformBuffers s).
Proof.
  intro H. destruct (updateCubeUniformBuffers_trace s) as [Hu Hc].
  apply (selector_inv_same s); [exact Hu | rewrite Hc; reflexivity | exact H].
Qed.

Lemma selector_updateUniformBuffers s :
  selector_inv s -> selector_inv (updateUniformBuffers s).
Proof. intro H. same_selector. Qed.

Lemma selector_createCubeBuffer i :
  preserves selector_inv (createCubeBuffer dev i).
Proof.
  unfold createCubeBuffer. apply preserves_and_then.
  - intros s Hs. cbv beta.
    destruct (dev_createBuffer dev (calls s) sizeof_mat4) as [res d].
    cbv zeta. rewrite final_VK_CHECK_RESULT.
    destruct (is_success res); [apply selector_set_cube |]; same_selector.
  - repeat quiet_step.
Qed.

Lemma selector_prepareUniformBuffers :
  preserves selector_inv (prepareUniformBuffers dev).
Proof.
  unfold prepareUniformBuffers.
  apply preserves_and_then; [apply preserves_and_then;
    [apply preserves_and_then; [apply preserves_and_then |] |] |].
  - intros s Hs. cbv beta.
    destruct (dev_createBuffer dev (calls s) sizeof_UniformData) as [res d].
    cbv zeta. rewrite final_VK_CHECK_RESULT.
    destruct (is_success res); same_selector.
  - repeat quiet_step.
  - apply preserves_for_each. apply selector_createCubeBuffer.
  - apply preserves_ret. apply selector_updateUniformBuffers.
  - apply preserves_ret. apply selector_updateCubeUniformBuffers.
Qed.

Lemma selector_setupDescriptorSetLayout :
  preserves selector_inv (setupDescriptorSetLayout dev).
Proof. unfold setupDescriptorSetLayout. cbv zeta. repeat quiet_step. Qed.

Lemma selector_preparePipelines :
  preserves selector_inv (preparePipelines dev).
Proof. unfold preparePipelines. repeat quiet_step. Qed.

Lemma selector_recordCube cb i :
  preserves selector_inv (recordCube cb i).
Proof.
  intros s Hs. unfold recordCube. cbn [final].
  apply selector_inv_call; [reflexivity |].
  apply selector_inv_pushDescriptors, Hs.
Qed.

Lemma selector_recordCommandBuffer i :
  preserves selector_inv (recordCommandBuffer dev i).
Proof.
  intros s Hs. unfold recordCommandBuffer. cbv zeta.
  generalize (nth i (drawCmdBuffers s) VK_NULL_HANDLE)
             (nth i (frameBuffers s) VK_NULL_HANDLE).
  intros cb framebuffer.
  apply preserves_apply; [| exact Hs].
  repeat quiet_step. apply selector_recordCube.
Qed.

Lemma selector_buildCommandBuffers :
  preserves selector_inv (buildCommandBuffers dev).
Proof.
  intros s Hs. unfold buildCommandBuffers. revert Hs.
  generalize (List.seq 0 (List.length (drawCmdBuffers s))). intros l Hs.
  revert s Hs. apply preserves_for_each, selector_recordCommandBuffer.
Qed.

Lemma selector_draw : preserves selector_inv (draw dev).
Proof.
  intros s Hs. unfold draw. cbv zeta.
  generalize (nth (dev_currentBuffer dev (calls s)) (drawCmdBuffers s)
                VK_NULL_HANDLE).
  intro cb. apply preserves_apply; [| exact Hs]. repeat quiet_step.
Qed.

Lemma selector_prepare : preserves selector_inv (prepare abi dev).
Proof.
  unfold prepare. repeat quiet_step.
  - apply selector_loadExtensionFunctions.
  - apply selector_createDescriptorTemplate.
  - apply selector_loadAssets.
  - apply selector_prepareUniformBuffers.
  - apply selector_setupDescriptorSetLayout.
  - apply selector_preparePipelines.
  - apply selector_buildCommandBuffers.
Qed.

Lemma selector_render : preserves selector_inv (render dev).
Proof.
  intros s Hs. unfold render. destruct (negb (prepared s)); [exact Hs |].
  revert s Hs.
  apply preserves_and_then; [apply preserves_and_then |].
  - apply preserves_ret. apply selector_updateUniformBuffers.
  - intros s Hs. cbv beta.
    destruct (animate s && negb (paused s)); cbn [final];
      [apply selector_updateCubeUniformBuffers |]; exact Hs.
  - apply selector_draw.
Qed.

Lemma selector_run ms : preserves selector_inv (run abi dev ms).
Proof.
  apply preserves_for_each. intros [| |].
  - apply selector_prepare.
  - apply selector_render.
  - apply selector_buildCommandBuffers.
Qed.

Lemma nth_error_alternation n k p :
  nth_error (alternation n) k = Some p ->
  p = if Nat.even k then DirectApply else StructuredApply.
Proof.
  unfold alternation. intro H.
  destruct (Nat.lt_ge_cases k n) as [Hlt | Hge].
  - rewrite nth_error_map in H.
    rewrite nth_error_seq in H.
    destruct (Nat.ltb_spec k n); [| lia]. cbn in H. congruence.
  - assert (Hnone : nth_error
                      (map (fun k => if Nat.even k then DirectApply
                                     else StructuredApply) (List.seq 0 n)) k
                    = None).
    { apply nth_error_None. rewrite length_map, length_seq. exact Hge. }
    congruence.
Qed.

(** C2: in a process that starts with the selector false and no
    binding call made, whatever methods run afterwards and wherever the
    run stops, binding call [k] (from 0) took the direct path when [k]
    is even and the structured path when [k] is odd, and the selector
    is the parity of the number of calls made: it flipped at each call
    and nothing else ever set it. *)
Theorem selector_alternates (ms : list Method) (s : VulkanExample) :
  useNew s = false ->
  binding_paths (calls s) = [] ->
  let s' := final (run abi dev ms s) in
  (forall k p,
      nth_error (binding_paths (calls s')) k = Some p ->
      p = if Nat.even k then DirectApply else StructuredApply)
  /\ useNew s' = Nat.odd (List.length (binding_paths (calls s'))).
Proof.
  intros Hu Hc s'.
  assert (H0 : selector_inv s).
  { unfold selector_inv. rewrite Hc, Hu. split; reflexivity. }
  destruct (selector_run ms s H0) as [H1 H2]. fold s' in H1, H2.
  split; [| exact H2].
  intros k p Hk. rewrite H1 in Hk. eapply nth_error_alternation, Hk.
Qed.

(** *** What a recording binds *)

Lemma recording_inv_refl s : recording_inv s s.
Proof.
  repeat split. exists []. split; [symmetry; apply app_nil_r | constructor].
Qed.

Lemma recording_inv_call s0 c s :
  binding_of c = None -> recording_inv s0 s -> recording_inv s0 (call c s).
Proof.
  intros Hc (H1 & H2 & H3 & H4 & l & Hl & Hall). repeat split; auto.
  exists (l ++ [c]). split.
  - cbn. rewrite Hl, app_assoc. reflexivity.
  - apply Forall_app. split; [exact Hall |].
    constructor; [| constructor]. intros b Hb. congruence.
Qed.

Lemma recording_inv_pushDescriptors s0 cb i s :
  recording_inv s0 s -> recording_inv s0 (pushDescriptors cb i s).
Proof.
  intros (H1 & H2 & H3 & H4 & l & Hl & Hall).
  assert (Hsame : descriptorTemplate (pushDescriptors cb i s) = descriptorTemplate s
                  /\ pipelineLayout (pushDescriptors cb i s) = pipelineLayout s
                  /\ uniformBuffer (pushDescriptors cb i s) = uniformBuffer s
                  /\ cubes (pushDescriptors cb i s) = cubes s).
  { unfold pushDescriptors. destruct (useNew s); repeat split. }
  destruct Hsame as (E1 & E2 & E3 & E4).
  unfold recording_inv. rewrite E1, E2, E3, E4. repeat split; auto.
  exists (l ++ [push_call cb i s]). split.
  - rewrite calls_pushDescriptors, Hl, app_assoc. reflexivity.
  - apply Forall_app. split; [exact Hall |].
    constructor; [| constructor]. intros b Hb.
    rewrite binding_of_push_call in Hb. injection Hb as <-.
    exists i. unfold draw_binding, blob, cube. rewrite H1, H2, H3, H4.
    reflexivity.
Qed.

Ltac recording_step :=
  match goal with
  | |- preserves _ (and_then _ _) => apply preserves_and_then
  | |- preserves _ (for_each _ _) => apply preserves_for_each; intro
  | |- preserves _ (ret _) =>
      apply preserves_ret; intros ? ?; cbv beta;
      apply recording_inv_call; [reflexivity | assumption]
  | |- preserves _ (checked _ _) =>
      apply preserves_checked; intros ? ?;
      apply recording_inv_call; [reflexivity | assumption]
  end.

Lemma recording_recordCube s0 cb i :
  preserves (recording_inv s0) (recordCube cb i).
Proof.
  intros s Hs. unfold recordCube. cbn [final].
  apply recording_inv_call; [reflexivity |].
  apply recording_inv_pushDescriptors, Hs.
Qed.

Lemma recording_recordCommandBuffer s0 i :
  preserves (recording_inv s0) (recordCommandBuffer dev i).
Proof.
  intros s Hs. unfold recordCommandBuffer. cbv zeta.
  generalize (nth i (drawCmdBuffers s) VK_NULL_HANDLE)
             (nth i (frameBuffers s) VK_NULL_HANDLE).
  intros cb framebuffer.
  apply preserves_apply; [| exact Hs].
  repeat recording_step. apply recording_recordCube.
Qed.

Lemma recording_buildCommandBuffers s :
  recording_inv s (final (buildCommandBuffers dev s)).
Proof.
  unfold buildCommandBuffers.
  apply preserves_for_each; [| apply recording_inv_refl].
  apply recording_recordCommandBuffer.
Qed.

(** C1: a draw of cube [i] records one binding call, by the direct
    path when the selector is false and by the structured path when
    it is true; the structured record packages exactly the four
    values the direct call passes (the template, the pipeline layout,
    set 0 and the blob), so both bind the same.  Every binding call
    [buildCommandBuffers] records, by either path, binds those four
    values for one of the cubes. *)
Theorem dispatch_paths_equivalent (cb : Handle) (i : CubeIx) (s : VulkanExample) :
  (exists direct structured,
      calls (pushDescriptors cb i (set_useNew false s)) = calls s ++ [direct]
      /\ calls (pushDescriptors cb i (set_useNew true s)) = calls s ++ [structured]
      /\ path_of direct = Some DirectApply
      /\ path_of structured = Some StructuredApply
      /\ binding_of direct = Some (draw_binding i s)
      /\ binding_of structured = Some (draw_binding i s))
  /\ (exists l,
        calls (final (buildCommandBuffers dev s)) = calls s ++ l
        /\ forall c b, In c l -> binding_of c = Some b ->
                       exists j, b = draw_binding j s).
Proof.
  split.
  - exists (push_call cb i (set_useNew false s)),
           (push_call cb i (set_useNew true s)).
    rewrite !calls_pushDescriptors, !path_of_push_call, !binding_of_push_call.
    repeat split.
  - destruct (recording_buildCommandBuffers s) as (_ & _ & _ & _ & l & Hl & Hall).
    exists l. split; [exact Hl |].
    intros c b Hin Hb. rewrite Forall_forall in Hall. exact (Hall c Hin b Hb).
Qed.

(** *** Missing entry points *)

Lemma and_then_ExitFatal f g s message exitCode s' :
  f s = ExitFatal message exitCode s' ->
  and_then f g s = ExitFatal message exitCode s'.
Proof. unfold and_then. intros ->. reflexivity. Qed.

Lemma loadExtensionFunctions_fatal (ep : EntryPoint) (s : VulkanExample) :
  resolve dev ep = 0 ->
  exists ep' s',
    resolve dev ep' = 0
    /\ loadExtensionFunctions dev s = ExitFatal (diagnostic ep') (-1) s'
    /\ prepared s' = prepared s
    /\ exists l, calls s' = calls s ++ l /\ forallb is_setup_query l = true.
Proof.
  intro Hep.
  unfold loadExtensionFunctions, and_then, loadDeviceFunction,
    getPushDescriptorProperties, exitFatal.
  destruct (dev_GetDeviceProcAddr dev "vkCmdPushDescriptorSetKHR" =? 0) eqn:E1.
  { exists EP_vkCmdPushDescriptorSetKHR. eexists.
    split; [apply Z.eqb_eq, E1 |]. split; [reflexivity |].
    split; [reflexivity |]. eexists. split; [cbn; reflexivity | reflexivity]. }
  destruct (dev_GetInstanceProcAddr dev "vkGetPhysicalDeviceProperties2KHR" =? 0) eqn:E2.
  { exists EP_vkGetPhysicalDeviceProperties2KHR. eexists.
    split; [apply Z.eqb_eq, E2 |]. split; [reflexivity |].
    split; [reflexivity |]. eexists.
    split; [cbn; rewrite <- ?app_assoc; cbn; reflexivity | reflexivity]. }
  destruct (dev_GetDeviceProcAddr dev "vkCreateDescriptorUpdateTemplateKHR" =? 0) eqn:E3.
  { exists EP_vkCreateDescriptorUpdateTemplateKHR. eexists.
    split; [apply Z.eqb_eq, E3 |]. split; [reflexivity |].
    split; [reflexivity |]. eexists.
    split; [cbn; rewrite <- ?app_assoc; cbn; reflexivity | reflexivity]. }
  destruct (dev_GetDeviceProcAddr dev "vkCmdPushDescriptorSetWithTemplateKHR" =? 0) eqn:E4.
  { exists EP_vkCmdPushDescriptorSetWithTemplateKHR. eexists.
    split; [apply Z.eqb_eq, E4 |]. split; [reflexivity |].
    split; [reflexivity |]. eexists.
    split; [cbn; rewrite <- ?app_assoc; cbn; reflexivity | reflexivity]. }
  destruct (dev_GetDeviceProcAddr dev "vkCmdPushDescriptorSetWithTemplate2KHR" =? 0) eqn:E5.
  { exists EP_vkCmdPushDescriptorSetWithTemplate2KHR. eexists.
    split; [apply Z.eqb_eq, E5 |]. split; [reflexivity |].
    split; [reflexivity |]. eexists.
    split; [cbn; rewrite <- ?app_assoc; cbn; reflexivity | reflexivity]. }
  exfalso. apply Z.eqb_eq in Hep.
  destruct ep; cbn in Hep; congruence.
Qed.

(** C7: if one of the entry points [prepare] resolves comes back null,
    [prepare] ends the process through [exitFatal] with the
    diagnostic of an unresolved entry point and exit code -1.  By then
    the program has only looked entry points up and queried the
    device properties, [prepared] is still false, and a frame would do
    nothing. *)
Theorem missing_entry_point_is_fatal (ep : EntryPoint) (s : VulkanExample) :
  resolve dev ep = 0 ->
  prepared s = false ->
  exists ep' s',
    resolve dev ep' = 0
    /\ prepare abi dev s = ExitFatal (diagnostic ep') (-1) s'
    /\ prepared s' = false
    /\ render dev s' = Ok s'
    /\ exists l, calls s' = calls s ++ l /\ forallb is_setup_query l = true.
Proof.
  intros Hep Hprep.
  destruct (loadExtensionFunctions_fatal ep s Hep)
    as (ep' & s' & Hnull & Hexit & Hp & Hcalls).
  exists ep', s'. split; [exact Hnull |].
  split.
  { unfold prepare. do 7 apply and_then_ExitFatal. exact Hexit. }
  split; [congruence |].
  split; [| exact Hcalls].
  unfold render. rewrite Hp, Hprep. reflexivity.
Qed.

(** If [prepare] returns, every entry point was resolved. *)
Corollary prepare_returns_resolved (s s' : VulkanExample) (ep : EntryPoint) :
  prepare abi dev s = Ok s' ->
  resolve dev ep <> 0.
Proof.
  intros Hok Hnull.
  destruct (loadExtensionFunctions_fatal ep s Hnull)
    as (? & ? & _ & Hexit & _).
  assert (H : prepare abi dev s = ExitFatal (diagnostic x) (-1) x0).
  { unfold prepare. do 7 apply and_then_ExitFatal. exact Hexit. }
  congruence.
Qed.

(** *** The order of construction in [prepare] *)

Lemma createDescriptorTemplate_returns (s : VulkanExample) :
  exists s',
    createDescriptorTemplate abi dev s = Ok s'
    /\ calls s' =
       calls s ++ [vkCreateDescriptorUpdateTemplateKHR
                     (pfn_vkCreateDescriptorUpdateTemplateKHR s)
                     (template_info abi s)]
    /\ prepared s' = prepared s.
Proof.
  unfold createDescriptorTemplate, create, ignore_result.
  destruct (dev_CreateDescriptorUpdateTemplate dev (calls s) (template_info abi s))
    as [res h].
  eexists. split; [reflexivity |].
  destruct (is_success res); split; reflexivity.
Qed.

Lemma loadExtensionFunctions_layouts (s s1 : VulkanExample) :
  loadExtensionFunctions dev s = Ok s1 ->
  descriptorSetLayout s1 = descriptorSetLayout s
  /\ pipelineLayout s1 = pipelineLayout s.
Proof.
  unfold loadExtensionFunctions, and_then, loadDeviceFunction,
    getPushDescriptorProperties, exitFatal.
  repeat (destruct (_ =? 0); [discriminate |]).
  intros [= <-]. split; reflexivity.
Qed.

(** Whatever the device, the update template is requested for the
    layouts the members held when [prepare] was entered. *)
Lemma template_requested_for_entry_layouts (s s1 : VulkanExample) :
  loadExtensionFunctions dev s = Ok s1 ->
  exists s2,
    and_then (loadExtensionFunctions dev) (createDescriptorTemplate abi dev) s = Ok s2
    /\ exists pfn info,
         calls s2 = calls s1 ++ [vkCreateDescriptorUpdateTemplateKHR pfn info]
         /\ ti_descriptorSetLayout info = descriptorSetLayout s
         /\ ti_pipelineLayout info = pipelineLayout s.
Proof.
  intro H1. destruct (loadExtensionFunctions_layouts s s1 H1) as [Hd Hp].
  destruct (createDescriptorTemplate_returns s1) as (s2 & H2 & Hc & _).
  exists s2. split.
  - unfold and_then. rewrite H1. exact H2.
  - do 2 eexists. split; [exact Hc |]. cbn. auto.
Qed.
End Runs.

(** ** Evaluations *)

(** The position of the first call satisfying [p] in a trace. *)
Lemma position_of_spec (p : ApiCall -> bool) (l : list ApiCall) (n : nat) :
  position_of p l = Some n ->
  exists c, nth_error l n = Some c /\ p c = true.
Proof.
  revert n. induction l as [| c l IH]; intros n; cbn; [discriminate |].
  destruct (p c) eqn:E.
  - intros [= <-]. exists c. auto.
  - destruct (position_of p l) as [m |]; [| discriminate].
    intros [= <-]. apply (IH m eq_refl).
Qed.

(** C3, on the code: on a device that accepts everything, [prepare]
    requests the update template (call 6 of the trace) for a null
    binding layout and a null pipeline layout, and only creates the
    binding layout and the pipeline layout later (calls 16 and 17); the
    handles it then holds, and binds with, are not those of the
    template. *)
Theorem template_precedes_its_layouts :
  let s' := final (prepare Align64 good_device sample_start) in
  stopped_by (prepare Align64 good_device sample_start) = None
  /\ position_of is_template_creation (calls s') = Some 6%nat
  /\ position_of is_set_layout_creation (calls s') = Some 16%nat
  /\ position_of is_pipeline_layout_creation (calls s') = Some 17%nat
  /\ map template_layouts (filter is_template_creation (calls s'))
     = [Some (VK_NULL_HANDLE, VK_NULL_HANDLE)]
  /\ descriptorSetLayout s' = 116
  /\ pipelineLayout s' = 117
  /\ map b_layout (bindings (calls s')) = [117; 117; 117; 117; 117; 117].
Proof.
  cbv zeta.
  split; [vm_compute; reflexivity |].
  split; [vm_compute; reflexivity |].
  split; [vm_compute; reflexivity |].
  split; [vm_compute; reflexivity |].
  split; [vm_compute; reflexivity |].
  split; [vm_compute; reflexivity |].
  split; vm_compute; reflexivity.
Qed.

(** C8, on the code: on a device that rejects the update template and
    accepts everything else, [prepare] returns with [prepared] set, the
    member [descriptorTemplate] still holds what it held before, and the
    draws bind with it; a rejected binding layout stops the process. *)
Theorem rejected_template_goes_unnoticed :
  let o := prepare Align64 template_rejecting_device sample_start in
  let o' := prepare Align64 layout_rejecting_device sample_start in
  stopped_by o = None
  /\ prepared (final o) = true
  /\ descriptorTemplate (final o) = descriptorTemplate sample_start
  /\ map b_template (bindings (calls (final o))) = [0; 0; 0; 0; 0; 0]
  /\ stopped_by o' = Some (Checked (VK_ERROR (-1)))
  /\ prepared (final o') = false.
Proof.
  cbv zeta.
  split; [vm_compute; reflexivity |].
  split; [vm_compute; reflexivity |].
  split; [vm_compute; reflexivity |].
  split; [vm_compute; reflexivity |].
  split; vm_compute; reflexivity.
Qed.

(** The angle 357.5 and a frame time of one second. *)
Lemma rotation_within_turn_witness :
  all_angles within_turn (spinning (Float32.lit 715 (-1)) Float32.c1) = true
  /\ forallb small_step [Float32.c1; Float32.c1] = true
  /\ all_angles within_turn
       (updates [Float32.c1; Float32.c1]
          (spinning (Float32.lit 715 (-1)) Float32.c1)) = true.
Proof.
  split; [reflexivity |]. split; [reflexivity |].
  apply (rotation_within_turn [Float32.c1; Float32.c1]
           (spinning (Float32.lit 715 (-1)) Float32.c1));
    reflexivity.
Defined.

(** C9, as stated, fails: from 357.5 degrees about X, with the
    animation running and a frame time of one second (an increment of
    2.5), the sum is exactly 360, which [r > 360.0f] does not wrap; 360
    is not below 360. *)
Lemma rotation_reaches_360 :
  ~ stays_below_turn (spinning (Float32.lit 715 (-1)) Float32.c1).
Proof.
  unfold stays_below_turn. intro H.
  specialize (H eq_refl eq_refl). vm_compute in H. discriminate.
Qed.

Example rotation_at_360 :
  vx (rotation (cube Cube0
        (updateCubeUniformBuffers (spinning (Float32.lit 715 (-1)) Float32.c1))))
  = Float32.c360.
Proof. reflexivity. Qed.

(** A run of [prepare], one frame and a rebuild of the command buffers
    on a device that accepts everything. *)
Lemma selector_alternates_witness :
  useNew sample_start = false
  /\ binding_paths (calls sample_start) = []
  /\ (let s' := final (run Align64 good_device
                        [Prepare; Render; BuildCommandBuffers] sample_start) in
      (forall k p,
          nth_error (binding_paths (calls s')) k = Some p ->
          p = if Nat.even k then DirectApply else StructuredApply)
      /\ useNew s' = Nat.odd (List.length (binding_paths (calls s')))).
Proof.
  split; [reflexivity |]. split; [reflexivity |].
  apply (selector_alternates Align64 good_device
           [Prepare; Render; BuildCommandBuffers] sample_start);
    reflexivity.
Defined.

Example selector_alternates_run :
  binding_paths
    (calls (final (run Align64 good_device
                     [Prepare; Render; BuildCommandBuffers] sample_start)))
  = alternation 12.
Proof. vm_compute. reflexivity. Qed.

(** A device without [vkCmdPushDescriptorSetWithTemplate2KHR]. *)
Lemma missing_entry_point_is_fatal_witness :
  resolve (device_without "vkCmdPushDescriptorSetWithTemplate2KHR")
    EP_vkCmdPushDescriptorSetWithTemplate2KHR = 0
  /\ prepared sample_start = false
  /\ exists ep' s',
       resolve (device_without "vkCmdPushDescriptorSetWithTemplate2KHR") ep' = 0
       /\ prepare Align64 (device_without "vkCmdPushDescriptorSetWithTemplate2KHR")
            sample_start
          = ExitFatal (diagnostic ep') (-1) s'
       /\ prepared s' = false
       /\ render (device_without "vkCmdPushDescriptorSetWithTemplate2KHR") s' = Ok s'
       /\ exists l, calls s' = calls sample_start ++ l
                    /\ forallb is_setup_query l = true.
Proof.
  split; [reflexivity |]. split; [reflexivity |].
  apply (missing_entry_point_is_fatal Align64
           (device_without "vkCmdPushDescriptorSetWithTemplate2KHR")
           EP_vkCmdPushDescriptorSetWithTemplate2KHR sample_start);
    reflexivity.
Defined.

Example missing_entry_point_run :
  let o := prepare Align64
             (device_without "vkCmdPushDescriptorSetWithTemplate2KHR")
             sample_start in
  stopped_by o =
    Some (Exited
            "Could not get a valid function pointer for vkCmdPushDescriptorSetWithTemplate2KHR"
            (-1))
  /\ calls (final o) =
     [ vkGetDeviceProcAddr "vkCmdPushDescriptorSetKHR";
       vkGetInstanceProcAddr "vkGetPhysicalDeviceProperties2KHR";
       vkGetPhysicalDeviceProperties2KHR 8225;
       vkGetDeviceProcAddr "vkCreateDescriptorUpdateTemplateKHR";
       vkGetDeviceProcAddr "vkCmdPushDescriptorSetWithTemplateKHR";
       vkGetDeviceProcAddr "vkCmdPushDescriptorSetWithTemplate2KHR" ].
Proof. cbv zeta. split; vm_compute; reflexivity. Qed.

(** * Further results *)

(** ** The blob and the tables of [prepare] and [setupDescriptorSetLayout] *)

(** X1: the offsets [prepare] writes into the template entries (0,
    [sizeof(VkDescriptorBufferInfo)] and twice that) are the offsets the
    C layout rules give the three fields of [DescriptorData], and the
    extents the entries make the driver read follow each other inside
    the blob without overlapping, whichever way 64-bit scalars are
    aligned. *)
Theorem template_offsets_are_field_offsets (abi : Abi) :
  map te_offset (template_entries abi)
  = field_offsets 0 (DescriptorData_fields abi)
  /\ extents_in_order 0 (map (entry_extent abi) (template_entries abi)) = true
  /\ Forall (fun x => snd x <= sizeof_DescriptorData abi)
       (map (entry_extent abi) (template_entries abi)).
Proof.
  destruct abi.
  - split; [reflexivity |]. split; [reflexivity |].
    repeat constructor; cbv; discriminate.
  - split; [reflexivity |]. split; [reflexivity |].
    repeat constructor; cbv; discriminate.
Qed.

(** X2: the template entries of [prepare] and the bindings of
    [setupDescriptorSetLayout] agree: every entry writes a binding the
    layout declares, with the declared descriptor type and inside the
    declared count; every declared binding is written by an entry; no
    binding number occurs twice on either side; and the entry count
    handed to the driver is the number of entries. *)
Theorem template_entries_match_layout (abi : Abi) :
  forallb (entry_matches_layout setLayoutBindings) (template_entries abi) = true
  /\ forallb (binding_is_written (template_entries abi)) setLayoutBindings = true
  /\ NoDup (map lb_binding setLayoutBindings)
  /\ NoDup (map dstBinding (template_entries abi))
  /\ (forall (G : Glm) (s : VulkanExample),
        ti_descriptorUpdateEntryCount (template_info abi s)
        = Z.of_nat (List.length (ti_pDescriptorUpdateEntries (template_info abi s)))).
Proof.
  split; [reflexivity |]. split; [reflexivity |].
  split; [| split].
  - cbn. repeat constructor; cbn; intuition discriminate.
  - cbn. repeat constructor; cbn; intuition discriminate.
  - intros G s. reflexivity.
Qed.

(** ** The destructor *)

(** Whatever the state, the destructor releases no descriptor update
    template: the one [prepare] created is left to the device.  With a
    device it releases the pipeline, the pipeline layout and the
    binding layout the members hold, then the uniform buffer and the
    texture of each cube, then the scene uniform buffer, eight releases
    in all; without a device it releases nothing. *)
Theorem destructor_leaves_the_template {G : Glm} (device : Handle)
    (s : VulkanExample) :
  existsb is_template_release (destructor device s) = false
  /\ (device = VK_NULL_HANDLE -> destructor device s = [])
  /\ (device <> VK_NULL_HANDLE ->
      List.length (destructor device s) = 8%nat
      /\ firstn 3 (destructor device s)
         = [ vkDestroyPipeline (pipeline s);
             vkDestroyPipelineLayout (pipelineLayout s);
             vkDestroyDescriptorSetLayout (descriptorSetLayout s) ]
      /\ (forall i, In (Buffer_destroy (descriptor (cube_uniformBuffer (cube i s))))
                      (destructor device s)
                    /\ In (Texture_destroy (texture (cube i s)))
                         (destructor device s))
      /\ In (Buffer_destroy (descriptor (uniformBuffer s))) (destructor device s)).
Proof.
  unfold destructor. destruct (Z.eqb_spec device VK_NULL_HANDLE) as [E | E].
  - split; [reflexivity |]. split; [reflexivity |]. intro H. contradiction.
  - split; [reflexivity |]. split; [intro H; contradiction |]. intros _.
    split; [reflexivity |]. split; [reflexivity |]. split.
    + intro i. destruct i; cbn; tauto.
    + cbn. tauto.
Qed.

Lemma destructor_leaves_the_template_witness :
  7 <> VK_NULL_HANDLE
  /\ List.length (destructor 7 sample_start) = 8%nat.
Proof.
  split; [discriminate |].
  apply (destructor_leaves_the_template 7 sample_start). discriminate.
Defined.

(** ** More on the wrap, in binary32 *)

Lemma within_turn_facts (r : float) :
  within_turn r = true ->
  Float32.valid r = true
  /\ Float32.nonneg_finite r = true
  /\ Float32.scaled r <= Float32.scaled Float32.c360.
Proof.
  unfold within_turn. intro H.
  apply andb_prop in H. destruct H as [H H2].
  apply andb_prop in H. destruct H as [V H1].
  assert (N : Float32.nonneg_finite r = true).
  { apply Binary32.between_nonneg_finite; [exact H1 | left; exact H2]. }
  split; [exact V |]. split; [exact N |].
  unfold Float32.leb in H2.
  rewrite (Binary32.SFleb_scaled r Float32.c360 V eq_refl N eq_refl) in H2.
  apply Z.leb_le. exact H2.
Qed.

Lemma small_increment_facts (v t : float) :
  Float32.valid v = true ->
  Float32.valid t = true ->
  small_increment v t = true ->
  Float32.valid (Float32.mul v t) = true
  /\ Float32.nonneg_finite (Float32.mul v t) = true
  /\ Float32.scaled (Float32.mul v t) < Float32.scaled Float32.c360.
Proof.
  unfold small_increment. intros Vv Vt H.
  apply andb_prop in H. destruct H as [H1 H2].
  assert (V : Float32.valid (Float32.mul v t) = true)
    by (apply Binary32.SFmul_valid; assumption).
  assert (N : Float32.nonneg_finite (Float32.mul v t) = true).
  { apply Binary32.between_nonneg_finite; [exact H1 | right; exact H2]. }
  split; [exact V |]. split; [exact N |].
  unfold Float32.ltb in H2.
  rewrite (Binary32.SFltb_scaled _ Float32.c360 V eq_refl N eq_refl) in H2.
  apply Z.ltb_lt. exact H2.
Qed.

(** The sum of an angle of [0, 360] and an increment of [0, 360), as
    binary32 computes it: a binary32 value between the angle and 720. *)
Lemma sum_within_two_turns (r inc : float) :
  Float32.valid r = true -> Float32.nonneg_finite r = true ->
  Float32.scaled r <= Float32.scaled Float32.c360 ->
  Float32.valid inc = true -> Float32.nonneg_finite inc = true ->
  Float32.scaled inc < Float32.scaled Float32.c360 ->
  Float32.valid (Float32.add r inc) = true
  /\ Float32.nonneg_finite (Float32.add r inc) = true
  /\ Float32.scaled r <= Float32.scaled (Float32.add r inc)
  /\ Float32.scaled (Float32.add r inc) <= 2 * Float32.scaled Float32.c360.
Proof.
  intros Vr Nr Lr Vi Ni Li.
  assert (E360 : Float32.scaled Float32.c360 = 11796480 * 2 ^ 134) by reflexivity.
  assert (Hbig : 2 * (11796480 * 2 ^ 134) < 2 ^ 276) by reflexivity.
  assert (E720 : 11796480 * 2 ^ 135 = 2 * (11796480 * 2 ^ 134)) by reflexivity.
  pose proof (Binary32.scaled_nonneg r) as Pr.
  pose proof (Binary32.scaled_nonneg inc) as Pi.
  rewrite E360 in *. set (S := 11796480 * 2 ^ 134) in *.
  destruct (Binary32.SFadd_faithful r inc Vr Vi Nr Ni) as (V1 & N1 & F1); [lia |].
  split; [exact V1 |]. split; [exact N1 |]. split.
  - destruct r as [sr | sr | | [|] m e]; try discriminate;
      try apply Binary32.scaled_nonneg.
    cbn [Float32.scaled] in *. cbn [valid_binary] in Vr.
    destruct (Binary32.bounded_canonical m e Vr) as (He & _).
    destruct (Binary32.bounded_mantissa m e Vr) as (Hm & _).
    destruct (F1 (Zpos m) (e + 149)) as [Hlow _]; [lia | lia |].
    apply Hlow. lia.
  - destruct (F1 11796480 135) as [_ Hup]; [lia | split; [lia | reflexivity] |].
    rewrite E720 in Hup. apply Hup. lia.
Qed.

(** A value of (360, 720] minus 360 is a binary32 value: the
    subtraction of the wrap does not round. *)
Lemma wrap_subtraction_exact (r1 : float) :
  Float32.valid r1 = true -> Float32.nonneg_finite r1 = true ->
  Float32.scaled Float32.c360 < Float32.scaled r1 ->
  Float32.scaled r1 <= 2 * Float32.scaled Float32.c360 ->
  Float32.scaled (Float32.sub r1 Float32.c360)
  = Float32.scaled r1 - Float32.scaled Float32.c360.
Proof.
  intros V1 N1 Hgt Hle.
  assert (E360 : Float32.scaled Float32.c360 = 11796480 * 2 ^ 134) by reflexivity.
  assert (Hbig : 2 * (11796480 * 2 ^ 134) < 2 ^ 276) by reflexivity.
  assert (Hpos : 0 < 11796480 * 2 ^ 134) by reflexivity.
  destruct (Binary32.SFsub_faithful r1 Float32.c360 V1 eq_refl N1 eq_refl)
    as (_ & _ & F2); [lia | lia |].
  fold (Float32.sub r1 Float32.c360) in F2.
  destruct r1 as [s1 | s1 | | [|] m e]; try discriminate;
    cbn [Float32.scaled] in Hgt, Hle, F2 |- *; try lia.
  cbn [valid_binary] in V1.
  destruct (Binary32.bounded_canonical m e V1) as (He & _).
  assert (He15 : -15 <= e).
  { destruct (Z.le_gt_cases (-15) e) as [H | H]; [exact H |]. exfalso.
    pose proof (Binary32.scaled_lt_of_exponent m 11796480 e (-15) V1 eq_refl H).
    change (Float32.scaled Float32.c360) with (11796480 * 2 ^ (-15 + 149)) in Hgt.
    lia. }
  rewrite E360 in *.
  assert (Hsplit : 2 ^ (e + 149) = 2 ^ (e + 15) * 2 ^ 134).
  { rewrite <- Z.pow_add_r by lia. f_equal. lia. }
  rewrite Hsplit in *.
  assert (HP : 0 < 2 ^ 134) by reflexivity.
  set (P := 2 ^ 134) in *. set (a := Zpos m * 2 ^ (e + 15)).
  assert (Ha : Zpos m * (2 ^ (e + 15) * P) = a * P) by (unfold a; ring).
  rewrite Ha in *.
  assert (Hu : 0 < a - 11796480 <= 11796480) by nia.
  destruct (F2 (a - 11796480) 134) as [Hlow Hup];
    [lia | split; [lia |] |].
  { change (2 ^ 24) with 16777216. lia. }
  fold P in Hlow, Hup.
  assert (Heq : (a - 11796480) * P = a * P - 11796480 * P) by ring.
  rewrite Heq in Hlow, Hup.
  specialize (Hlow ltac:(lia)). specialize (Hup ltac:(lia)).
  change (Float32.sub (S754_finite false m e) Float32.c360)
    with (SFsub 24 128 (S754_finite false m e) Float32.c360).
  lia.
Qed.

Lemma gtb_turn_scaled (x : float) :
  Float32.valid x = true -> Float32.nonneg_finite x = true ->
  Float32.gtb x Float32.c360 = (Float32.scaled Float32.c360 <? Float32.scaled x).
Proof.
  intros V N. unfold Float32.gtb.
  apply (Binary32.SFltb_scaled Float32.c360 x eq_refl V eq_refl N).
Qed.

(** The angle about an axis that has an angular velocity, after an
    update with the animation running. *)
Lemma angle_after_update {G : Glm} (s : VulkanExample) (i : CubeIx)
    (a : Axis) (v t : float) :
  animate s = true ->
  paused s = false ->
  angularVelocity i a = Some v ->
  angle a (rotation (cube i (updateCubeUniformBuffers (set_frameTimer t s))))
  = advance v t (angle a (rotation (cube i s))).
Proof.
  intros Ha Hp Hv.
  rewrite updateCubeUniformBuffers_angle, Hv.
  change (animate (set_frameTimer t s)) with (animate s).
  change (paused (set_frameTimer t s)) with (paused s).
  change (frameTimer (set_frameTimer t s)) with t.
  change (cube i (set_frameTimer t s)) with (cube i s).
  rewrite Ha, Hp. reflexivity.
Qed.

(** C5: with the animation running, an update with frame time [t]
    treats each axis that has an angular velocity [v] (X of cube 0 at
    2.5, Y of cube 1 at 2) in the same way, whatever binary32 values
    the angle [r] and [t] are: it forms the sum [r + v * t]; whenever
    the sum exceeds 360 it stores the sum less 360, one subtraction and
    no remainder; otherwise it stores the sum.  For an angle of
    [0, 360] and an increment of [0, 360) the comparison is the
    comparison of the values and the subtraction is exact: the stored
    value is the value of the sum minus 360.  From 359 at 2.5 degrees
    per second a frame time of one second leaves 1.5, not 361.5, and a
    frame time of 400 seconds leaves 999: the wrap is not a modulo. *)
Theorem rotation_wraps_by_one_subtraction {G : Glm} (s : VulkanExample)
    (i : CubeIx) (a : Axis) (v t : float) :
  animate s = true ->
  paused s = false ->
  angularVelocity i a = Some v ->
  let r := angle a (rotation (cube i s)) in
  let sum := Float32.add r (Float32.mul v t) in
  let r' :=
    angle a (rotation (cube i (updateCubeUniformBuffers (set_frameTimer t s)))) in
  (Float32.gtb sum Float32.c360 = true -> r' = Float32.sub sum Float32.c360)
  /\ (Float32.gtb sum Float32.c360 = false -> r' = sum)
  /\ (Float32.valid v = true ->
      Float32.valid t = true ->
      small_increment v t = true ->
      within_turn r = true ->
      Float32.gtb sum Float32.c360
      = (Float32.scaled Float32.c360 <? Float32.scaled sum)
      /\ (Float32.scaled Float32.c360 < Float32.scaled sum ->
          Float32.scaled r'
          = Float32.scaled sum - Float32.scaled Float32.c360)
      /\ (Float32.scaled sum <= Float32.scaled Float32.c360 -> r' = sum))
  /\ (r = Float32.lit 359 0 ->
      v = Float32.c2_5 ->
      (t = Float32.c1 -> r' = Float32.c1_5 /\ r' <> Float32.lit 723 (-1))
      /\ (t = Float32.lit 400 0 -> r' = Float32.lit 999 0)).
Proof.
  intros Ha Hp Hv. cbv zeta.
  rewrite (angle_after_update s i a v t Ha Hp Hv).
  generalize (angle a (rotation (cube i s))). intro r.
  unfold advance. cbv zeta.
  split; [intro H; rewrite H; reflexivity |].
  split; [intro H; rewrite H; reflexivity |].
  split.
  - intros Vv Vt Hi Hr.
    destruct (within_turn_facts r Hr) as (Vr & Nr & Lr).
    destruct (small_increment_facts v t Vv Vt Hi) as (Vi & Ni & Li).
    destruct (sum_within_two_turns r (Float32.mul v t) Vr Nr Lr Vi Ni Li)
      as (V1 & N1 & _ & L1).
    rewrite (gtb_turn_scaled _ V1 N1).
    split; [reflexivity |].
    destruct (Z.ltb_spec (Float32.scaled Float32.c360)
                (Float32.scaled (Float32.add r (Float32.mul v t))))
      as [Hgt | Hle].
    + split; [| lia]. intros _.
      apply (wrap_subtraction_exact _ V1 N1 Hgt L1).
    + split; [lia | reflexivity].
  - intros -> ->. split; intros ->.
    + split; [vm_compute; reflexivity | vm_compute; discriminate].
    + vm_compute. reflexivity.
Qed.

Lemma rotation_wraps_by_one_subtraction_witness :
  animate (spinning (Float32.lit 359 0) Float32.c1) = true
  /\ paused (spinning (Float32.lit 359 0) Float32.c1) = false
  /\ angularVelocity Cube0 AxisX = Some Float32.c2_5
  /\ angle AxisX (rotation (cube Cube0
       (updateCubeUniformBuffers
          (set_frameTimer Float32.c1 (spinning (Float32.lit 359 0) Float32.c1)))))
     = Float32.c1_5.
Proof.
  split; [reflexivity |]. split; [reflexivity |]. split; [reflexivity |].
  destruct (rotation_wraps_by_one_subtraction
              (spinning (Float32.lit 359 0) Float32.c1) Cube0 AxisX
              Float32.c2_5 Float32.c1 eq_refl eq_refl eq_refl)
    as (_ & _ & _ & Hex).
  destruct (Hex eq_refl eq_refl) as [H1 _].
  exact (proj1 (H1 eq_refl)).
Defined.

(** The same on the other axis: cube 1 at 359 degrees about Y, at 2
    degrees per second, is left at 1 degree by a frame of one second. *)
Example cube1_y_wraps :
  angle AxisY (rotation (cube Cube1
    (updateCubeUniformBuffers
       (set_frameTimer Float32.c1
          (set_cube Cube1
             (set_rotation (set_vy (Float32.lit 359 0) vec3_0)
                (cube Cube1 sample_start)) sample_start)))))
  = Float32.c1.
Proof.
  rewrite angle_after_update with (v := Float32.c2);
    [vm_compute; reflexivity | reflexivity ..].
Qed.

(** X4: when an update wraps an angle (the rounded sum of an angle of
    [0, 360] and an increment of [0, 360) exceeds 360), the subtraction
    of 360 is exact in binary32: the stored angle is the rounded sum
    minus 360 with no second rounding, and it is above 0 and at most
    360. *)
Theorem advance_wrap_is_exact (v t r : float) :
  Float32.valid v = true ->
  Float32.valid t = true ->
  small_increment v t = true ->
  within_turn r = true ->
  Float32.gtb (Float32.add r (Float32.mul v t)) Float32.c360 = true ->
  Float32.scaled (advance v t r)
  = Float32.scaled (Float32.add r (Float32.mul v t))
    - Float32.scaled Float32.c360
  /\ 0 < Float32.scaled (advance v t r) <= Float32.scaled Float32.c360.
Proof.
  intros Vv Vt Hi Hr Hgt.
  destruct (within_turn_facts r Hr) as (Vr & Nr & Lr).
  destruct (small_increment_facts v t Vv Vt Hi) as (Vi & Ni & Li).
  destruct (sum_within_two_turns r (Float32.mul v t) Vr Nr Lr Vi Ni Li)
    as (V1 & N1 & _ & L1).
  rewrite (gtb_turn_scaled _ V1 N1) in Hgt. apply Z.ltb_lt in Hgt.
  unfold advance. cbv zeta.
  rewrite (gtb_turn_scaled _ V1 N1).
  destruct (Z.ltb_spec (Float32.scaled Float32.c360)
              (Float32.scaled (Float32.add r (Float32.mul v t)))) as [_ | Habs];
    [| lia].
  rewrite (wrap_subtraction_exact _ V1 N1 Hgt L1). lia.
Qed.

Lemma advance_wrap_is_exact_witness :
  Float32.valid Float32.c2_5 = true
  /\ Float32.valid Float32.c1 = true
  /\ small_increment Float32.c2_5 Float32.c1 = true
  /\ within_turn (Float32.lit 359 0) = true
  /\ Float32.gtb
       (Float32.add (Float32.lit 359 0) (Float32.mul Float32.c2_5 Float32.c1))
       Float32.c360 = true
  /\ Float32.scaled (advance Float32.c2_5 Float32.c1 (Float32.lit 359 0))
     = Float32.scaled
         (Float32.add (Float32.lit 359 0) (Float32.mul Float32.c2_5 Float32.c1))
       - Float32.scaled Float32.c360.
Proof.
  split; [reflexivity |]. split; [reflexivity |]. split; [reflexivity |].
  split; [reflexivity |]. split; [reflexivity |].
  apply (advance_wrap_is_exact Float32.c2_5 Float32.c1 (Float32.lit 359 0));
    reflexivity.
Defined.

(** X5: when an update does not wrap an angle of [0, 360] (the rounded
    sum with an increment of [0, 360) does not exceed 360), the stored
    angle is that rounded sum and is not below the angle before:
    rounding never turns a cube backwards. *)
Theorem advance_without_wrap_keeps_order (v t r : float) :
  Float32.valid v = true ->
  Float32.valid t = true ->
  small_increment v t = true ->
  within_turn r = true ->
  Float32.gtb (Float32.add r (Float32.mul v t)) Float32.c360 = false ->
  advance v t r = Float32.add r (Float32.mul v t)
  /\ Float32.leb r (advance v t r) = true.
Proof.
  intros Vv Vt Hi Hr Hgt.
  destruct (within_turn_facts r Hr) as (Vr & Nr & Lr).
  destruct (small_increment_facts v t Vv Vt Hi) as (Vi & Ni & Li).
  destruct (sum_within_two_turns r (Float32.mul v t) Vr Nr Lr Vi Ni Li)
    as (V1 & N1 & Lo & _).
  assert (E : advance v t r = Float32.add r (Float32.mul v t)).
  { unfold advance. cbv zeta. rewrite Hgt. reflexivity. }
  split; [exact E |]. rewrite E. unfold Float32.leb.
  rewrite (Binary32.SFleb_scaled r _ Vr V1 Nr N1).
  apply Z.leb_le. exact Lo.
Qed.

Lemma advance_without_wrap_keeps_order_witness :
  Float32.valid Float32.c2_5 = true
  /\ Float32.valid Float32.c1 = true
  /\ small_increment Float32.c2_5 Float32.c1 = true
  /\ within_turn (Float32.lit 715 (-1)) = true
  /\ Float32.gtb
       (Float32.add (Float32.lit 715 (-1)) (Float32.mul Float32.c2_5 Float32.c1))
       Float32.c360 = false
  /\ Float32.leb (Float32.lit 715 (-1))
       (advance Float32.c2_5 Float32.c1 (Float32.lit 715 (-1))) = true.
Proof.
  split; [reflexivity |]. split; [reflexivity |]. split; [reflexivity |].
  split; [reflexivity |]. split; [reflexivity |].
  apply (advance_without_wrap_keeps_order Float32.c2_5 Float32.c1
           (Float32.lit 715 (-1)));
    reflexivity.
Defined.

Lemma add_zero (r : float) :
  r <> S754_zero true -> Float32.add r Float32.zero = r.
Proof.
  intro H. destruct r as [[|] | [|] | | s m e]; try reflexivity.
  contradiction H. reflexivity.
Qed.

Lemma advance_zero (v r : float) :
  Float32.mul v Float32.zero = Float32.zero ->
  within_turn r = true ->
  r <> S754_zero true ->
  advance v Float32.zero r = r.
Proof.
  intros Hm Hr Hz.
  destruct (within_turn_facts r Hr) as (Vr & Nr & Lr).
  unfold advance. cbv zeta. rewrite Hm, (add_zero r Hz).
  rewrite (gtb_turn_scaled r Vr Nr).
  destruct (Z.ltb_spec (Float32.scaled Float32.c360) (Float32.scaled r));
    [lia | reflexivity].
Qed.

(** X6: an update with a frame time of zero leaves every angle of both
    cubes as it was, whether or not the animation runs, when the angles
    are binary32 values of [0, 360] other than the negative zero (which
    the addition of the zero increment turns into the positive zero). *)
Theorem update_with_zero_frame_time {G : Glm} (s : VulkanExample) :
  all_angles within_turn s = true ->
  (forall i a, angle a (rotation (cube i s)) <> S754_zero true) ->
  forall i a,
    angle a (rotation (cube i
      (updateCubeUniformBuffers (set_frameTimer Float32.zero s))))
    = angle a (rotation (cube i s)).
Proof.
  intros Hall Hz i a. rewrite all_angles_spec in Hall.
  rewrite updateCubeUniformBuffers_angle.
  change (frameTimer (set_frameTimer Float32.zero s)) with Float32.zero.
  change (cube i (set_frameTimer Float32.zero s)) with (cube i s).
  destruct (angularVelocity i a) as [v |] eqn:Ev; [| reflexivity].
  destruct (animate _ && negb (paused _)); [| reflexivity].
  apply advance_zero; [| apply Hall | apply Hz].
  destruct i, a; cbn in Ev; try discriminate; injection Ev as <-; reflexivity.
Qed.

Lemma update_with_zero_frame_time_witness :
  all_angles within_turn (spinning (Float32.lit 359 0) Float32.c1) = true
  /\ angle AxisX (rotation (cube Cube0
       (updateCubeUniformBuffers
          (set_frameTimer Float32.zero (spinning (Float32.lit 359 0) Float32.c1)))))
     = Float32.lit 359 0.
Proof.
  split; [reflexivity |].
  apply (update_with_zero_frame_time (spinning (Float32.lit 359 0) Float32.c1)).
  - reflexivity.
  - intros i a. destruct i, a; discriminate.
Defined.

(** ** What the methods leave alone *)

Ltac walk leaf :=
  repeat match goal with
    | |- preserves _ (and_then _ _) => apply preserves_and_then
    | |- preserves _ (VK_CHECK_RESULT _) => apply preserves_VK_CHECK_RESULT
    | |- preserves _ (ignore_result _) => apply preserves_ignore_result
    | |- preserves _ (for_each _ _) => apply preserves_for_each; intro
    | |- preserves _ (ret _) =>
        apply preserves_ret; intros ? ?; cbv beta; leaf
    | |- preserves _ (checked _ _) =>
        apply preserves_checked; intros ? ?; leaf
    | |- preserves _ (create _ _ _ _) =>
        apply preserves_create;
        [ intros ? ?; leaf | intros ? ? ?; leaf | intro ]
    | |- preserves _ (fun _ => _) =>
        let s := fresh "s" in
        let Hs := fresh "Hs" in
        intros s Hs; cbv beta
    | Hs : ?P ?s |- ?P (final (create _ _ _ _ ?s)) =>
        apply final_create;
        [ intros ? ?; leaf | intros ? ? ?; leaf | intro | exact Hs ]
    | Hs : ?P ?s |- ?P (final (checked _ _ ?s)) =>
        apply final_checked; [ intros ? ?; leaf | exact Hs ]
    end.

Section Footprints.
Context {G : Glm}.
Variable abi : Abi.
Variable dev : Device.

Lemma bindings_app (l1 l2 : list ApiCall) :
  bindings (l1 ++ l2) = bindings l1 ++ bindings l2.
Proof.
  induction l1 as [| c l1 IH]; cbn; [reflexivity |].
  destruct (binding_of c); cbn; rewrite IH; reflexivity.
Qed.

Lemma untouched_refl (s : VulkanExample) : untouched s s.
Proof. repeat split. Qed.

Lemma settled_refl (s : VulkanExample) : settled s s.
Proof. split; [apply untouched_refl | repeat split]. Qed.

Lemma settled_same (s0 s s' : VulkanExample) :
  same_footprint s s' -> settled s0 s -> settled s0 s'.
Proof.
  intros (E1 & E2 & E3 & E4 & E5 & E6 & E7 & E8 & E9 & E10 & E11)
         ((U1 & U2 & U3 & U4 & U5 & U6 & U7 & U8) & P & N & B).
  unfold settled, untouched.
  rewrite E1, E2, E3, E4, E5, E6, E7, E8, E9, E10.
  repeat split; try assumption.
  intros i a Hv. rewrite E11. apply U8. exact Hv.
Qed.

Lemma settled_call (s0 : VulkanExample) (c : ApiCall) (s : VulkanExample) :
  binding_of c = None -> settled s0 s -> settled s0 (call c s).
Proof.
  intros Hc (U & P & N & B). split; [exact U |]. split; [exact P |].
  split; [exact N |].
  change (calls (call c s)) with (calls s ++ [c]).
  rewrite bindings_app. cbn. rewrite Hc, app_nil_r. exact B.
Qed.

Lemma same_footprint_set_cube (i : CubeIx) (c : Cube) (s : VulkanExample) :
  rotation c = rotation (cube i s) -> same_footprint s (set_cube i c s).
Proof.
  intro H. destruct i; repeat split; intro j; destruct j; auto.
Qed.

Lemma same_footprint_updateUniformBuffers (s : VulkanExample) :
  same_footprint s (updateUniformBuffers s).
Proof. repeat split. Qed.

Lemma settled_updateCubeUniformBuffers (s0 s : VulkanExample) :
  settled s0 s -> settled s0 (updateCubeUniformBuffers s).
Proof.
  intros ((U1 & U2 & U3 & U4 & U5 & U6 & U7 & U8) & P & N & B).
  destruct (updateCubeUniformBuffers_trace s) as [Hu Hc].
  assert (F : animate (updateCubeUniformBuffers s) = animate s
              /\ paused (updateCubeUniformBuffers s) = paused s
              /\ frameTimer (updateCubeUniformBuffers s) = frameTimer s
              /\ camera_perspective (updateCubeUniformBuffers s) = camera_perspective s
              /\ camera_view (updateCubeUniformBuffers s) = camera_view s
              /\ drawCmdBuffers (updateCubeUniformBuffers s) = drawCmdBuffers s
              /\ frameBuffers (updateCubeUniformBuffers s) = frameBuffers s
              /\ prepared (updateCubeUniformBuffers s) = prepared s).
  { rewrite updateCubeUniformBuffers_stages. unfold rotations_advanced.
    destruct (animate (matrices_written s) && negb (paused (matrices_written s)));
      repeat split. }
  destruct F as (F1 & F2 & F3 & F4 & F5 & F6 & F7 & F8).
  unfold settled, untouched.
  rewrite F1, F2, F3, F4, F5, F6, F7, F8, Hu, Hc.
  repeat split; try assumption.
  intros i a Hv. rewrite updateCubeUniformBuffers_angle, Hv. apply U8, Hv.
Qed.

Ltac settled_leaf :=
  idtac;
  match goal with
  | H : settled ?s0 ?s |- settled ?s0 (call _ ?s) =>
      apply settled_call; [reflexivity | exact H]
  | H : settled ?s0 ?s |- settled ?s0 (set_cube _ _ _) =>
      refine (settled_same s0 _ _ (same_footprint_set_cube _ _ _ _) _);
      [ reflexivity | ]
  | H : settled ?s0 ?s |- settled ?s0 _ =>
      first [ exact H
            | refine (settled_same s0 s _ _ H); repeat split ]
  end.

Lemma settled_loadDeviceFunction s0 name store :
  (forall p s, same_footprint s (store p s)) ->
  preserves (settled s0) (loadDeviceFunction dev name store).
Proof.
  intros H s Hs. unfold loadDeviceFunction, exitFatal.
  destruct (_ =? 0); cbn [final];
    apply (settled_same s0 _ _ (H _ _)); apply settled_call;
    solve [reflexivity | exact Hs].
Qed.

Lemma settled_getPushDescriptorProperties s0 :
  preserves (settled s0) (getPushDescriptorProperties dev).
Proof.
  intros s Hs. unfold getPushDescriptorProperties, exitFatal.
  destruct (_ =? 0); cbn [final].
  - settled_leaf.
  - apply (settled_same s0 (call (vkGetPhysicalDeviceProperties2KHR
                                    (dev_GetInstanceProcAddr dev
                                       "vkGetPhysicalDeviceProperties2KHR"))
                              (call (vkGetInstanceProcAddr
                                       "vkGetPhysicalDeviceProperties2KHR") s)));
      [repeat split |].
    apply settled_call; [reflexivity |].
    apply settled_call; [reflexivity | exact Hs].
Qed.

Lemma settled_loadExtensionFunctions s0 :
  preserves (settled s0) (loadExtensionFunctions dev).
Proof.
  unfold loadExtensionFunctions. walk idtac;
    first [ apply settled_getPushDescriptorProperties
          | apply settled_loadDeviceFunction; intros; repeat split ].
Qed.

Lemma settled_createDescriptorTemplate s0 :
  preserves (settled s0) (createDescriptorTemplate abi dev).
Proof. unfold createDescriptorTemplate. walk settled_leaf. Qed.

Lemma settled_loadTexture s0 i path :
  preserves (settled s0) (loadTexture dev i path).
Proof.
  intros s Hs. unfold loadTexture. cbn [final].
  refine (settled_same s0 _ _ (same_footprint_set_cube _ _ _ _) _);
    [reflexivity | apply settled_call; [reflexivity | exact Hs]].
Qed.

Lemma settled_loadAssets s0 : preserves (settled s0) (loadAssets dev).
Proof.
  unfold loadAssets. walk settled_leaf; apply settled_loadTexture.
Qed.

Lemma settled_createCubeBuffer s0 i :
  preserves (settled s0) (createCubeBuffer dev i).
Proof.
  unfold createCubeBuffer. apply preserves_and_then.
  - intros s Hs. cbv beta.
    destruct (dev_createBuffer dev (calls s) sizeof_mat4) as [res d].
    cbv zeta. rewrite final_VK_CHECK_RESULT.
    destruct (is_success res).
    + refine (settled_same s0 _ _ (same_footprint_set_cube _ _ _ _) _);
        [reflexivity | apply settled_call; [reflexivity | exact Hs]].
    + apply settled_call; [reflexivity | exact Hs].
  - walk settled_leaf.
Qed.

Lemma settled_prepareUniformBuffers s0 :
  preserves (settled s0) (prepareUniformBuffers dev).
Proof.
  unfold prepareUniformBuffers.
  apply preserves_and_then; [apply preserves_and_then;
    [apply preserves_and_then; [apply preserves_and_then |] |] |].
  - intros s Hs. cbv beta.
    destruct (dev_createBuffer dev (calls s) sizeof_UniformData) as [res d].
    cbv zeta. rewrite final_VK_CHECK_RESULT.
    destruct (is_success res).
    + refine (settled_same s0 _ _ _ (settled_call s0 _ s _ Hs));
        [repeat split | reflexivity].
    + apply settled_call; [reflexivity | exact Hs].
  - walk settled_leaf.
  - apply preserves_for_each. apply settled_createCubeBuffer.
  - apply preserves_ret. intros s Hs.
    apply (settled_same s0 s _ (same_footprint_updateUniformBuffers s) Hs).
  - apply preserves_ret. apply settled_updateCubeUniformBuffers.
Qed.

Lemma settled_setupDescriptorSetLayout s0 :
  preserves (settled s0) (setupDescriptorSetLayout dev).
Proof. unfold setupDescriptorSetLayout. cbv zeta. walk settled_leaf. Qed.

Lemma settled_preparePipelines s0 :
  preserves (settled s0) (preparePipelines dev).
Proof. unfold preparePipelines. walk settled_leaf. Qed.

Lemma settled_draw s0 : preserves (settled s0) (draw dev).
Proof.
  intros s Hs. unfold draw. cbv zeta.
  generalize (nth (dev_currentBuffer dev (calls s)) (drawCmdBuffers s)
                VK_NULL_HANDLE).
  intro cb. apply preserves_apply; [| exact Hs]. walk settled_leaf.
Qed.

Lemma settled_render s0 : preserves (settled s0) (render dev).
Proof.
  intros s Hs. unfold render. destruct (negb (prepared s)); [exact Hs |].
  revert s Hs.
  apply preserves_and_then; [apply preserves_and_then |].
  - apply preserves_ret. intros s Hs.
    apply (settled_same s0 s _ (same_footprint_updateUniformBuffers s) Hs).
  - intros s Hs. cbv beta.
    destruct (animate s && negb (paused s)); cbn [final];
      [apply settled_updateCubeUniformBuffers |]; exact Hs.
  - apply settled_draw.
Qed.

(** The first six steps of [prepare]. *)
Lemma settled_setup s0 :
  preserves (settled s0)
    (and_then (and_then (and_then (and_then (and_then
       (loadExtensionFunctions dev) (createDescriptorTemplate abi dev))
       (loadAssets dev)) (prepareUniformBuffers dev))
       (setupDescriptorSetLayout dev)) (preparePipelines dev)).
Proof.
  apply preserves_and_then; [apply preserves_and_then;
    [apply preserves_and_then; [apply preserves_and_then;
      [apply preserves_and_then |] |] |] |].
  - apply settled_loadExtensionFunctions.
  - apply settled_createDescriptorTemplate.
  - apply settled_loadAssets.
  - apply settled_prepareUniformBuffers.
  - apply settled_setupDescriptorSetLayout.
  - apply settled_preparePipelines.
Qed.
End Footprints.

Section Frames.
Context {G : Glm}.
Variable abi : Abi.
Variable dev : Device.

Lemma calls_call (c : ApiCall) (s : VulkanExample) :
  calls (call c s) = calls s ++ [c].
Proof. reflexivity. Qed.

Lemma useNew_call (c : ApiCall) (s : VulkanExample) :
  useNew (call c s) = useNew s.
Proof. reflexivity. Qed.

Lemma same_members_refl (s : VulkanExample) : same_members s s.
Proof. repeat split. Qed.

Lemma same_members_trans (s0 s1 s2 : VulkanExample) :
  same_members s0 s1 -> same_members s1 s2 -> same_members s0 s2.
Proof.
  unfold same_members. intros H1 H2.
  repeat match goal with H : _ /\ _ |- _ => destruct H end.
  repeat split; etransitivity; eassumption.
Qed.

Lemma same_members_call (c : ApiCall) (s : VulkanExample) :
  same_members s (call c s).
Proof. repeat split. Qed.

Lemma same_members_pushDescriptors cb i (s : VulkanExample) :
  same_members s (pushDescriptors cb i s).
Proof. unfold pushDescriptors. destruct (useNew s); repeat split. Qed.

Lemma and_then_Ok (f g : Step) (s s' : VulkanExample) :
  and_then f g s = Ok s' ->
  exists s1, f s = Ok s1 /\ g s1 = Ok s'.
Proof.
  unfold and_then. destruct (f s) as [s1 | |]; try discriminate.
  intro H. exists s1. auto.
Qed.

Lemma checked_Ok c answer (s s' : VulkanExample) :
  checked c answer s = Ok s' ->
  is_success (answer (calls s)) = true /\ s' = call c s.
Proof.
  unfold checked, VK_CHECK_RESULT.
  destruct (is_success (answer (calls s))); [| discriminate].
  intros [= <-]. auto.
Qed.

Lemma ret_Ok f (s s' : VulkanExample) : ret f s = Ok s' -> s' = f s.
Proof. unfold ret. intros [= <-]. reflexivity. Qed.

(** What [draw] does to the trace, and how it ends. *)
Lemma draw_trace (s : VulkanExample) :
  calls (final (draw dev s))
  = calls s ++ submission dev (calls s) (drawCmdBuffers s)
  /\ stopped_by (draw dev s)
     = submission_result dev (calls s) (drawCmdBuffers s)
  /\ same_members s (final (draw dev s))
  /\ useNew (final (draw dev s)) = useNew s.
Proof.
  unfold draw, submission, submission_result. cbv zeta.
  generalize (nth (dev_currentBuffer dev (calls s)) (drawCmdBuffers s)
                VK_NULL_HANDLE).
  intro cb. unfold and_then, ret, checked, VK_CHECK_RESULT.
  rewrite calls_call.
  destruct (is_success (dev_QueueSubmit dev (calls s ++ [prepareFrame]) cb)).
  - cbn [final stopped_by]. rewrite !calls_call, <- !app_assoc.
    repeat split.
  - cbn [final stopped_by]. rewrite !calls_call, <- !app_assoc, app_nil_r.
    repeat split.
Qed.

Lemma render_prepared (s : VulkanExample) :
  prepared s = true -> render dev s = draw dev (frame_updated s).
Proof.
  intro H. unfold render, frame_updated. rewrite H. cbn [negb].
  unfold and_then at 1 2. unfold ret at 1. cbv beta iota.
  destruct (animate (updateUniformBuffers s)
            && negb (paused (updateUniformBuffers s))); reflexivity.
Qed.

Lemma frame_updated_footprint (s : VulkanExample) :
  calls (frame_updated s) = calls s
  /\ useNew (frame_updated s) = useNew s
  /\ drawCmdBuffers (frame_updated s) = drawCmdBuffers s
  /\ prepared (frame_updated s) = prepared s.
Proof.
  pose proof (settled_updateCubeUniformBuffers (updateUniformBuffers s)
                (updateUniformBuffers s) (settled_refl _))
    as ((_ & _ & _ & _ & _ & Hd & _) & Hp & _).
  destruct (updateCubeUniformBuffers_trace (updateUniformBuffers s)) as [Hu Hc].
  unfold frame_updated.
  destruct (animate (updateUniformBuffers s)
            && negb (paused (updateUniformBuffers s))).
  - rewrite Hu, Hc, Hd, Hp. repeat split.
  - repeat split.
Qed.

(** X7: a frame before [prepare] has completed does nothing; a frame
    after it prepares the frame, submits exactly one command buffer
    (the one the swapchain selected) and presents, or stops before
    presenting when the submission is rejected.  It records no command,
    makes no binding call and leaves the selector alone. *)
Theorem frame_submits_once (s : VulkanExample) :
  (prepared s = false -> render dev s = Ok s)
  /\ (prepared s = true ->
      calls (final (render dev s))
      = calls s ++ submission dev (calls s) (drawCmdBuffers s)
      /\ stopped_by (render dev s)
         = submission_result dev (calls s) (drawCmdBuffers s)
      /\ useNew (final (render dev s)) = useNew s
      /\ bindings (calls (final (render dev s))) = bindings (calls s)).
Proof.
  split.
  - intro H. unfold render. rewrite H. reflexivity.
  - intro H. rewrite (render_prepared s H).
    destruct (draw_trace (frame_updated s)) as (Hc & Hs & _ & Hu).
    destruct (frame_updated_footprint s) as (Fc & Fu & Fd & _).
    rewrite Fc, Fd in Hc, Hs. rewrite Fu in Hu.
    split; [exact Hc |]. split; [exact Hs |]. split; [exact Hu |].
    rewrite Hc, bindings_app. unfold submission. cbv zeta.
    destruct (is_success _); cbn; rewrite app_nil_r; reflexivity.
Qed.
End Frames.

(** A frame on the object [prepare] leaves on the device that accepts
    everything: the first command buffer is submitted and presented. *)
Lemma frame_submits_once_witness :
  prepared (final (prepare Align64 good_device sample_start)) = true
  /\ calls (final (render good_device
                     (final (prepare Align64 good_device sample_start))))
     = calls (final (prepare Align64 good_device sample_start))
       ++ [prepareFrame; vkQueueSubmit 11; submitFrame]
  /\ stopped_by (render good_device
                   (final (prepare Align64 good_device sample_start))) = None
  /\ useNew (final (render good_device
                      (final (prepare Align64 good_device sample_start))))
     = useNew (final (prepare Align64 good_device sample_start))
  /\ bindings (calls (final (render good_device
                               (final (prepare Align64 good_device sample_start)))))
     = bindings (calls (final (prepare Align64 good_device sample_start))).
Proof.
  assert (HP : prepared (final (prepare Align64 good_device sample_start)) = true)
    by (vm_compute; reflexivity).
  split; [exact HP |].
  destruct (frame_submits_once good_device
              (final (prepare Align64 good_device sample_start))) as [_ H].
  destruct (H HP) as (Hc & Hs & Hu & Hb).
  split; [| split; [| split; [exact Hu | exact Hb]]].
  - rewrite Hc. apply f_equal. vm_compute. reflexivity.
  - rewrite Hs. vm_compute. reflexivity.
Defined.

Section Steadiness.
Context {G : Glm}.
Variable abi : Abi.
Variable dev : Device.

Ltac members_leaf :=
  idtac;
  match goal with
  | H : same_members ?s0 ?s |- same_members ?s0 (call _ ?s) =>
      exact (same_members_trans s0 s _ H (same_members_call _ s))
  end.

Lemma members_recordCube s0 cb i :
  preserves (same_members s0) (recordCube cb i).
Proof.
  intros s Hs. unfold recordCube. cbn [final].
  apply (same_members_trans s0 (pushDescriptors cb i s));
    [| apply same_members_call].
  apply (same_members_trans s0 s); [exact Hs |].
  apply same_members_pushDescriptors.
Qed.

Lemma members_recordCommandBuffer s0 i :
  preserves (same_members s0) (recordCommandBuffer dev i).
Proof.
  intros s Hs. unfold recordCommandBuffer. cbv zeta.
  generalize (nth i (drawCmdBuffers s) VK_NULL_HANDLE)
             (nth i (frameBuffers s) VK_NULL_HANDLE).
  intros cb framebuffer.
  apply preserves_apply; [| exact Hs].
  walk members_leaf. apply members_recordCube.
Qed.

(** [buildCommandBuffers] writes the selector and the trace, nothing
    else, however it ends. *)
Lemma members_buildCommandBuffers (s : VulkanExample) :
  same_members s (final (buildCommandBuffers dev s)).
Proof.
  unfold buildCommandBuffers.
  apply preserves_for_each; [| apply same_members_refl].
  apply members_recordCommandBuffer.
Qed.

Lemma steady_of_same_members (s0 s : VulkanExample) :
  same_members s0 s -> steady s0 s.
Proof.
  unfold same_members. intro H.
  repeat match goal with H : _ /\ _ |- _ => destruct H end.
  unfold steady, untouched. repeat split; try assumption.
  intros i a _. unfold cube.
  match goal with H : cubes s = cubes s0 |- _ => rewrite H end.
  reflexivity.
Qed.

Lemma steady_refl (s : VulkanExample) : steady s s.
Proof. split; [apply untouched_refl | reflexivity]. Qed.

Lemma steady_trans (s0 s1 s2 : VulkanExample) :
  steady s0 s1 -> steady s1 s2 -> steady s0 s2.
Proof.
  intros ((A1 & A2 & A3 & A4 & A5 & A6 & A7 & A8) & Ap)
         ((B1 & B2 & B3 & B4 & B5 & B6 & B7 & B8) & Bp).
  unfold steady, untouched.
  repeat split; try (etransitivity; eassumption).
  intros i a Hv. rewrite (B8 i a Hv). apply A8, Hv.
Qed.

Lemma steady_of_settled (s0 s : VulkanExample) : settled s0 s -> steady s0 s.
Proof. intros (U & P & _). split; assumption. Qed.

Lemma preserves_steady (f : Step) :
  (forall s, steady s (final (f s))) ->
  forall s0, preserves (steady s0) f.
Proof.
  intros H s0 s Hs. apply (steady_trans s0 s); [exact Hs | apply H].
Qed.

(** The first six steps of [prepare] and [buildCommandBuffers]: the
    whole of [prepare] but its last statement. *)
Lemma steady_before_prepared (s : VulkanExample) :
  steady s
    (final (and_then (and_then (and_then (and_then (and_then (and_then
       (loadExtensionFunctions dev) (createDescriptorTemplate abi dev))
       (loadAssets dev)) (prepareUniformBuffers dev))
       (setupDescriptorSetLayout dev)) (preparePipelines dev))
       (buildCommandBuffers dev) s)).
Proof.
  apply preserves_and_then; [| | apply steady_refl].
  - apply preserves_steady. intro s1. apply steady_of_settled.
    apply settled_setup. apply settled_refl.
  - apply preserves_steady. intro s1. apply steady_of_same_members.
    apply members_buildCommandBuffers.
Qed.

Lemma prepare_cases (s : VulkanExample) :
  prepare abi dev s
  = match and_then (and_then (and_then (and_then (and_then (and_then
       (loadExtensionFunctions dev) (createDescriptorTemplate abi dev))
       (loadAssets dev)) (prepareUniformBuffers dev))
       (setupDescriptorSetLayout dev)) (preparePipelines dev))
       (buildCommandBuffers dev) s with
    | Ok s1 => Ok (set_prepared true s1)
    | ExitFatal m c s1 => ExitFatal m c s1
    | CheckFailed r s1 => CheckFailed r s1
    end.
Proof. unfold prepare, and_then at 1. reflexivity. Qed.

Lemma steady_prepare_but_prepared (s : VulkanExample) :
  untouched s (final (prepare abi dev s)).
Proof.
  pose proof (steady_before_prepared s) as H.
  rewrite prepare_cases.
  match goal with
  | H : steady _ (final ?o) |- _ => destruct o as [s1 | m c s1 | r s1]
  end; cbn [final] in *; exact (proj1 H).
Qed.

Lemma steady_render (s : VulkanExample) : steady s (final (render dev s)).
Proof. apply steady_of_settled. apply settled_render. apply settled_refl. Qed.

Lemma untouched_trans (s0 s1 s2 : VulkanExample) :
  untouched s0 s1 -> untouched s1 s2 -> untouched s0 s2.
Proof.
  intros (A1 & A2 & A3 & A4 & A5 & A6 & A7 & A8)
         (B1 & B2 & B3 & B4 & B5 & B6 & B7 & B8).
  unfold untouched.
  repeat split; try (etransitivity; eassumption).
  intros i a Hv. rewrite (B8 i a Hv). apply A8, Hv.
Qed.

(** X8: the statements of the example itself, in [prepare] from the
    return of [VulkanExampleBase::prepare()] on, in [render] and in
    [buildCommandBuffers], only read [animate], [paused], [frameTimer],
    the camera matrices and the lists of command buffers and
    framebuffers: whatever methods run, in whatever order, on whatever
    device, and wherever the run stops, none of these statements has
    assigned them, and the only angles they have changed are the X
    angle of cube 0 and the Y angle of cube 1.  What the base class
    does inside [VulkanExampleBase::prepare()], [prepareFrame()] and
    [submitFrame()] is not part of the statement: the first precedes
    the modelled [prepare] and the other two are calls of the trace. *)
Theorem untouched_by_any_run (ms : list Method) (s : VulkanExample) :
  untouched s (final (run abi dev ms s)).
Proof.
  unfold run. apply preserves_for_each; [| apply untouched_refl].
  intros m s1 H1. apply (untouched_trans s s1); [exact H1 |].
  destruct m; cbn [invoke].
  - apply steady_prepare_but_prepared.
  - apply steady_render.
  - apply steady_of_same_members, members_buildCommandBuffers.
Qed.

(** X9: [prepared] is set by the last statement of [prepare] and by
    nothing else: when [prepare] returns it is true; when [prepare]
    stops, at a missing entry point or at a rejected request, it is what
    it was, so that from an unprepared object a frame would do
    nothing. *)
Theorem prepared_only_when_prepare_returns (s : VulkanExample) :
  prepared s = false ->
  (stopped_by (prepare abi dev s) = None ->
   prepared (final (prepare abi dev s)) = true)
  /\ (stopped_by (prepare abi dev s) <> None ->
      prepared (final (prepare abi dev s)) = false
      /\ render dev (final (prepare abi dev s)) = Ok (final (prepare abi dev s))).
Proof.
  intro Hp. pose proof (steady_before_prepared s) as H.
  rewrite prepare_cases.
  match goal with
  | H : steady _ (final ?o) |- _ => destruct o as [s1 | m c s1 | r s1]
  end; cbn [final] in H; destruct H as [_ H].
  - cbn [final stopped_by]. split; [reflexivity |].
    intro Habs. contradiction Habs. reflexivity.
  - cbn [final stopped_by]. split; [discriminate |]. intros _.
    rewrite Hp in H. split; [exact H |].
    unfold render. rewrite H. reflexivity.
  - cbn [final stopped_by]. split; [discriminate |]. intros _.
    rewrite Hp in H. split; [exact H |].
    unfold render. rewrite H. reflexivity.
Qed.

(** X10: while the animation does not run ([animate] cleared or
    [paused] set), any number of frames leaves both cubes as they were:
    their angles, their matrices and what their mapped uniform buffers
    hold. *)
Theorem idle_frames_leave_the_cubes (n : nat) (s : VulkanExample) :
  animate s && negb (paused s) = false ->
  cubes (final (run abi dev (repeat Render n) s)) = cubes s.
Proof.
  intro Hidle.
  assert (Hinv : preserves
            (fun x => cubes x = cubes s /\ animate x = animate s
                      /\ paused x = paused s) (render dev)).
  { intros x (Hc & Ha & Hq).
    destruct (prepared x) eqn:Hp.
    - rewrite (render_prepared dev x Hp).
      assert (Hf : frame_updated x = updateUniformBuffers x).
      { unfold frame_updated.
        change (animate (updateUniformBuffers x)) with (animate x).
        change (paused (updateUniformBuffers x)) with (paused x).
        rewrite Ha, Hq, Hidle. reflexivity. }
      rewrite Hf.
      destruct (draw_trace dev (updateUniformBuffers x)) as (_ & _ & Hm & _).
      unfold same_members in Hm.
      repeat match goal with H : _ /\ _ |- _ => destruct H end.
      repeat split; etransitivity; eassumption.
    - unfold render. rewrite Hp. cbn [negb final]. auto. }
  unfold run.
  assert (Hrun : forall l, Forall (fun m => m = Render) l ->
            preserves (fun x => cubes x = cubes s /\ animate x = animate s
                                /\ paused x = paused s)
              (for_each l (invoke abi dev))).
  { induction l as [| m l IH]; intros Hl x Hx; [exact Hx |].
    inversion Hl as [| ? ? Hm Hl']; subst. cbn [for_each].
    apply preserves_and_then; [exact Hinv | apply IH, Hl' | exact Hx]. }
  apply Hrun; [| auto].
  apply Forall_forall. intros m Hm. apply repeat_spec in Hm. exact Hm.
Qed.
End Steadiness.

Lemma prepared_only_when_prepare_returns_witness :
  prepared sample_start = false
  /\ stopped_by (prepare Align64 good_device sample_start) = None
  /\ prepared (final (prepare Align64 good_device sample_start)) = true.
Proof.
  split; [reflexivity |]. split; [vm_compute; reflexivity |].
  apply (prepared_only_when_prepare_returns Align64 good_device sample_start).
  - reflexivity.
  - vm_compute. reflexivity.
Defined.

(** Three frames on the prepared object, paused: nine calls are made
    (each frame is prepared, submitted and presented) and the cubes
    stay as they were. *)
Lemma idle_frames_leave_the_cubes_witness :
  prepared (set_paused true (final (prepare Align64 good_device sample_start)))
  = true
  /\ animate (set_paused true (final (prepare Align64 good_device sample_start)))
     && negb (paused (set_paused true
                        (final (prepare Align64 good_device sample_start))))
     = false
  /\ List.length
       (calls (final (run Align64 good_device (repeat Render 3)
                        (set_paused true
                           (final (prepare Align64 good_device sample_start))))))
     = (List.length
          (calls (set_paused true
                    (final (prepare Align64 good_device sample_start)))) + 9)%nat
  /\ cubes (final (run Align64 good_device (repeat Render 3)
                     (set_paused true
                        (final (prepare Align64 good_device sample_start)))))
     = cubes (set_paused true (final (prepare Align64 good_device sample_start))).
Proof.
  split; [vm_compute; reflexivity |].
  split; [vm_compute; reflexivity |].
  split; [vm_compute; reflexivity |].
  apply (idle_frames_leave_the_cubes Align64 good_device 3
           (set_paused true (final (prepare Align64 good_device sample_start)))).
  vm_compute. reflexivity.
Defined.

(** ** What a recording consists of *)

Section Recording.
Context {G : Glm}.
Variable abi : Abi.
Variable dev : Device.

Lemma same_members_set_useNew (b : bool) (s : VulkanExample) :
  same_members (set_useNew b s) s.
Proof. repeat split. Qed.

Lemma push_call_ext cb i (s0 s : VulkanExample) :
  same_members s0 s -> useNew s = useNew s0 ->
  push_call cb i s = push_call cb i s0.
Proof.
  unfold same_members. intros H Hu.
  repeat match goal with H : _ /\ _ |- _ => destruct H end.
  unfold push_call, blob, cube.
  repeat match goal with H : _ s = _ s0 |- _ => rewrite H; clear H end.
  reflexivity.
Qed.

Ltac members_chain :=
  repeat match goal with
    | |- same_members ?a ?a => apply same_members_refl
    | |- same_members (set_useNew _ ?a) ?a => apply same_members_set_useNew
    | |- same_members ?a (call ?c ?x) =>
        apply (same_members_trans a x); [| apply same_members_call]
    | |- same_members ?a (pushDescriptors ?cb ?i ?x) =>
        apply (same_members_trans a x); [| apply same_members_pushDescriptors]
    end.

Lemma recordCommandBuffer_trace (i : nat) (s : VulkanExample) :
  exists rest,
    calls s ++ buffer_recording s i
    = calls (final (recordCommandBuffer dev i s)) ++ rest
    /\ (stopped_by (recordCommandBuffer dev i s) = None ->
        rest = [] /\ useNew (final (recordCommandBuffer dev i s)) = useNew s).
Proof.
  unfold recordCommandBuffer, buffer_recording. cbv zeta.
  generalize (nth i (drawCmdBuffers s) VK_NULL_HANDLE)
             (nth i (frameBuffers s) VK_NULL_HANDLE).
  intros cb framebuffer.
  unfold for_each, recordCube.
  unfold and_then, checked, VK_CHECK_RESULT, ret.
  destruct (is_success (dev_BeginCommandBuffer dev (calls s) cb)).
  2:{ cbn [final stopped_by]. rewrite calls_call. eexists.
      split; [rewrite <- app_assoc; cbn [app]; reflexivity | discriminate]. }
  cbv beta iota.
  set (p0 := push_call cb Cube0 s).
  set (p1 := push_call cb Cube1 (set_useNew (negb (useNew s)) s)).
  assert (E : forall x y,
             same_members s x -> useNew x = useNew s ->
             same_members s y -> useNew y = negb (useNew s) ->
             push_call cb Cube0 x = p0 /\ push_call cb Cube1 y = p1).
  { intros x y Hx Ux Hy Uy. split; apply push_call_ext.
    - exact Hx.
    - exact Ux.
    - apply (same_members_trans _ s); [apply same_members_set_useNew | exact Hy].
    - exact Uy. }
  clearbody p0 p1.
  match goal with
  | |- context [is_success ?r] => destruct (is_success r)
  end; cbn [final stopped_by];
    repeat first [rewrite calls_call | rewrite calls_pushDescriptors];
    rewrite <- ?app_assoc; cbn [app];
    match goal with
    | |- context [push_call cb Cube1 ?y] =>
        match goal with
        | |- context [push_call cb Cube0 ?x] =>
            destruct (E x y) as [E0 E1];
            [ members_chain
            | rewrite ?useNew_call; reflexivity
            | members_chain
            | rewrite ?useNew_call, useNew_pushDescriptors, ?useNew_call;
              reflexivity
            | rewrite E0, E1 ]
        end
    end;
    exists []; rewrite app_nil_r; (split; [reflexivity |]);
    try discriminate.
  intros _. split; [reflexivity |].
  rewrite ?useNew_call, useNew_pushDescriptors, ?useNew_call,
    useNew_pushDescriptors, ?useNew_call.
  apply negb_involutive.
Qed.

Lemma buffer_recording_ext (s0 s : VulkanExample) (i : nat) :
  same_members s0 s -> useNew s = useNew s0 ->
  buffer_recording s i = buffer_recording s0 i.
Proof.
  intros H Hu. unfold buffer_recording. cbv zeta.
  rewrite (push_call_ext _ Cube0 s0 s H Hu).
  rewrite (push_call_ext _ Cube1 (set_useNew (negb (useNew s0)) s0)
             (set_useNew (negb (useNew s)) s)).
  - unfold same_members in H.
    repeat match goal with H : _ /\ _ |- _ => destruct H end.
    repeat match goal with H : _ s = _ s0 |- _ => rewrite H; clear H end.
    reflexivity.
  - apply (same_members_trans _ s0); [apply same_members_set_useNew |].
    apply (same_members_trans _ s); [exact H |].
    repeat split.
  - change (negb (useNew s) = negb (useNew s0)). rewrite Hu. reflexivity.
Qed.

Lemma for_each_record_trace (s0 : VulkanExample) (l : list nat)
    (s : VulkanExample) :
  same_members s0 s -> useNew s = useNew s0 ->
  exists rest,
    calls s ++ flat_map (buffer_recording s0) l
    = calls (final (for_each l (recordCommandBuffer dev) s)) ++ rest
    /\ (stopped_by (for_each l (recordCommandBuffer dev) s) = None ->
        rest = []
        /\ useNew (final (for_each l (recordCommandBuffer dev) s)) = useNew s0).
Proof.
  revert s. induction l as [| i l IH]; intros s Hm Hu.
  - exists []. cbn [flat_map for_each final stopped_by]. auto.
  - cbn [flat_map for_each].
    destruct (recordCommandBuffer_trace i s) as (rest & Hc & Hok).
    pose proof (members_recordCommandBuffer dev s0 i s Hm) as Hm1.
    rewrite (buffer_recording_ext s0 s i Hm Hu) in Hc.
    unfold and_then.
    destruct (recordCommandBuffer dev i s) as [s1 | m c s1 | r s1];
      cbn [final stopped_by] in *.
    + destruct (Hok eq_refl) as [-> Hu1]. rewrite app_nil_r in Hc.
      destruct (IH s1 Hm1 (eq_trans Hu1 Hu)) as (rest' & Hc' & Hok').
      exists rest'. split; [| exact Hok'].
      rewrite app_assoc, Hc. exact Hc'.
    + exists (rest ++ flat_map (buffer_recording s0) l).
      split; [| discriminate]. rewrite !app_assoc, Hc. reflexivity.
    + exists (rest ++ flat_map (buffer_recording s0) l).
      split; [| discriminate]. rewrite !app_assoc, Hc. reflexivity.
Qed.

Lemma buildCommandBuffers_trace (s : VulkanExample) :
  exists rest,
    calls s ++ recording s = calls (final (buildCommandBuffers dev s)) ++ rest
    /\ (stopped_by (buildCommandBuffers dev s) = None ->
        rest = [] /\ useNew (final (buildCommandBuffers dev s)) = useNew s).
Proof.
  unfold buildCommandBuffers, recording.
  apply for_each_record_trace; [apply same_members_refl | reflexivity].
Qed.

Lemma pushes_app (l1 l2 : list ApiCall) :
  pushes (l1 ++ l2) = pushes l1 ++ pushes l2.
Proof.
  induction l1 as [| c l1 IH]; [reflexivity |]. cbn [app pushes].
  destruct (path_of c), (binding_of c); cbn [app]; rewrite IH; reflexivity.
Qed.

Lemma pushes_push_call cb i (s : VulkanExample) (l : list ApiCall) :
  pushes (push_call cb i s :: l)
  = (if useNew s then StructuredApply else DirectApply, blob i s) :: pushes l.
Proof.
  cbn [pushes]. rewrite path_of_push_call, binding_of_push_call. reflexivity.
Qed.

Lemma pushes_cons_none (c : ApiCall) (l : list ApiCall) :
  path_of c = None -> pushes (c :: l) = pushes l.
Proof. intro H. cbn [pushes]. rewrite H. reflexivity. Qed.

Lemma pushes_buffer_recording (s : VulkanExample) (i : nat) :
  pushes (buffer_recording s i)
  = [ (if useNew s then StructuredApply else DirectApply, blob Cube0 s);
      (if useNew s then DirectApply else StructuredApply, blob Cube1 s) ].
Proof.
  unfold buffer_recording. cbv zeta.
  repeat (rewrite pushes_cons_none by reflexivity). rewrite pushes_push_call.
  repeat (rewrite pushes_cons_none by reflexivity). rewrite pushes_push_call.
  repeat (rewrite pushes_cons_none by reflexivity).
  change (useNew (set_useNew (negb (useNew s)) s)) with (negb (useNew s)).
  destruct (useNew s); reflexivity.
Qed.

Lemma pushes_flat_map (s : VulkanExample) (l : list nat) :
  pushes (flat_map (buffer_recording s) l)
  = List.concat (repeat
      [ (if useNew s then StructuredApply else DirectApply, blob Cube0 s);
        (if useNew s then DirectApply else StructuredApply, blob Cube1 s) ]
      (List.length l)).
Proof.
  induction l as [| i l IH]; [reflexivity |].
  cbn [flat_map List.length repeat List.concat].
  rewrite pushes_app, pushes_buffer_recording, IH. reflexivity.
Qed.

(** X11: whatever the driver answers, what [buildCommandBuffers]
    records is a prefix of one fixed list, determined by the members at
    entry: for each command buffer in turn, begin, render pass,
    pipeline, viewport, scissor, vertex buffers, the push and the draw
    of cube 0, the push and the draw of cube 1, the UI, end of pass,
    end of buffer.  When it returns, all of that list has been
    recorded. *)
Theorem recorded_is_a_prefix_of_the_recording (s : VulkanExample) :
  (exists rest,
      calls s ++ recording s
      = calls (final (buildCommandBuffers dev s)) ++ rest)
  /\ (stopped_by (buildCommandBuffers dev s) = None ->
      calls (final (buildCommandBuffers dev s)) = calls s ++ recording s).
Proof.
  destruct (buildCommandBuffers_trace s) as (rest & Hc & Hok).
  split; [exists rest; exact Hc |].
  intro H. destruct (Hok H) as [-> _]. rewrite app_nil_r in Hc.
  symmetry. exact Hc.
Qed.

(** X12: a recording that returns has pushed, for every command buffer,
    cube 0 by the path the selector stood on at entry and cube 1 by the
    other path, each with its own blob, and has left the selector where
    it was: each cube is pushed by the same path in every command
    buffer, and again so when the buffers are rebuilt. *)
Theorem each_cube_keeps_its_path (s : VulkanExample) :
  stopped_by (buildCommandBuffers dev s) = None ->
  pushes (calls (final (buildCommandBuffers dev s)))
  = pushes (calls s)
    ++ List.concat (repeat
         [ (if useNew s then StructuredApply else DirectApply, blob Cube0 s);
           (if useNew s then DirectApply else StructuredApply, blob Cube1 s) ]
         (List.length (drawCmdBuffers s)))
  /\ useNew (final (buildCommandBuffers dev s)) = useNew s.
Proof.
  intro H. destruct (buildCommandBuffers_trace s) as (rest & Hc & Hok).
  destruct (Hok H) as [-> Hu]. rewrite app_nil_r in Hc.
  split; [| exact Hu].
  rewrite <- Hc, pushes_app. unfold recording.
  rewrite pushes_flat_map, length_seq. reflexivity.
Qed.
End Recording.

Lemma recorded_is_a_prefix_of_the_recording_witness :
  stopped_by (buildCommandBuffers good_device sample_start) = None
  /\ calls (final (buildCommandBuffers good_device sample_start))
     = calls sample_start ++ recording sample_start.
Proof.
  split; [vm_compute; reflexivity |].
  apply (recorded_is_a_prefix_of_the_recording good_device sample_start).
  vm_compute. reflexivity.
Defined.

Lemma each_cube_keeps_its_path_witness :
  stopped_by (buildCommandBuffers good_device sample_start) = None
  /\ List.length
       (pushes (calls (final (buildCommandBuffers good_device sample_start))))
     = 6%nat.
Proof.
  split; [vm_compute; reflexivity |].
  destruct (each_cube_keeps_its_path good_device sample_start) as [E _].
  - vm_compute. reflexivity.
  - rewrite E. reflexivity.
Defined.

(** ** What the mapped buffers hold *)

Section Uniforms.
Context {G : Glm}.
Variable abi : Abi.
Variable dev : Device.

Lemma synced_same (s s' : VulkanExample) :
  same_uniforms s s' -> synced s -> synced s'.
Proof.
  intros (E1 & E2 & E3 & E4 & E5) (H1 & H2 & H3).
  unfold synced, cube. rewrite E1, E2, E3, E4, E5.
  split; [exact H1 |]. split; [exact H2 | exact H3].
Qed.

Lemma same_uniforms_of_members (s s' : VulkanExample) :
  same_members s s' -> same_uniforms s s'.
Proof.
  unfold same_members. intro H.
  repeat match goal with H : _ /\ _ |- _ => destruct H end.
  repeat split; assumption.
Qed.

Ltac synced_leaf :=
  idtac;
  match goal with
  | H : synced ?s |- synced _ =>
      first [ exact H | refine (synced_same s _ _ H); repeat split ]
  end.

Lemma synced_setupDescriptorSetLayout :
  preserves synced (setupDescriptorSetLayout dev).
Proof. unfold setupDescriptorSetLayout. cbv zeta. walk synced_leaf. Qed.

Lemma synced_preparePipelines : preserves synced (preparePipelines dev).
Proof. unfold preparePipelines. walk synced_leaf. Qed.

Lemma synced_buildCommandBuffers :
  preserves synced (buildCommandBuffers dev).
Proof.
  intros s Hs. refine (synced_same s _ _ Hs).
  apply same_uniforms_of_members, members_buildCommandBuffers.
Qed.

(** Once both updates have run, everything is in step. *)
Lemma synced_updates (s : VulkanExample) :
  synced (updateCubeUniformBuffers (updateUniformBuffers s)).
Proof.
  assert (F : uniformBuffer (updateCubeUniformBuffers (updateUniformBuffers s))
              = uniformBuffer (updateUniformBuffers s)
              /\ uniformData (updateCubeUniformBuffers (updateUniformBuffers s))
                 = uniformData (updateUniformBuffers s)
              /\ camera_perspective
                   (updateCubeUniformBuffers (updateUniformBuffers s))
                 = camera_perspective s
              /\ camera_view (updateCubeUniformBuffers (updateUniformBuffers s))
                 = camera_view s).
  { rewrite updateCubeUniformBuffers_stages. unfold rotations_advanced.
    destruct (animate (matrices_written (updateUniformBuffers s))
              && negb (paused (matrices_written (updateUniformBuffers s))));
      repeat split. }
  destruct F as (F1 & F2 & F3 & F4).
  unfold synced. rewrite F1, F2, F3, F4.
  split; [reflexivity |]. split; [reflexivity |].
  intro i.
  destruct (updateCubeUniformBuffers_matrix i (updateUniformBuffers s))
    as [-> ->].
  reflexivity.
Qed.

Lemma synced_updateUniformBuffers (s : VulkanExample) :
  synced s -> synced (updateUniformBuffers s).
Proof.
  intros (_ & _ & H3). split; [reflexivity |]. split; [reflexivity |].
  exact H3.
Qed.

Lemma synced_prepareUniformBuffers (s s' : VulkanExample) :
  prepareUniformBuffers dev s = Ok s' -> synced s'.
Proof.
  unfold prepareUniformBuffers. intro H.
  apply and_then_Ok in H. destruct H as (s2 & H & H2).
  apply and_then_Ok in H. destruct H as (s1 & _ & H1).
  apply ret_Ok in H1. apply ret_Ok in H2. rewrite H2, H1.
  apply synced_updates.
Qed.

Lemma synced_render : preserves synced (render dev).
Proof.
  intros s Hs. destruct (prepared s) eqn:Hp.
  - rewrite (render_prepared dev s Hp).
    destruct (draw_trace dev (frame_updated s)) as (_ & _ & Hm & _).
    refine (synced_same (frame_updated s) _
              (same_uniforms_of_members _ _ Hm) _).
    unfold frame_updated.
    destruct (animate (updateUniformBuffers s)
              && negb (paused (updateUniformBuffers s))).
    + apply synced_updates.
    + apply synced_updateUniformBuffers, Hs.
  - unfold render. rewrite Hp. exact Hs.
Qed.

Lemma synced_prepare (s s' : VulkanExample) :
  prepare abi dev s = Ok s' -> synced s'.
Proof.
  unfold prepare. intro H.
  apply and_then_Ok in H. destruct H as (s7 & H & H8).
  apply and_then_Ok in H. destruct H as (s6 & H & H7).
  apply and_then_Ok in H. destruct H as (s5 & H & H6).
  apply and_then_Ok in H. destruct H as (s4 & H & H5).
  apply and_then_Ok in H. destruct H as (s3 & _ & H4).
  apply synced_prepareUniformBuffers in H4.
  apply synced_setupDescriptorSetLayout in H4. rewrite H5 in H4.
  cbn [final] in H4.
  apply synced_preparePipelines in H4. rewrite H6 in H4.
  cbn [final] in H4.
  apply synced_buildCommandBuffers in H4. rewrite H7 in H4.
  cbn [final] in H4. apply ret_Ok in H8. rewrite H8.
  refine (synced_same s7 _ _ H4). repeat split.
Qed.

Lemma preserves_run_but_prepare (P : VulkanExample -> Prop)
    (ms : list Method) :
  preserves P (render dev) -> preserves P (buildCommandBuffers dev) ->
  Forall (fun m => m <> Prepare) ms ->
  preserves P (run abi dev ms).
Proof.
  intros Hr Hb Hms. unfold run.
  induction Hms as [| m ms Hm _ IH]; intros s Hs; [exact Hs |].
  cbn [for_each]. apply preserves_and_then; [| exact IH | exact Hs].
  destruct m; cbn [invoke]; [contradiction Hm; reflexivity | |]; assumption.
Qed.

(** X13: once [prepare] has returned, and after any frames and any
    rebuilds of the command buffers that follow, wherever they stop,
    what is mapped is what the object holds: the mapped memory of the
    scene buffer holds [uniformData], which holds the two matrices of
    the camera, and the mapped memory of each cube's buffer holds the
    cube's [modelMat]. *)
Theorem mapped_buffers_hold_the_matrices (ms : list Method)
    (s : VulkanExample) :
  stopped_by (prepare abi dev s) = None ->
  Forall (fun m => m <> Prepare) ms ->
  synced (final (run abi dev ms (final (prepare abi dev s)))).
Proof.
  intros Hok Hms.
  apply preserves_run_but_prepare;
    [exact synced_render | exact synced_buildCommandBuffers | exact Hms |].
  destruct (prepare abi dev s) as [s' | |] eqn:E; try discriminate.
  cbn [final]. exact (synced_prepare s s' E).
Qed.
End Uniforms.

Lemma mapped_buffers_hold_the_matrices_witness :
  stopped_by (prepare Align64 good_device sample_start) = None
  /\ Forall (fun m => m <> Prepare) [Render; BuildCommandBuffers; Render]
  /\ synced (final (run Align64 good_device
                      [Render; BuildCommandBuffers; Render]
                      (final (prepare Align64 good_device sample_start)))).
Proof.
  assert (Hms : Forall (fun m => m <> Prepare)
                  [Render; BuildCommandBuffers; Render]).
  { repeat constructor; discriminate. }
  split; [vm_compute; reflexivity |]. split; [exact Hms |].
  apply (mapped_buffers_hold_the_matrices Align64 good_device
           [Render; BuildCommandBuffers; Render] sample_start).
  - vm_compute. reflexivity.
  - exact Hms.
Defined.

(** ** Calls through loaded entry points *)

Section Resolved.
Context {G : Glm}.
Variable abi : Abi.
Variable dev : Device.

Lemma quiet_since_refl (s : VulkanExample) : quiet_since s s.
Proof.
  repeat split. exists []. split; [symmetry; apply app_nil_r | constructor].
Qed.

Lemma quiet_same (s0 s s' : VulkanExample) :
  same_entry_points s s' -> quiet_since s0 s -> quiet_since s0 s'.
Proof.
  intros (E1 & E2 & E3 & E4) (H1 & H2 & H3 & H4).
  unfold quiet_since. rewrite E1, E2, E3, E4. auto.
Qed.

Lemma quiet_call (s0 : VulkanExample) (c : ApiCall) (s : VulkanExample) :
  pfn_of c = None -> quiet_since s0 s -> quiet_since s0 (call c s).
Proof.
  intros Hc (H1 & H2 & H3 & l & Hl & Hq).
  split; [exact H1 |]. split; [exact H2 |]. split; [exact H3 |].
  exists (l ++ [c]). rewrite calls_call, Hl, app_assoc.
  split; [reflexivity |].
  apply Forall_app. split; [exact Hq | constructor; [exact Hc | constructor]].
Qed.

Lemma same_entry_points_set_cube (i : CubeIx) (c : Cube) (s : VulkanExample) :
  same_entry_points s (set_cube i c s).
Proof. destruct i; repeat split. Qed.

Lemma same_entry_points_updateUniformBuffers (s : VulkanExample) :
  same_entry_points s (updateUniformBuffers s).
Proof. repeat split. Qed.

Lemma same_entry_points_updateCubeUniformBuffers (s : VulkanExample) :
  same_entry_points s (updateCubeUniformBuffers s).
Proof.
  rewrite updateCubeUniformBuffers_stages. unfold rotations_advanced.
  destruct (animate (matrices_written s) && negb (paused (matrices_written s)));
    repeat split.
Qed.

Ltac calm_leaf :=
  idtac;
  match goal with
  | H : quiet_since ?s0 ?s |- quiet_since ?s0 (call _ ?s) =>
      apply quiet_call; [reflexivity | exact H]
  | H : quiet_since ?s0 ?s |- quiet_since ?s0 _ =>
      first [ exact H
            | refine (quiet_same s0 s _ _ H); repeat split ]
  end.

Lemma quiet_loadTexture s0 i path :
  preserves (quiet_since s0) (loadTexture dev i path).
Proof.
  intros s Hs. unfold loadTexture. cbn [final].
  refine (quiet_same s0 _ _ (same_entry_points_set_cube _ _ _) _).
  apply quiet_call; [reflexivity | exact Hs].
Qed.

Lemma quiet_loadAssets s0 : preserves (quiet_since s0) (loadAssets dev).
Proof. unfold loadAssets. walk calm_leaf; apply quiet_loadTexture. Qed.

Lemma quiet_createCubeBuffer s0 i :
  preserves (quiet_since s0) (createCubeBuffer dev i).
Proof.
  unfold createCubeBuffer. apply preserves_and_then.
  - intros s Hs. cbv beta.
    destruct (dev_createBuffer dev (calls s) sizeof_mat4) as [res d].
    cbv zeta. rewrite final_VK_CHECK_RESULT.
    destruct (is_success res).
    + refine (quiet_same s0 _ _ (same_entry_points_set_cube _ _ _) _).
      apply quiet_call; [reflexivity | exact Hs].
    + apply quiet_call; [reflexivity | exact Hs].
  - walk calm_leaf.
Qed.

Lemma quiet_prepareUniformBuffers s0 :
  preserves (quiet_since s0) (prepareUniformBuffers dev).
Proof.
  unfold prepareUniformBuffers.
  apply preserves_and_then; [apply preserves_and_then;
    [apply preserves_and_then; [apply preserves_and_then |] |] |].
  - intros s Hs. cbv beta.
    destruct (dev_createBuffer dev (calls s) sizeof_UniformData) as [res d].
    cbv zeta. rewrite final_VK_CHECK_RESULT.
    destruct (is_success res).
    + refine (quiet_same s0 _ _ _ (quiet_call s0 _ s _ Hs));
        [repeat split | reflexivity].
    + apply quiet_call; [reflexivity | exact Hs].
  - walk calm_leaf.
  - apply preserves_for_each. apply quiet_createCubeBuffer.
  - apply preserves_ret. intros s Hs.
    apply (quiet_same s0 s _ (same_entry_points_updateUniformBuffers s) Hs).
  - apply preserves_ret. intros s Hs.
    apply (quiet_same s0 s _ (same_entry_points_updateCubeUniformBuffers s) Hs).
Qed.

Lemma quiet_setupDescriptorSetLayout s0 :
  preserves (quiet_since s0) (setupDescriptorSetLayout dev).
Proof. unfold setupDescriptorSetLayout. cbv zeta. walk calm_leaf. Qed.

Lemma quiet_preparePipelines s0 :
  preserves (quiet_since s0) (preparePipelines dev).
Proof. unfold preparePipelines. walk calm_leaf. Qed.

Lemma quiet_draw s0 : preserves (quiet_since s0) (draw dev).
Proof.
  intros s Hs. unfold draw. cbv zeta.
  generalize (nth (dev_currentBuffer dev (calls s)) (drawCmdBuffers s)
                VK_NULL_HANDLE).
  intro cb. apply preserves_apply; [| exact Hs]. walk calm_leaf.
Qed.

Lemma quiet_render s0 : preserves (quiet_since s0) (render dev).
Proof.
  intros s Hs. unfold render. destruct (negb (prepared s)); [exact Hs |].
  revert s Hs.
  apply preserves_and_then; [apply preserves_and_then |].
  - apply preserves_ret. intros s Hs.
    apply (quiet_same s0 s _ (same_entry_points_updateUniformBuffers s) Hs).
  - intros s Hs. cbv beta.
    destruct (animate s && negb (paused s)); cbn [final]; [| exact Hs].
    apply (quiet_same s0 s _ (same_entry_points_updateCubeUniformBuffers s) Hs).
  - apply quiet_draw.
Qed.

Lemma resolved_of_quiet (f : Step) :
  (forall s0, preserves (quiet_since s0) f) ->
  forall s1, preserves (resolved_run s1) f.
Proof.
  intros H s1 x [Ex (l0 & Hl0 & Hr0)].
  destruct (H x x (quiet_since_refl x)) as (E1 & E2 & E3 & l & Hl & Hq).
  split.
  - unfold entry_points_resolved. rewrite E1, E2, E3. exact Ex.
  - exists (l0 ++ l). rewrite Hl, Hl0, app_assoc. split; [reflexivity |].
    intros c p Hin Hp. apply in_app_or in Hin. destruct Hin as [Hin | Hin].
    + exact (Hr0 c p Hin Hp).
    + rewrite Forall_forall in Hq. rewrite (Hq c Hin) in Hp. discriminate.
Qed.

Lemma resolved_call (s0 : VulkanExample) (c : ApiCall) (s : VulkanExample) :
  match pfn_of c with Some p => p <> 0 | None => True end ->
  resolved_run s0 s -> resolved_run s0 (call c s).
Proof.
  intros Hc [E (l & Hl & Hr)]. split; [exact E |].
  exists (l ++ [c]). rewrite calls_call, Hl, app_assoc.
  split; [reflexivity |].
  intros c' p Hin Hp. apply in_app_or in Hin. destruct Hin as [Hin | Hin].
  - exact (Hr c' p Hin Hp).
  - destruct Hin as [<- | []]. rewrite Hp in Hc. exact Hc.
Qed.

Lemma resolved_same (s0 s s' : VulkanExample) :
  same_entry_points s s' -> resolved_run s0 s -> resolved_run s0 s'.
Proof.
  intros (E1 & E2 & E3 & E4) [E R].
  unfold resolved_run, entry_points_resolved, resolved_since.
  rewrite E1, E2, E3, E4. split; [exact E | exact R].
Qed.

Lemma resolved_createDescriptorTemplate s0 :
  preserves (resolved_run s0) (createDescriptorTemplate abi dev).
Proof.
  intros s Hs. unfold createDescriptorTemplate, create, ignore_result.
  destruct (dev_CreateDescriptorUpdateTemplate dev (calls s) (template_info abi s))
    as [res h].
  cbn [final].
  assert (Hc : resolved_run s0
                 (call (vkCreateDescriptorUpdateTemplateKHR
                          (pfn_vkCreateDescriptorUpdateTemplateKHR s)
                          (template_info abi s)) s)).
  { apply resolved_call; [| exact Hs]. cbn [pfn_of]. apply Hs. }
  destruct (is_success res); [| exact Hc].
  refine (resolved_same s0 _ _ _ Hc). repeat split.
Qed.

Lemma resolved_pushDescriptors s0 cb i (s : VulkanExample) :
  resolved_run s0 s -> resolved_run s0 (pushDescriptors cb i s).
Proof.
  intros [E (l & Hl & Hr)].
  destruct (same_members_pushDescriptors cb i s)
    as (_ & _ & M3 & M4 & M5 & _).
  split.
  - unfold entry_points_resolved. rewrite M3, M4, M5. exact E.
  - exists (l ++ [push_call cb i s]).
    rewrite calls_pushDescriptors, Hl, app_assoc. split; [reflexivity |].
    intros c p Hin Hp. apply in_app_or in Hin. destruct Hin as [Hin | Hin].
    + exact (Hr c p Hin Hp).
    + destruct Hin as [<- | []]. destruct E as (_ & E2 & E3).
      unfold push_call in Hp.
      destruct (useNew s); cbn [pfn_of] in Hp; injection Hp as <-; assumption.
Qed.

Ltac resolved_leaf :=
  idtac;
  match goal with
  | H : resolved_run ?s0 ?s |- resolved_run ?s0 (call _ ?s) =>
      apply resolved_call; [exact I | exact H]
  end.

Lemma resolved_recordCommandBuffer s0 i :
  preserves (resolved_run s0) (recordCommandBuffer dev i).
Proof.
  intros s Hs. unfold recordCommandBuffer. cbv zeta.
  generalize (nth i (drawCmdBuffers s) VK_NULL_HANDLE)
             (nth i (frameBuffers s) VK_NULL_HANDLE).
  intros cb framebuffer.
  apply preserves_apply; [| exact Hs].
  walk resolved_leaf.
  intros x Hx. unfold recordCube. cbn [final].
  apply resolved_call; [exact I |]. apply resolved_pushDescriptors, Hx.
Qed.

Lemma resolved_buildCommandBuffers s0 :
  preserves (resolved_run s0) (buildCommandBuffers dev).
Proof.
  intros s Hs. unfold buildCommandBuffers.
  apply preserves_for_each; [| exact Hs].
  apply resolved_recordCommandBuffer.
Qed.

Lemma resolves_and_then (f g : Step) :
  resolves f -> (forall s0, preserves (resolved_run s0) g) ->
  resolves (and_then f g).
Proof.
  intros Hf Hg s. destruct (Hf s) as [R E]. unfold and_then.
  destruct (f s) as [s1 | m c s1 | r s1]; cbn [final stopped_by] in *.
  - destruct (Hg s s1 (conj (E eq_refl) R)) as [E' R'].
    split; [exact R' | intros _; exact E'].
  - split; [exact R | discriminate].
  - split; [exact R | discriminate].
Qed.

Ltac only_lookups :=
  let c := fresh "c" in
  let p := fresh "p" in
  let Hin := fresh "Hin" in
  let Hp := fresh "Hp" in
  intros c p Hin Hp; cbn [In] in Hin;
  repeat (destruct Hin as [Hin | Hin];
          [subst c; cbn [pfn_of] in Hp; try discriminate Hp;
           injection Hp as <-; apply Z.eqb_neq; assumption |]);
  contradiction.

Lemma resolves_loadExtensionFunctions : resolves (loadExtensionFunctions dev).
Proof.
  intro s.
  unfold loadExtensionFunctions, and_then, loadDeviceFunction,
    getPushDescriptorProperties, exitFatal.
  destruct (dev_GetDeviceProcAddr dev "vkCmdPushDescriptorSetKHR" =? 0) eqn:E1.
  { split; [| discriminate]. eexists.
    split; [cbn; reflexivity | only_lookups]. }
  destruct (dev_GetInstanceProcAddr dev "vkGetPhysicalDeviceProperties2KHR" =? 0) eqn:E2.
  { split; [| discriminate]. eexists.
    split; [cbn; rewrite <- ?app_assoc; cbn; reflexivity | only_lookups]. }
  destruct (dev_GetDeviceProcAddr dev "vkCreateDescriptorUpdateTemplateKHR" =? 0) eqn:E3.
  { split; [| discriminate]. eexists.
    split; [cbn; rewrite <- ?app_assoc; cbn; reflexivity | only_lookups]. }
  destruct (dev_GetDeviceProcAddr dev "vkCmdPushDescriptorSetWithTemplateKHR" =? 0) eqn:E4.
  { split; [| discriminate]. eexists.
    split; [cbn; rewrite <- ?app_assoc; cbn; reflexivity | only_lookups]. }
  destruct (dev_GetDeviceProcAddr dev "vkCmdPushDescriptorSetWithTemplate2KHR" =? 0) eqn:E5.
  { split; [| discriminate]. eexists.
    split; [cbn; rewrite <- ?app_assoc; cbn; reflexivity | only_lookups]. }
  split.
  - eexists. split; [cbn; rewrite <- ?app_assoc; cbn; reflexivity | only_lookups].
  - intros _. cbn. repeat split; apply Z.eqb_neq; assumption.
Qed.

Lemma resolves_prepare : resolves (prepare abi dev).
Proof.
  unfold prepare.
  apply resolves_and_then; [apply resolves_and_then;
    [apply resolves_and_then; [apply resolves_and_then;
      [apply resolves_and_then; [apply resolves_and_then;
        [apply resolves_and_then |] |] |] |] |] |].
  - apply resolves_loadExtensionFunctions.
  - apply resolved_createDescriptorTemplate.
  - apply resolved_of_quiet, quiet_loadAssets.
  - apply resolved_of_quiet, quiet_prepareUniformBuffers.
  - apply resolved_of_quiet, quiet_setupDescriptorSetLayout.
  - apply resolved_of_quiet, quiet_preparePipelines.
  - apply resolved_buildCommandBuffers.
  - intros s0. apply preserves_ret. intros s Hs.
    refine (resolved_same s0 s _ _ Hs). repeat split.
Qed.

(** X14: whatever the object is entered with and whatever the device
    answers, every call [prepare] makes through a loaded entry point
    goes through a pointer that is not null; and once [prepare] has
    returned the same holds of every frame and of every rebuild of the
    command buffers that follow. *)
Theorem no_call_through_a_null_entry_point (ms : list Method)
    (s : VulkanExample) :
  (exists l, calls (final (prepare abi dev s)) = calls s ++ l
             /\ through_resolved l)
  /\ (stopped_by (prepare abi dev s) = None ->
      Forall (fun m => m <> Prepare) ms ->
      exists l,
        calls (final (run abi dev ms (final (prepare abi dev s))))
        = calls s ++ l
        /\ through_resolved l).
Proof.
  destruct (resolves_prepare s) as [R E]. split; [exact R |].
  intros Hok Hms.
  assert (H : resolved_run s
                (final (run abi dev ms (final (prepare abi dev s))))).
  { apply preserves_run_but_prepare.
    - apply resolved_of_quiet, quiet_render.
    - apply resolved_buildCommandBuffers.
    - exact Hms.
    - split; [exact (E Hok) | exact R]. }
  exact (proj2 H).
Qed.
End Resolved.

Lemma no_call_through_a_null_entry_point_witness :
  stopped_by (prepare Align64 good_device sample_start) = None
  /\ Forall (fun m => m <> Prepare) [Render; BuildCommandBuffers]
  /\ exists l,
       calls (final (run Align64 good_device [Render; BuildCommandBuffers]
                       (final (prepare Align64 good_device sample_start))))
       = calls sample_start ++ l
       /\ through_resolved l.
Proof.
  assert (Hms : Forall (fun m => m <> Prepare) [Render; BuildCommandBuffers]).
  { repeat constructor; discriminate. }
  split; [vm_compute; reflexivity |]. split; [exact Hms |].
  apply (no_call_through_a_null_entry_point Align64 good_device
           [Render; BuildCommandBuffers] sample_start).
  - vm_compute. reflexivity.
  - exact Hms.
Defined.

(** ** Where a run can end *)

Section Checks.
Context {G : Glm}.
Variable abi : Abi.
Variable dev : Device.

Lemma accepted_app (h l1 l2 : list ApiCall) :
  accepted dev h (l1 ++ l2)
  = accepted dev h l1 && accepted dev (h ++ l1) l2.
Proof.
  revert h. induction l1 as [| c l1 IH]; intro h.
  - rewrite app_nil_r. reflexivity.
  - cbn [app accepted]. rewrite IH, <- app_assoc, andb_assoc. reflexivity.
Qed.

Lemma passed_refl (s : VulkanExample) : passed dev s s.
Proof. exists []. split; [symmetry; apply app_nil_r | reflexivity]. Qed.

Lemma passed_same (s0 s s' : VulkanExample) :
  calls s' = calls s -> passed dev s0 s -> passed dev s0 s'.
Proof. intros E (l & Hl & Ha). exists l. rewrite E. auto. Qed.

Lemma passed_call_with (s0 : VulkanExample) (c : ApiCall) (s : VulkanExample) :
  match answer_of dev (calls s) c with
  | Some r => is_success r = true
  | None => True
  end ->
  passed dev s0 s -> passed dev s0 (call c s).
Proof.
  intros Hc (l & Hl & Ha). exists (l ++ [c]).
  rewrite calls_call, Hl, app_assoc. split; [reflexivity |].
  rewrite accepted_app, Ha. cbn [accepted andb]. rewrite <- Hl.
  destruct (answer_of dev (calls s) c) as [r |]; [rewrite Hc |]; reflexivity.
Qed.

Lemma passed_call (s0 : VulkanExample) (c : ApiCall) (s : VulkanExample) :
  answer_of dev (calls s) c = None ->
  passed dev s0 s -> passed dev s0 (call c s).
Proof. intros Hc. apply passed_call_with. rewrite Hc. exact I. Qed.

Lemma rejected_call (s0 : VulkanExample) (c : ApiCall) (r : VkResult)
    (s : VulkanExample) :
  answer_of dev (calls s) c = Some r -> is_success r = false ->
  passed dev s0 s -> rejected dev s0 r (call c s).
Proof.
  intros Hc Hr (l & Hl & Ha). exists l, c.
  rewrite calls_call, Hl, <- app_assoc. split; [reflexivity |].
  split; [exact Ha |]. rewrite <- Hl. auto.
Qed.

Lemma passed_trans (s0 s1 s2 : VulkanExample) :
  passed dev s0 s1 -> passed dev s1 s2 -> passed dev s0 s2.
Proof.
  intros (l1 & H1 & A1) (l2 & H2 & A2). exists (l1 ++ l2).
  rewrite H2, H1, app_assoc. split; [reflexivity |].
  rewrite accepted_app, A1, <- H1. exact A2.
Qed.

Lemma ff_and_then s0 (f g : Step) :
  fail_fast dev s0 f -> fail_fast dev s0 g -> fail_fast dev s0 (and_then f g).
Proof.
  intros Hf Hg s Hs. specialize (Hf s Hs). unfold and_then.
  destruct (f s) as [s1 | m c s1 | r s1]; [apply Hg |..]; exact Hf.
Qed.

Lemma ff_for_each {A : Type} s0 (l : list A) (body : A -> Step) :
  (forall a, fail_fast dev s0 (body a)) -> fail_fast dev s0 (for_each l body).
Proof.
  intro Hb. induction l as [| a l IH]; intros s Hs; cbn [for_each].
  - exact Hs.
  - apply ff_and_then; auto.
Qed.

Lemma ff_ret s0 (f : VulkanExample -> VulkanExample) :
  (forall s, passed dev s0 s -> passed dev s0 (f s)) ->
  fail_fast dev s0 (ret f).
Proof. intros H s Hs. exact (H s Hs). Qed.

Lemma ff_check s0 (c : ApiCall) (res : VkResult)
    (s1 s : VulkanExample) :
  answer_of dev (calls s) c = Some res ->
  calls s1 = calls (call c s) ->
  passed dev s0 s ->
  ends_well dev s0 (VK_CHECK_RESULT res s1).
Proof.
  intros Hc E Hs. unfold VK_CHECK_RESULT.
  destruct (is_success res) eqn:Hr; cbn [ends_well].
  - apply (passed_same s0 (call c s)); [exact E |].
    apply passed_call_with; [| exact Hs]. rewrite Hc. exact Hr.
  - destruct (rejected_call s0 c res s Hc Hr Hs) as (l & c' & H1 & H2).
    exists l, c'. rewrite E. auto.
Qed.

Lemma ff_checked s0 (c : ApiCall) (answer : list ApiCall -> VkResult) :
  (forall h, answer_of dev h c = Some (answer h)) ->
  fail_fast dev s0 (checked c answer).
Proof.
  intros H s Hs. unfold checked.
  apply (ff_check s0 c _ _ s); [apply H | reflexivity | exact Hs].
Qed.

Lemma ff_create_checked s0 (c : ApiCall)
    (answer : list ApiCall -> VkResult * Handle)
    (store : Handle -> VulkanExample -> VulkanExample) :
  (forall h, answer_of dev h c = Some (fst (answer h))) ->
  (forall h s, calls (store h s) = calls s) ->
  fail_fast dev s0 (create c answer store VK_CHECK_RESULT).
Proof.
  intros H Hstore s Hs. unfold create.
  pose proof (H (calls s)) as Hc.
  destruct (answer (calls s)) as [res h]. cbn [fst] in Hc.
  apply (ff_check s0 c _ _ s); [exact Hc | | exact Hs].
  destruct (is_success res); [apply Hstore | reflexivity].
Qed.

Ltac passed_leaf :=
  idtac;
  match goal with
  | H : passed dev ?s0 ?s |- passed dev ?s0 (call _ ?s) =>
      apply passed_call; [reflexivity | exact H]
  end.

Ltac march :=
  repeat match goal with
    | |- fail_fast _ _ (and_then _ _) => apply ff_and_then
    | |- fail_fast _ _ (for_each _ _) => apply ff_for_each; intro
    | |- fail_fast _ _ (ret _) =>
        apply ff_ret; intros ? ?; cbv beta; passed_leaf
    | |- fail_fast _ _ (checked _ _) =>
        apply ff_checked; intro; reflexivity
    | |- fail_fast _ _ (create _ _ _ VK_CHECK_RESULT) =>
        apply ff_create_checked; [intro; reflexivity | intros; reflexivity]
    | |- fail_fast _ _ (fun _ => _) =>
        let s := fresh "s" in
        let Hs := fresh "Hs" in
        intros s Hs; cbv beta
    | Hs : passed _ ?s0 ?s |- ends_well _ ?s0 (create ?c ?a ?st VK_CHECK_RESULT ?s) =>
        apply (ff_create_checked s0 c a st);
        [intro; reflexivity | intros; reflexivity | exact Hs]
    | Hs : passed _ ?s0 ?s |- ends_well _ ?s0 (checked ?c ?a ?s) =>
        apply (ff_checked s0 c a); [intro; reflexivity | exact Hs]
    end.

Lemma ff_loadDeviceFunction s0 (ep : EntryPoint) store :
  ep <> EP_vkGetPhysicalDeviceProperties2KHR ->
  (forall p s, calls (store p s) = calls s) ->
  fail_fast dev s0 (loadDeviceFunction dev (entry_point_name ep) store).
Proof.
  intros Hep H s Hs. unfold loadDeviceFunction, exitFatal.
  assert (Hp : passed dev s0
                 (store (dev_GetDeviceProcAddr dev (entry_point_name ep))
                    (call (vkGetDeviceProcAddr (entry_point_name ep)) s))).
  { apply (passed_same s0 (call (vkGetDeviceProcAddr (entry_point_name ep)) s));
      [apply H |].
    apply passed_call; [reflexivity | exact Hs]. }
  destruct (_ =? 0) eqn:E; cbn [ends_well]; [| exact Hp].
  split; [exact Hp |]. split; [reflexivity |].
  exists ep. split; [| reflexivity].
  apply Z.eqb_eq in E. destruct ep; try exact E. contradiction Hep. reflexivity.
Qed.

Lemma ff_getPushDescriptorProperties s0 :
  fail_fast dev s0 (getPushDescriptorProperties dev).
Proof.
  intros s Hs. unfold getPushDescriptorProperties, exitFatal.
  destruct (_ =? 0) eqn:E; cbn [ends_well].
  - split; [apply passed_call; [reflexivity | exact Hs] |].
    split; [reflexivity |].
    exists EP_vkGetPhysicalDeviceProperties2KHR.
    split; [apply Z.eqb_eq, E | reflexivity].
  - apply (passed_same s0
             (call (vkGetPhysicalDeviceProperties2KHR
                      (dev_GetInstanceProcAddr dev
                         "vkGetPhysicalDeviceProperties2KHR"))
                (call (vkGetInstanceProcAddr
                         "vkGetPhysicalDeviceProperties2KHR") s)));
      [reflexivity |].
    apply passed_call; [reflexivity |].
    apply passed_call; [reflexivity | exact Hs].
Qed.

Lemma ff_loadExtensionFunctions s0 :
  fail_fast dev s0 (loadExtensionFunctions dev).
Proof.
  unfold loadExtensionFunctions. march;
    first
      [ apply ff_getPushDescriptorProperties
      | apply (ff_loadDeviceFunction s0 EP_vkCmdPushDescriptorSetKHR)
      | apply (ff_loadDeviceFunction s0 EP_vkCreateDescriptorUpdateTemplateKHR)
      | apply (ff_loadDeviceFunction s0 EP_vkCmdPushDescriptorSetWithTemplateKHR)
      | apply (ff_loadDeviceFunction s0 EP_vkCmdPushDescriptorSetWithTemplate2KHR) ];
    solve [discriminate | intros; reflexivity].
Qed.

Lemma ff_createDescriptorTemplate s0 :
  fail_fast dev s0 (createDescriptorTemplate abi dev).
Proof.
  intros s Hs. unfold createDescriptorTemplate, create, ignore_result.
  destruct (dev_CreateDescriptorUpdateTemplate dev (calls s) (template_info abi s))
    as [res h].
  cbn [ends_well].
  assert (Hc : passed dev s0
                 (call (vkCreateDescriptorUpdateTemplateKHR
                          (pfn_vkCreateDescriptorUpdateTemplateKHR s)
                          (template_info abi s)) s)).
  { apply passed_call; [reflexivity | exact Hs]. }
  destruct (is_success res); [| exact Hc].
  refine (passed_same s0 _ _ _ Hc). reflexivity.
Qed.

Lemma ff_loadTexture s0 i path : fail_fast dev s0 (loadTexture dev i path).
Proof.
  intros s Hs. unfold loadTexture. cbn [ends_well].
  apply (passed_same s0 (call (loadFromFile path) s));
    [destruct i; reflexivity |].
  apply passed_call; [reflexivity | exact Hs].
Qed.

Lemma ff_loadAssets s0 : fail_fast dev s0 (loadAssets dev).
Proof. unfold loadAssets. march; apply ff_loadTexture. Qed.

Lemma ff_createCubeBuffer s0 i : fail_fast dev s0 (createCubeBuffer dev i).
Proof.
  unfold createCubeBuffer. apply ff_and_then.
  - intros s Hs. cbv beta.
    assert (Hc : answer_of dev (calls s) (createBuffer sizeof_mat4)
                 = Some (fst (dev_createBuffer dev (calls s) sizeof_mat4)))
      by reflexivity.
    destruct (dev_createBuffer dev (calls s) sizeof_mat4) as [res d].
    cbv zeta. cbn [fst] in Hc.
    apply (ff_check s0 _ _ _ s Hc); [| exact Hs].
    destruct (is_success res); [destruct i |]; reflexivity.
  - march.
Qed.

Lemma ff_prepareUniformBuffers s0 :
  fail_fast dev s0 (prepareUniformBuffers dev).
Proof.
  unfold prepareUniformBuffers.
  apply ff_and_then; [apply ff_and_then;
    [apply ff_and_then; [apply ff_and_then |] |] |].
  - intros s Hs. cbv beta.
    assert (Hc : answer_of dev (calls s) (createBuffer sizeof_UniformData)
                 = Some (fst (dev_createBuffer dev (calls s) sizeof_UniformData)))
      by reflexivity.
    destruct (dev_createBuffer dev (calls s) sizeof_UniformData) as [res d].
    cbv zeta. cbn [fst] in Hc.
    apply (ff_check s0 _ _ _ s Hc); [| exact Hs].
    destruct (is_success res); reflexivity.
  - march.
  - apply ff_for_each. apply ff_createCubeBuffer.
  - apply ff_ret. intros s Hs.
    apply (passed_same s0 s); [reflexivity | exact Hs].
  - apply ff_ret. intros s Hs.
    apply (passed_same s0 s);
      [apply (updateCubeUniformBuffers_trace s) | exact Hs].
Qed.

Lemma ff_setupDescriptorSetLayout s0 :
  fail_fast dev s0 (setupDescriptorSetLayout dev).
Proof. unfold setupDescriptorSetLayout. cbv zeta. march. Qed.

Lemma ff_preparePipelines s0 : fail_fast dev s0 (preparePipelines dev).
Proof. unfold preparePipelines. march. Qed.

Lemma passed_pushDescriptors s0 cb i (s : VulkanExample) :
  passed dev s0 s -> passed dev s0 (pushDescriptors cb i s).
Proof.
  intros Hs.
  apply (passed_same s0 (call (push_call cb i s) s)).
  - rewrite calls_pushDescriptors. reflexivity.
  - apply passed_call; [| exact Hs].
    unfold push_call. destruct (useNew s); reflexivity.
Qed.

Lemma ff_recordCommandBuffer s0 i :
  fail_fast dev s0 (recordCommandBuffer dev i).
Proof.
  intros s Hs. unfold recordCommandBuffer. cbv zeta.
  generalize (nth i (drawCmdBuffers s) VK_NULL_HANDLE)
             (nth i (frameBuffers s) VK_NULL_HANDLE).
  intros cb framebuffer. revert s Hs.
  change (fail_fast dev s0
    (and_then (and_then (and_then (and_then (and_then (and_then (and_then
      (and_then (and_then
        (checked (vkBeginCommandBuffer cb)
           (fun h => dev_BeginCommandBuffer dev h cb))
        (ret (call (vkCmdBeginRenderPass cb framebuffer))))
        (ret (fun s => call (vkCmdBindPipeline cb (pipeline s)) s)))
        (ret (call (vkCmdSetViewport cb))))
        (ret (call (vkCmdSetScissor cb))))
        (ret (call (bindBuffers cb))))
        (for_each [Cube0; Cube1] (recordCube cb)))
        (ret (call (drawUI cb))))
        (ret (call (vkCmdEndRenderPass cb))))
        (checked (vkEndCommandBuffer cb)
           (fun h => dev_EndCommandBuffer dev h cb)))).
  march.
  intros s Hs. unfold recordCube. cbn [ends_well].
  apply passed_call; [reflexivity |]. apply passed_pushDescriptors, Hs.
Qed.

Lemma ff_buildCommandBuffers s0 : fail_fast dev s0 (buildCommandBuffers dev).
Proof.
  intros s Hs. unfold buildCommandBuffers.
  apply ff_for_each; [| exact Hs]. apply ff_recordCommandBuffer.
Qed.

Lemma ff_prepare s0 : fail_fast dev s0 (prepare abi dev).
Proof.
  unfold prepare.
  apply ff_and_then; [apply ff_and_then; [apply ff_and_then;
    [apply ff_and_then; [apply ff_and_then; [apply ff_and_then;
      [apply ff_and_then |] |] |] |] |] |].
  - apply ff_loadExtensionFunctions.
  - apply ff_createDescriptorTemplate.
  - apply ff_loadAssets.
  - apply ff_prepareUniformBuffers.
  - apply ff_setupDescriptorSetLayout.
  - apply ff_preparePipelines.
  - apply ff_buildCommandBuffers.
  - apply ff_ret. intros s Hs. apply (passed_same s0 s); [reflexivity | exact Hs].
Qed.

Lemma ff_draw s0 : fail_fast dev s0 (draw dev).
Proof.
  intros s Hs. unfold draw. cbv zeta.
  generalize (nth (dev_currentBuffer dev (calls s)) (drawCmdBuffers s)
                VK_NULL_HANDLE).
  intro cb. revert s Hs.
  change (fail_fast dev s0
    (and_then (and_then (ret (call prepareFrame))
       (checked (vkQueueSubmit cb) (fun h => dev_QueueSubmit dev h cb)))
       (ret (call submitFrame)))).
  march.
Qed.

Lemma ff_render s0 : fail_fast dev s0 (render dev).
Proof.
  intros s Hs. unfold render.
  destruct (negb (prepared s)); [exact Hs |]. revert s Hs.
  apply ff_and_then; [apply ff_and_then |].
  - apply ff_ret. intros s Hs.
    apply (passed_same s0 s); [reflexivity | exact Hs].
  - intros s Hs. cbv beta.
    destruct (animate s && negb (paused s)); cbn [ends_well]; [| exact Hs].
    apply (passed_same s0 s);
      [apply (updateCubeUniformBuffers_trace s) | exact Hs].
  - apply ff_draw.
Qed.

Lemma run_ends_well (ms : list Method) (s : VulkanExample) :
  ends_well dev s (run abi dev ms s).
Proof.
  unfold run. apply ff_for_each; [| apply passed_refl].
  intros m. destruct m; cbn [invoke].
  - apply ff_prepare.
  - apply ff_render.
  - apply ff_buildCommandBuffers.
Qed.

Lemma conforming_returns (o : Outcome) (s : VulkanExample) :
  conforming dev -> ends_well dev s o -> stopped_by o = None.
Proof.
  intros [Hr Ha] H. destruct o as [s1 | m c s1 | r s1]; cbn [ends_well] in H.
  - reflexivity.
  - destruct H as (_ & _ & ep & Hep & _). contradiction (Hr ep Hep).
  - destruct H as (l & c & _ & _ & Hc & Hf).
    rewrite (Ha _ _ _ Hc) in Hf. discriminate.
Qed.

(** X15: whatever methods run, in whatever order and on whatever
    device, the run either returns, with every checked request
    accepted; or ends the process with exit code -1 and the diagnostic
    of an entry point that did not resolve, with every checked request
    accepted; or ends the process at a failed check, and then the
    rejected request is the last call the program made and the result
    reported is the device's answer to it.  The checked requests are
    the buffer creations and mappings, the creation of the descriptor
    set layout, of the pipeline layout and of the pipeline, the begin
    and the end of a command buffer and the queue submission. *)
Theorem a_rejected_request_is_the_last_call (ms : list Method)
    (s : VulkanExample) :
  match run abi dev ms s with
  | Ok s' =>
      exists l, calls s' = calls s ++ l /\ accepted dev (calls s) l = true
  | ExitFatal message exitCode s' =>
      exitCode = -1
      /\ (exists ep, resolve dev ep = 0 /\ message = diagnostic ep)
      /\ exists l, calls s' = calls s ++ l /\ accepted dev (calls s) l = true
  | CheckFailed r s' =>
      exists l c,
        calls s' = calls s ++ l ++ [c]
        /\ accepted dev (calls s) l = true
        /\ answer_of dev (calls s ++ l) c = Some r
        /\ is_success r = false
  end.
Proof.
  pose proof (run_ends_well ms s) as H.
  destruct (run abi dev ms s) as [s' | message exitCode s' | r s'];
    cbn [ends_well] in H.
  - exact H.
  - destruct H as (Hp & Hc & Hep). split; [exact Hc |]. split; [exact Hep |].
    exact Hp.
  - exact H.
Qed.

(** X16: on a device that resolves the five entry points and accepts
    every request whose result the program checks, whatever it answers
    to the creation of the descriptor update template, every run
    returns, and [prepare] leaves the object prepared. *)
Theorem every_run_returns_on_a_conforming_device (ms : list Method)
    (s : VulkanExample) :
  conforming dev ->
  stopped_by (run abi dev ms s) = None
  /\ prepared (final (prepare abi dev s)) = true.
Proof.
  intro Hc. split.
  - apply (conforming_returns _ s Hc). apply run_ends_well.
  - assert (H : stopped_by (prepare abi dev s) = None).
    { apply (conforming_returns _ s Hc). apply ff_prepare, passed_refl. }
    rewrite prepare_cases in *.
    match goal with
    | H : stopped_by (match ?o with _ => _ end) = None |- _ =>
        destruct o as [s1 | m c s1 | r s1]
    end; try discriminate H.
    reflexivity.
Qed.
End Checks.

Lemma every_run_returns_on_a_conforming_device_witness :
  conforming good_device
  /\ stopped_by (run Align64 good_device [Prepare; Render; Render] sample_start)
     = None.
Proof.
  assert (Hc : conforming good_device).
  { split.
    - intro ep. destruct ep; vm_compute; discriminate.
    - intros h c r. destruct c; cbn; intro H; try discriminate H;
        injection H as <-; reflexivity. }
  split; [exact Hc |].
  apply (every_run_returns_on_a_conforming_device Align64 good_device
           [Prepare; Render; Render] sample_start Hc).
Defined.

(** ** The life of the update template *)

Section Lifetime.
Context {G : Glm}.
Variable abi : Abi.
Variable dev : Device.

Lemma grows_of_ends_well (s : VulkanExample) (o : Outcome) :
  ends_well dev s o -> exists l, calls (final o) = calls s ++ l.
Proof.
  destruct o as [s1 | m c s1 | r s1]; cbn [ends_well final].
  - intros (l & Hl & _). exists l. exact Hl.
  - intros ((l & Hl & _) & _). exists l. exact Hl.
  - intros (l & c & Hl & _). exists (l ++ [c]). exact Hl.
Qed.

Lemma requested_preserved (f : Step) :
  (forall s0, fail_fast dev s0 f) ->
  preserves (fun x => existsb is_template_creation (calls x) = true) f.
Proof.
  intros H s Hs.
  destruct (grows_of_ends_well s (f s) (H s s (passed_refl dev s))) as [l Hl].
  rewrite Hl, existsb_app, Hs. reflexivity.
Qed.

Lemma requested_and_then (f g : Step) :
  (forall s s', f s = Ok s' ->
                existsb is_template_creation (calls s') = true) ->
  (forall s0, fail_fast dev s0 g) ->
  forall s s', and_then f g s = Ok s' ->
               existsb is_template_creation (calls s') = true.
Proof.
  intros Hf Hg s s' H. apply and_then_Ok in H. destruct H as (s1 & H1 & H2).
  pose proof (requested_preserved g Hg s1 (Hf s s1 H1)) as Hq.
  rewrite H2 in Hq. exact Hq.
Qed.

Lemma prepare_requests_the_template (s s' : VulkanExample) :
  prepare abi dev s = Ok s' ->
  existsb is_template_creation (calls s') = true.
Proof.
  revert s s'. unfold prepare.
  apply requested_and_then; [apply requested_and_then;
    [apply requested_and_then; [apply requested_and_then;
      [apply requested_and_then; [apply requested_and_then |] |] |] |] |].
  - intros s s2 H. apply and_then_Ok in H. destruct H as (s1 & _ & H2).
    destruct (createDescriptorTemplate_returns abi dev s1) as (s2' & H2' & Hc & _).
    rewrite H2 in H2'. injection H2' as <-.
    rewrite Hc, existsb_app. cbn. apply orb_true_r.
  - apply ff_loadAssets.
  - apply ff_prepareUniformBuffers.
  - apply ff_setupDescriptorSetLayout.
  - apply ff_preparePipelines.
  - apply ff_buildCommandBuffers.
  - intro s0. apply ff_ret. intros s Hs.
    apply (passed_same dev s0 s); [reflexivity | exact Hs].
Qed.

(** X3: once [prepare] has returned, whatever runs after it, the trace
    holds the request that created the descriptor update template, and
    the destructor, with or without a device, hands back no descriptor
    update template: the template is created and never released. *)
Theorem template_is_never_released (device : Handle) (ms : list Method)
    (s : VulkanExample) :
  stopped_by (prepare abi dev s) = None ->
  existsb is_template_creation
    (calls (final (run abi dev ms (final (prepare abi dev s))))) = true
  /\ existsb is_template_release
       (destructor device (final (run abi dev ms (final (prepare abi dev s)))))
     = false.
Proof.
  intro Hok. split.
  - destruct (prepare abi dev s) as [s1 | |] eqn:E; try discriminate Hok.
    cbn [final].
    destruct (grows_of_ends_well s1 _ (run_ends_well abi dev ms s1)) as [l Hl].
    rewrite Hl, existsb_app, (prepare_requests_the_template s s1 E).
    reflexivity.
  - unfold destructor. destruct (device =? VK_NULL_HANDLE); reflexivity.
Qed.
End Lifetime.

Lemma template_is_never_released_witness :
  stopped_by (prepare Align64 good_device sample_start) = None
  /\ existsb is_template_release
       (destructor 7 (final (run Align64 good_device [Render]
                               (final (prepare Align64 good_device sample_start)))))
     = false.
Proof.
  split; [vm_compute; reflexivity |].
  apply (template_is_never_released Align64 good_device 7 [Render] sample_start).
  vm_compute. reflexivity.
Defined.

(** ** What [prepare] creates and what it records with *)

Section Wiring.
Context {G : Glm}.
Variable abi : Abi.
Variable dev : Device.

Lemma create_checked_Ok c (answer : list ApiCall -> VkResult * Handle)
    store (s s' : VulkanExample) :
  create c answer store VK_CHECK_RESULT s = Ok s' ->
  s' = store (snd (answer (calls s))) (call c s).
Proof.
  unfold create, VK_CHECK_RESULT.
  destruct (answer (calls s)) as [res h]. cbn [snd].
  destruct (is_success res); [| discriminate].
  intros [= <-]. reflexivity.
Qed.

Lemma preparePipelines_Ok (s s' : VulkanExample) :
  preparePipelines dev s = Ok s' ->
  calls s' = calls s ++ pipeline_requests s'
  /\ descriptorTemplate s' = descriptorTemplate s
  /\ drawCmdBuffers s' = drawCmdBuffers s.
Proof.
  unfold preparePipelines. intro H.
  apply and_then_Ok in H. destruct H as (s3 & H & H4).
  apply and_then_Ok in H. destruct H as (s2 & H & H3).
  apply and_then_Ok in H. destruct H as (s1 & H1 & H2).
  apply create_checked_Ok in H1. apply ret_Ok in H2. apply ret_Ok in H3.
  apply create_checked_Ok in H4.
  assert (C1 : calls s1 = calls s ++ [vkCreatePipelineLayout [descriptorSetLayout s]])
    by (rewrite H1; reflexivity).
  assert (C2 : calls s2 = calls s1 ++ [loadFromFile "pushdescriptors/cube.vert.spv"])
    by (rewrite H2; reflexivity).
  assert (C3 : calls s3 = calls s2 ++ [loadFromFile "pushdescriptors/cube.frag.spv"])
    by (rewrite H3; reflexivity).
  assert (C4 : calls s' = calls s3 ++ [vkCreateGraphicsPipelines (pipelineLayout s3)])
    by (rewrite H4; reflexivity).
  assert (L4 : pipelineLayout s' = pipelineLayout s3) by (rewrite H4; reflexivity).
  assert (D1 : descriptorSetLayout s1 = descriptorSetLayout s)
    by (rewrite H1; reflexivity).
  assert (D2 : descriptorSetLayout s2 = descriptorSetLayout s1)
    by (rewrite H2; reflexivity).
  assert (D3 : descriptorSetLayout s3 = descriptorSetLayout s2)
    by (rewrite H3; reflexivity).
  assert (D4 : descriptorSetLayout s' = descriptorSetLayout s3)
    by (rewrite H4; reflexivity).
  split; [| split].
  - unfold pipeline_requests.
    rewrite C4, C3, C2, C1, L4, D4, D3, D2, D1, <- !app_assoc. reflexivity.
  - rewrite H4, H3, H2, H1. reflexivity.
  - rewrite H4, H3, H2, H1. reflexivity.
Qed.

Lemma wired_push_call cb i (s x : VulkanExample) :
  descriptorTemplate x = descriptorTemplate s ->
  pipelineLayout x = pipelineLayout s ->
  wired s (push_call cb i x) = true.
Proof.
  intros Ht Hl. unfold push_call.
  destruct (useNew x); cbn [wired pi_descriptorUpdateTemplate pi_layout pi_set];
    rewrite Ht, Hl, !Z.eqb_refl; reflexivity.
Qed.

Lemma wired_recording (s : VulkanExample) :
  forallb (wired s) (recording s) = true.
Proof.
  unfold recording. apply forallb_forall. intros c Hin.
  apply in_flat_map in Hin. destruct Hin as (i & _ & Hin).
  unfold buffer_recording in Hin. cbv zeta in Hin. cbn [In] in Hin.
  repeat (destruct Hin as [<- | Hin]; [try reflexivity |]);
    try contradiction.
  - cbn [wired]. apply Z.eqb_refl.
  - apply wired_push_call; reflexivity.
  - apply wired_push_call; reflexivity.
Qed.

Lemma recording_ext (s0 s : VulkanExample) :
  same_members s0 s -> useNew s = useNew s0 -> recording s = recording s0.
Proof.
  intros H Hu. unfold recording.
  assert (Hd : drawCmdBuffers s = drawCmdBuffers s0).
  { unfold same_members in H.
    repeat match goal with H : _ /\ _ |- _ => destruct H end. assumption. }
  rewrite Hd. apply flat_map_ext. intro i.
  apply buffer_recording_ext; assumption.
Qed.

Lemma recording_set_prepared (b : bool) (s : VulkanExample) :
  recording (set_prepared b s) = recording s.
Proof.
  unfold recording.
  change (drawCmdBuffers (set_prepared b s)) with (drawCmdBuffers s).
  apply flat_map_ext. intro i. unfold buffer_recording, push_call, blob, cube.
  reflexivity.
Qed.

(** X17: when [prepare] returns, the last calls it made are these: it
    asked for a pipeline layout over the binding layout the object now
    holds, loaded the two shaders, asked for a pipeline over the
    pipeline layout the object now holds, and recorded every command
    buffer in full; and in that recording every pipeline bind binds the
    pipeline the object now holds and every binding call pushes through
    the template and the pipeline layout the object now holds, into
    set 0. *)
Theorem prepare_records_with_what_it_created (s : VulkanExample) :
  stopped_by (prepare abi dev s) = None ->
  (exists before,
      calls (final (prepare abi dev s))
      = before ++ pipeline_requests (final (prepare abi dev s))
               ++ recording (final (prepare abi dev s)))
  /\ forallb (wired (final (prepare abi dev s)))
       (recording (final (prepare abi dev s))) = true.
Proof.
  intro Hok. split; [| apply wired_recording].
  destruct (prepare abi dev s) as [s' | |] eqn:E; try discriminate Hok.
  cbn [final]. unfold prepare in E.
  apply and_then_Ok in E. destruct E as (s7 & E & H8).
  apply and_then_Ok in E. destruct E as (s6 & E & H7).
  apply and_then_Ok in E. destruct E as (s5 & _ & H6).
  apply ret_Ok in H8.
  destruct (preparePipelines_Ok s5 s6 H6) as (Hc6 & _ & _).
  destruct (buildCommandBuffers_trace dev s6) as (rest & Hc7 & Hr).
  pose proof (members_buildCommandBuffers dev s6) as Hm.
  rewrite H7 in Hc7, Hr, Hm. cbn [final stopped_by] in Hc7, Hr, Hm.
  destruct (Hr eq_refl) as [-> Hu]. rewrite app_nil_r in Hc7.
  assert (Hrec : recording s' = recording s6).
  { rewrite H8, recording_set_prepared. apply recording_ext; assumption. }
  assert (Hreq : pipeline_requests s' = pipeline_requests s6).
  { unfold same_members in Hm.
    repeat match goal with H : _ /\ _ |- _ => destruct H end.
    rewrite H8. unfold pipeline_requests.
    change (descriptorSetLayout (set_prepared true s7))
      with (descriptorSetLayout s7).
    change (pipelineLayout (set_prepared true s7)) with (pipelineLayout s7).
    congruence. }
  exists (calls s5). rewrite Hrec, Hreq.
  rewrite H8. change (calls (set_prepared true s7)) with (calls s7).
  rewrite <- Hc7, Hc6, <- app_assoc. reflexivity.
Qed.
End Wiring.

Lemma prepare_records_with_what_it_created_witness :
  stopped_by (prepare Align64 good_device sample_start) = None
  /\ forallb (wired (final (prepare Align64 good_device sample_start)))
       (recording (final (prepare Align64 good_device sample_start))) = true.
Proof.
  split; [vm_compute; reflexivity |].
  apply (prepare_records_with_what_it_created Align64 good_device sample_start).
  vm_compute. reflexivity.
Defined.
